(** * Okofan: log-file index and log-record parsing

    A shallow embedding of [okofan.py]: the directory scan that builds the
    date -> path dictionary ([open_action], [load_log_list], [getlogdate],
    [strip_lines]) and the selection of a day ([item_activated],
    [convert_time]).

    The Python source leans on library calls.  Each one is embedded as the
    function the library runs for the arguments the source passes:
    - text files are iterated with [newline=''] (universal line ends, kept);
    - [csv.reader] is the state machine of CPython's [_csv] module for the
      dialect [delimiter=';'], the double quote as [quotechar], [doublequote],
      non strict;
    - [datetime.strptime] is the regular expression [_strptime] builds from
      the format, searched with ordered alternatives and backtracking;
    - [glob.glob] is [posixpath.split] plus [fnmatch] over a directory
      listing (POSIX: names are compared case-sensitively);
    - [numpy.genfromtxt] is the byte-string reader of the numpy 1.x line,
      on a platform whose default integer has 64 bits;
    - [matplotlib.dates.date2num] is the one of matplotlib 2, which asks
      every value for its ordinal.

    Python [str] values are lists of code points, [bytes] values lists of
    bytes.  Blanks are the white-space code points of Unicode, decimal
    digits those of Unicode 14.0, the version CPython 3.11 carries. *)

From Stdlib Require Import ZArith NArith Lia.
From Stdlib Require Import Ascii String.
From Stdlib Require Strings.Byte.
From stdpp Require Import base tactics option list gmap.

#[local] Open Scope N_scope.

(** ** Characters, strings, bytes *)

Abbreviation char := N (only parsing).
Abbreviation str := (list N) (only parsing).
Abbreviation bytes := (list Byte.byte) (only parsing).

#[global] Instance byte_eq_dec : EqDecision Byte.byte := Strings.Byte.byte_eq_dec.

(** [b"..."]: a byte-string literal. *)
Definition b (s : string) : bytes := list_byte_of_string s.

(** ["..."]: a string literal; every character of the literal is taken as
    the code point of its byte. *)
Definition u (s : string) : str := map Byte.to_N (list_byte_of_string s).

Definition LF : char := 10.
Definition CR : char := 13.
Definition NUL : char := 0.

(** [str.isspace] for one character: [Py_UNICODE_ISSPACE]. *)
Definition isspace (c : char) : bool :=
  ((9 <=? c) && (c <=? 13)) || ((28 <=? c) && (c <=? 32))
  || (c =? 133) || (c =? 160) || (c =? 5760)
  || ((8192 <=? c) && (c <=? 8202))
  || (c =? 8232) || (c =? 8233) || (c =? 8239) || (c =? 8287) || (c =? 12288).

(** ASCII decimal digit. *)
Definition isdigit (c : char) : bool := (48 <=? c) && (c <=? 57).

(** The decimal digits of Unicode come in runs of ten, zero to nine: the
    code points of the zeros. *)
Definition decimal_zeros : list N :=
  [48; 1632; 1776; 1984; 2406; 2534; 2662; 2790; 2918; 3046; 3174; 3302; 3430; 3558;
   3664; 3792; 3872; 4160; 4240; 6112; 6160; 6470; 6608; 6784; 6800; 6992; 7088; 7232;
   7248; 42528; 43216; 43264; 43472; 43504; 43600; 44016; 65296; 66720; 68912; 69734;
   69872; 69942; 70096; 70384; 70736; 70864; 71248; 71360; 71472; 71904; 72016; 72784;
   73040; 73120; 92768; 92864; 93008; 120782; 120792; 120802; 120812; 120822; 123200;
   123632; 125264; 130032].

(** [Py_UNICODE_TODECIMAL]: the value of a decimal digit. *)
Definition to_decimal (c : char) : option N :=
  (fun zero => c - zero)
    <$> List.find (fun zero => (zero <=? c) && (c <? zero + 10)) decimal_zeros.

(** [str.isdecimal] for one character; the class [\d] of [re]. *)
Definition isdecimal (c : char) : bool :=
  match to_decimal c with
  | Some _ => true
  | None => false
  end.

Fixpoint drop_while {A} (p : A -> bool) (l : list A) : list A :=
  match l with
  | x :: l' => if p x then drop_while p l' else l
  | [] => []
  end.

(** Drop the elements satisfying [p] from both ends. *)
Definition trim {A} (p : A -> bool) (l : list A) : list A :=
  rev (drop_while p (rev (drop_while p l))).

(** [str.strip()] *)
Definition strip (s : str) : str := trim isspace s.

(** ** Exceptions *)

Inductive exn : Type :=
| ValueError
| UnicodeDecodeError
| OverflowError
| TypeError
| IndexError
| StopIteration
| OSError
| csv_Error
| AttributeError.

#[global] Instance exn_eq_dec : EqDecision exn.
Proof. solve_decision. Defined.

(** [except ValueError]: [UnicodeDecodeError] is a subclass of [ValueError]. *)
Definition is_ValueError (e : exn) : bool :=
  match e with
  | ValueError | UnicodeDecodeError => true
  | _ => false
  end.

Inductive result (A : Type) : Type :=
| Ok (a : A)
| Raise (e : exn).
Arguments Ok {A} a.
Arguments Raise {A} e.

#[global] Instance result_ret : MRet result := @Ok.
#[global] Instance result_bind : MBind result := fun A B f m =>
  match m with
  | Ok a => f a
  | Raise e => Raise e
  end.
#[global] Instance result_fmap : FMap result := fun A B f m =>
  match m with
  | Ok a => Ok (f a)
  | Raise e => Raise e
  end.

Definition raised {A} (m : result A) : bool :=
  match m with
  | Ok _ => false
  | Raise _ => true
  end.

(** Run [f] over a list, left to right, stopping at the first exception. *)
Fixpoint traverse {A B} (f : A -> result B) (l : list A) : result (list B) :=
  match l with
  | [] => Ok []
  | x :: l' => y ← f x; ys ← traverse f l'; Ok (y :: ys)
  end.

(** ** Decimal numbers *)

Definition digit_value (c : char) : N := default 0 (to_decimal c).

(** Value of a run of decimal digits. *)
Definition digits_value (s : str) : N :=
  fold_left (fun acc c => 10 * acc + digit_value c) s 0.

Fixpoint digits_fuel (fuel : nat) (n : N) (acc : str) : str :=
  match fuel with
  | O => acc
  | S fuel' =>
      let acc' := (48 + n mod 10) :: acc in
      if n / 10 =? 0 then acc' else digits_fuel fuel' (n / 10) acc'
  end.

(** ['%d' % n] for a natural number. *)
Definition decimal (n : N) : str := digits_fuel (S (N.size_nat n)) n [].

(** ['%0<w>d' % n] *)
Definition zero_padded (w : nat) (n : N) : str :=
  let d := decimal n in replicate (w - length d) 48 ++ d.

(** [str(z)] for an integer. *)
Definition str_of_int (z : Z) : str :=
  match z with
  | Zneg p => 45 :: decimal (Npos p)
  | _ => decimal (Z.to_N z)
  end.

(** One underscore may separate two digits ([PyLong_FromString], base 10). *)
Fixpoint int_digits (prev_digit : bool) (s : str) (acc : N) : option N :=
  match s with
  | [] => if prev_digit then Some acc else None
  | c :: s' =>
      if isdecimal c then int_digits true s' (10 * acc + digit_value c)
      else if (c =? 95) && prev_digit then
        match s' with
        | d :: _ => if isdecimal d then int_digits false s' acc else None
        | [] => None
        end
      else None
  end.

(** An optional sign, then digits: the text between the blanks of [int(s)]. *)
Definition int_literal (s : str) : option Z :=
  match s with
  | 43 :: s' => Z.of_N <$> int_digits false s' 0
  | 45 :: s' => (fun n => - Z.of_N n)%Z <$> int_digits false s' 0
  | _ => Z.of_N <$> int_digits false s 0
  end.

(** [int(s)] for a [str]. *)
Definition int_of_str (s : str) : result Z :=
  match int_literal (strip s) with
  | Some z => Ok z
  | None => Raise ValueError
  end.

(** ** Text files

    Iterating a file opened with [newline='']: a line ends after LF, after
    CR LF, or after a CR that no LF follows; the line end stays in the line.

    The file is decoded while it is iterated, a chunk of bytes at a time.
    An open file is the list of what the decoder makes of its chunks, in
    order: the text of the chunk, or the [UnicodeDecodeError] that reading
    the chunk raises.  A chunk is read when the text read before it holds
    no complete line any more. *)

Abbreviation text_file := (list (result (list N))) (only parsing).

Fixpoint iter_lines (cur : str) (s : str) : list str :=
  match s with
  | [] => match cur with [] => [] | _ => [rev cur] end
  | c :: s' =>
      if c =? LF then rev (c :: cur) :: iter_lines [] s'
      else if c =? CR then
        match s' with
        | c' :: s'' =>
            if c' =? LF then rev (c' :: c :: cur) :: iter_lines [] s''
            else rev (c :: cur) :: iter_lines [] s'
        | [] => [rev (c :: cur)]
        end
      else iter_lines (c :: cur) s'
  end.

Definition readlines (text : str) : list str := iter_lines [] text.

(** The lines that are complete in the text read so far, and the text
    after them.  A CR at the very end is not taken for a line end yet: the
    decoder of line ends keeps it back until the next chunk shows whether a
    LF follows. *)
Fixpoint complete_lines (cur : str) (s : str) : list str * str :=
  match s with
  | [] => ([], rev cur)
  | c :: s' =>
      if c =? LF then
        let '(lines, pending) := complete_lines [] s' in (rev (c :: cur) :: lines, pending)
      else if c =? CR then
        match s' with
        | c' :: s'' =>
            if c' =? LF then
              let '(lines, pending) := complete_lines [] s'' in
              (rev (c' :: c :: cur) :: lines, pending)
            else
              let '(lines, pending) := complete_lines [] s' in
              (rev (c :: cur) :: lines, pending)
        | [] => ([], rev (c :: cur))
        end
      else complete_lines (c :: cur) s'
  end.

(** What iterating an open file yields: its lines, each as soon as it is
    complete; a chunk that cannot be decoded ends the iteration with its
    exception, at the place of the first line that needs the chunk.  At the
    end of the file the text left over is the last line. *)
Fixpoint file_lines (pending : str) (chunks : text_file) : list (result str) :=
  match chunks with
  | [] => map Ok (readlines pending)
  | Raise e :: _ => [Raise e]
  | Ok chunk :: chunks' =>
      let '(lines, pending) := complete_lines [] (pending ++ chunk) in
      map Ok lines ++ file_lines pending chunks'
  end.

(** [x.replace('\0', '')] *)
Definition remove_nul (x : str) : str := filter (fun c => c ≠ NUL) x.

(** [strip_lines]: keep the lines that are not empty once stripped.  An
    exception of the iterable leaves the generator. *)
Fixpoint strip_lines (iterable : list (result str)) : list (result str) :=
  match iterable with
  | [] => []
  | Raise e :: _ => [Raise e]
  | Ok line :: iterable' =>
      if bool_decide (strip line ≠ []) then Ok line :: strip_lines iterable'
      else strip_lines iterable'
  end.

(** ** [csv.reader]

    The parser of [Modules/_csv.c] with the dialect the source asks for.  No
    escape character is set, so the two escape states are never entered and
    are left out. *)

Inductive parser_state : Type :=
| START_RECORD
| START_FIELD
| IN_FIELD
| IN_QUOTED_FIELD
| QUOTE_IN_QUOTED_FIELD
| EAT_CRNL.

#[global] Instance parser_state_eq_dec : EqDecision parser_state.
Proof. solve_decision. Defined.

Record reader : Type := mk_reader {
  state : parser_state;
  fields : list str;   (* fields of the record saved so far *)
  field : str          (* characters of the field being read *)
}.

Definition delimiter : char := 59.   (* ; *)
Definition quotechar : char := 34.
Definition field_limit : N := 131072.

Definition parse_reset : reader := mk_reader START_RECORD [] [].

Definition parse_save_field (r : reader) (st : parser_state) : reader :=
  mk_reader st (fields r ++ [field r]) [].

Definition parse_add_char (r : reader) (st : parser_state) (c : char) : result reader :=
  if field_limit <=? N.of_nat (length (field r)) then Raise csv_Error
  else Ok (mk_reader st (fields r) (field r ++ [c])).

Definition set_state (r : reader) (st : parser_state) : reader :=
  mk_reader st (fields r) (field r).

Definition is_newline (c : char) : bool := (c =? LF) || (c =? CR).

(** [parse_process_char]; [None] stands for the end-of-line marker the
    reader feeds after the last character of each line. *)
Definition parse_process_char (r : reader) (c : option char) : result reader :=
  let start_field :=
    match c with
    | None => Ok (parse_save_field r START_RECORD)
    | Some x =>
        if is_newline x then Ok (parse_save_field r EAT_CRNL)
        else if x =? quotechar then Ok (set_state r IN_QUOTED_FIELD)
        else if x =? delimiter then Ok (parse_save_field r START_FIELD)
        else parse_add_char r IN_FIELD x
    end in
  match state r with
  | START_RECORD =>
      match c with
      | None => Ok r
      | Some x => if is_newline x then Ok (set_state r EAT_CRNL) else start_field
      end
  | START_FIELD => start_field
  | IN_FIELD =>
      match c with
      | None => Ok (parse_save_field r START_RECORD)
      | Some x =>
          if is_newline x then Ok (parse_save_field r EAT_CRNL)
          else if x =? delimiter then Ok (parse_save_field r START_FIELD)
          else parse_add_char r IN_FIELD x
      end
  | IN_QUOTED_FIELD =>
      match c with
      | None => Ok r
      | Some x =>
          if x =? quotechar then Ok (set_state r QUOTE_IN_QUOTED_FIELD)
          else parse_add_char r IN_QUOTED_FIELD x
      end
  | QUOTE_IN_QUOTED_FIELD =>
      match c with
      | None => Ok (parse_save_field r START_RECORD)
      | Some x =>
          if x =? quotechar then parse_add_char r IN_QUOTED_FIELD x
          else if x =? delimiter then Ok (parse_save_field r START_FIELD)
          else if is_newline x then Ok (parse_save_field r EAT_CRNL)
          else parse_add_char r IN_FIELD x
      end
  | EAT_CRNL =>
      match c with
      | None => Ok (set_state r START_RECORD)
      | Some x => if is_newline x then Ok r else Raise csv_Error
      end
  end.

Arguments parse_process_char : simpl never.

(** The characters of one line.  A NUL in a line is an error of the reader
    (the source removes them before the reader sees the line). *)
Fixpoint parse_line (r : reader) (line : str) : result reader :=
  match line with
  | [] => Ok r
  | c :: line' =>
      if c =? NUL then Raise csv_Error
      else r' ← parse_process_char r (Some c); parse_line r' line'
  end.

(** [Reader_iternext]: lines are consumed until a record is complete.  The
    result is the record and the lines not yet read. *)
Fixpoint reader_loop (r : reader) (lines : list (result str))
    : result (list str * list (result str)) :=
  match lines with
  | [] =>
      if negb (bool_decide (field r = [])) || bool_decide (state r = IN_QUOTED_FIELD)
      then Ok (fields (parse_save_field r (state r)), [])
      else Raise StopIteration
  | Raise e :: _ => Raise e
  | Ok line :: rest =>
      r1 ← parse_line r line;
      r2 ← parse_process_char r1 None;
      if bool_decide (state r2 = START_RECORD) then Ok (fields r2, rest)
      else reader_loop r2 rest
  end.

(** [next(reader)] *)
Definition reader_next (lines : list (result str))
    : result (list str * list (result str)) :=
  reader_loop parse_reset lines.
Arguments reader_next : simpl never.

(** ** Regular expressions

    The fragment of [re] that [_strptime] and [fnmatch] generate.  [rmatch]
    lists the ways a pattern matches a prefix of the text, in the order a
    backtracking matcher tries them: the head of the list is the match that
    [re.match] reports. *)

Inductive re : Type :=
| Eps
| Chr (c : char)               (* an escaped literal character *)
| Cls (p : char -> bool)       (* [\d], [[0-5]], [.] ... *)
| Seq (r1 r2 : re)
| Alt (r1 r2 : re)
| Star (p : char -> bool)      (* greedy [p*] *)
| Plus (p : char -> bool)      (* greedy [p+] *)
| Group (name : char) (r : re) (* [(?P<name>r)] *).

Record rmatched : Type := mk_rmatched {
  matched : str;               (* text consumed *)
  groups : list (char * str);  (* named groups, in order of appearance *)
  rest : str                   (* text left *)
}.

Fixpoint star_match (p : char -> bool) (s : str) : list rmatched :=
  match s with
  | c :: s' =>
      if p c then
        map (fun m => mk_rmatched (c :: matched m) (groups m) (rest m)) (star_match p s')
        ++ [mk_rmatched [] [] s]
      else [mk_rmatched [] [] s]
  | [] => [mk_rmatched [] [] []]
  end.

Fixpoint rmatch (r : re) (s : str) : list rmatched :=
  match r with
  | Eps => [mk_rmatched [] [] s]
  | Chr c =>
      match s with
      | x :: s' => if x =? c then [mk_rmatched [x] [] s'] else []
      | [] => []
      end
  | Cls p =>
      match s with
      | x :: s' => if p x then [mk_rmatched [x] [] s'] else []
      | [] => []
      end
  | Seq r1 r2 =>
      flat_map
        (fun m1 =>
           map (fun m2 => mk_rmatched (matched m1 ++ matched m2) (groups m1 ++ groups m2)
                                      (rest m2))
               (rmatch r2 (rest m1)))
        (rmatch r1 s)
  | Alt r1 r2 => rmatch r1 s ++ rmatch r2 s
  | Star p => star_match p s
  | Plus p =>
      match s with
      | x :: s' =>
          if p x then
            map (fun m => mk_rmatched (x :: matched m) (groups m) (rest m)) (star_match p s')
          else []
      | [] => []
      end
  | Group name r1 =>
      map (fun m => mk_rmatched (matched m) ((name, matched m) :: groups m) (rest m))
          (rmatch r1 s)
  end.

(** [re.match(r, s)] *)
Definition re_match (r : re) (s : str) : option rmatched := head (rmatch r s).

Definition seq_of (rs : list re) : re := foldr Seq Eps rs.
Definition alt_of (rs : list re) : re :=
  match rs with
  | [] => Eps
  | r0 :: rs' => fold_left Alt rs' r0
  end.
Definition range (lo hi : N) : re := Cls (fun c => (48 + lo <=? c) && (c <=? 48 + hi)).
Definition digit : re := Cls isdecimal.
Definition lit (n : N) : re := Chr (48 + n).

(** ** [datetime.strptime] *)

(** The regular expression of a directive ([TimeRE.__init__]); [None] for
    the directives the source does not use. *)
Definition directive (d : char) : option re :=
  let g r := Some (Group d r) in
  if d =? 100 (* %d *) then
    g (alt_of [Seq (lit 3) (range 0 1); Seq (range 1 2) digit; Seq (lit 0) (range 1 9);
               range 1 9; Seq (Chr 32) (range 1 9)])
  else if d =? 109 (* %m *) then
    g (alt_of [Seq (lit 1) (range 0 2); Seq (lit 0) (range 1 9); range 1 9])
  else if d =? 89 (* %Y *) then
    g (seq_of [digit; digit; digit; digit])
  else if d =? 72 (* %H *) then
    g (alt_of [Seq (lit 2) (range 0 3); Seq (range 0 1) digit; digit])
  else if d =? 77 (* %M *) then
    g (alt_of [Seq (range 0 5) digit; digit])
  else if d =? 83 (* %S *) then
    g (alt_of [Seq (lit 6) (range 0 1); Seq (range 0 5) digit; digit])
  else None.

(** [TimeRE.pattern]: a directive becomes its group, a run of blanks becomes
    [\s+], any other character stands for itself. *)
Fixpoint pattern (in_blanks : bool) (format : str) : option re :=
  match format with
  | [] => Some Eps
  | c :: format' =>
      if c =? 37 (* % *) then
        match format' with
        | d :: format'' =>
            r ← directive d; k ← pattern false format''; Some (Seq r k)
        | [] => None
        end
      else if isspace c then
        k ← pattern true format';
        Some (if in_blanks then k else Seq (Plus isspace) k)
      else
        k ← pattern false format'; Some (Seq (Chr c) k)
  end.

Record datetime : Type := mk_datetime {
  year : N; month : N; day : N;
  hour : N; minute : N; second : N
}.

#[global] Instance datetime_eq_dec : EqDecision datetime.
Proof. solve_decision. Defined.

Definition is_leap (y : N) : bool :=
  (y mod 4 =? 0) && (negb (y mod 100 =? 0) || (y mod 400 =? 0)).

Definition days_in_month (y m : N) : N :=
  if m =? 2 then (if is_leap y then 29 else 28)
  else if (m =? 4) || (m =? 6) || (m =? 9) || (m =? 11) then 30
  else 31.

(** The range checks of the [datetime] constructor. *)
Definition valid_datetime (t : datetime) : bool :=
  (1 <=? year t) && (year t <=? 9999)
  && (1 <=? month t) && (month t <=? 12)
  && (1 <=? day t) && (day t <=? days_in_month (year t) (month t))
  && (hour t <=? 23) && (minute t <=? 59) && (second t <=? 59).

Definition group_value (gs : list (char * str)) (d : char) (default : N) : N :=
  match list_find (fun g => g.1 = d) gs with
  | Some (_, (_, txt)) => digits_value (strip txt)
  | None => default
  end.

(** [datetime.strptime(data_string, format)] *)
Definition strptime (data_string format : str) : result datetime :=
  match pattern false format with
  | None => Raise ValueError
  | Some format_regex =>
      match re_match format_regex data_string with
      | None => Raise ValueError               (* does not match format *)
      | Some found =>
          match rest found with
          | _ :: _ => Raise ValueError         (* unconverted data remains *)
          | [] =>
              let gs := groups found in
              let t := mk_datetime (group_value gs 89 1900) (group_value gs 109 1)
                                   (group_value gs 100 1) (group_value gs 72 0)
                                   (group_value gs 77 0) (group_value gs 83 0) in
              if valid_datetime t then Ok t else Raise ValueError
          end
      end
  end.

(** [date.isoformat()] *)
Definition date_isoformat (t : datetime) : str :=
  zero_padded 4 (year t) ++ u "-" ++ zero_padded 2 (month t) ++ u "-" ++ zero_padded 2 (day t).

(** [time.isoformat()] *)
Definition time_isoformat (t : datetime) : str :=
  zero_padded 2 (hour t) ++ u ":" ++ zero_padded 2 (minute t) ++ u ":" ++ zero_padded 2 (second t).

(** [datetime.isoformat()] *)
Definition datetime_isoformat (t : datetime) : str :=
  date_isoformat t ++ u "T" ++ time_isoformat t.

(** ** The operating system

    What the program reads from its surroundings.  A file has a text view
    (the file opened in text mode: its bytes decoded in the locale's
    encoding, chunk by chunk) and a byte view (the file opened in binary
    mode); how the two are related, and where the chunks end, is left to
    the environment. *)

Record os_state : Type := mk_os {
  open_text : str -> result text_file;
                                      (* [open(path, newline='')] *)
  open_bytes : str -> result bytes;   (* [open(path, 'rb')], read to the end *)
  listdir : str -> list str;          (* entry names of a directory, in the order the
                                         system lists them; none if it cannot be listed *)
  iglob_dirs : str -> list str        (* the directories a directory pattern with
                                         wildcard characters expands to *)
}.

(** ** [getlogdate] and [strip_lines] *)

Definition date_format : str := u "%d.%m.%Y".

(** The body of [getlogdate] once the file is open. *)
Definition getlogdate_file (logfile : text_file) : result str :=
  let logfile := map (fmap remove_nul) (file_lines [] logfile) in
  let lines := strip_lines logfile in
  '(_, lines) ← reader_next lines;          (* skip the header *)
  '(row, _) ← reader_next lines;
  match row with
  | [] => Raise IndexError
  | first :: _ =>
      date ← strptime first date_format;
      Ok (date_isoformat date)
  end.

Definition getlogdate (os : os_state) (filepath : str) : result str :=
  open_text os filepath ≫= getlogdate_file.

(** ** [glob.glob] *)

Definition slash : char := 47.

(** [p[:i], p[i:]] for [i = p.rfind('/') + 1] *)
Fixpoint rsplit_slash (p : str) : str * str :=
  match p with
  | [] => ([], [])
  | c :: p' =>
      let '(head, tail) := rsplit_slash p' in
      match head with
      | _ :: _ => (c :: head, tail)
      | [] => if c =? slash then ([c], tail) else ([], c :: tail)
      end
  end.

(** [posixpath.split] *)
Definition posix_split (p : str) : str * str :=
  let '(head, tail) := rsplit_slash p in
  (if bool_decide (drop_while (fun c => c =? slash) head = []) then head
   else rev (drop_while (fun c => c =? slash) (rev head)),
   tail).

(** [posixpath.join(a, b)] *)
Definition posix_join (a b : str) : str :=
  match b with
  | c :: _ => if c =? slash then b
              else if bool_decide (a = []) || bool_decide (last a = Some slash) then a ++ b
              else a ++ slash :: b
  | [] => if bool_decide (a = []) || bool_decide (last a = Some slash) then a
          else a ++ [slash]
  end.

(** [glob.has_magic]: one of the characters of [*?[] occurs. *)
Definition has_magic (s : str) : bool :=
  existsb (fun c => (c =? 42) || (c =? 63) || (c =? 91)) s.

Definition ishidden (path : str) : bool :=
  match path with
  | c :: _ => c =? 46
  | [] => false
  end.

(** The body of a bracket expression up to its closing bracket. *)
Fixpoint class_body (pat : str) : option (str * str) :=
  match pat with
  | [] => None
  | c :: pat' =>
      if c =? 93 then Some ([], pat')
      else '(body, k) ← class_body pat'; Some (c :: body, k)
  end.

(** Membership in a bracket expression made of characters and ranges. *)
Fixpoint in_class (body : str) (c : char) : bool :=
  match body with
  | lo :: 45 :: hi :: body' => ((lo <=? c) && (c <=? hi)) || in_class body' c
  | x :: body' => (x =? c) || in_class body' c
  | [] => false
  end.

(** [fnmatch.translate]: [*] is any run of characters, [?] any character, a
    bracket expression a character class ([!] negates it), anything else
    itself.  Bracket expressions are read as characters and ranges. *)
Fixpoint translate (fuel : nat) (pat : str) : re :=
  match fuel, pat with
  | S fuel', c :: pat' =>
      if c =? 42 then Seq (Star (fun _ => true)) (translate fuel' pat')
      else if c =? 63 then Seq (Cls (fun _ => true)) (translate fuel' pat')
      else if c =? 91 then
        let '(neg, p1) := match pat' with
                          | 33 :: p1 => (true, p1)
                          | _ => (false, pat')
                          end in
        let found := match p1 with
                     | 93 :: p2 => (fun '(body, k) => (93 :: body, k)) <$> class_body p2
                     | _ => class_body p1
                     end in
        match found with
        | None => Seq (Chr c) (translate fuel' pat')
        | Some (body, k) =>
            Seq (Cls (fun x => xorb neg (in_class body x))) (translate fuel' k)
        end
      else Seq (Chr c) (translate fuel' pat')
  | _, _ => Eps
  end.

(** [fnmatch.fnmatchcase]: the translated pattern must match the whole name. *)
Definition fnmatch (name pat : str) : bool :=
  existsb (fun m => bool_decide (rest m = [])) (rmatch (translate (length pat) pat) name).

(** [glob._glob1] *)
Definition glob1 (os : os_state) (dirname pattern : str) : list str :=
  let names := listdir os dirname in
  let names := if ishidden pattern then names
               else filter (fun x => ishidden x = false) names in
  filter (fun name => fnmatch name pattern = true) names.

(** [glob.glob(pathname)] for a pathname whose last component has wildcard
    characters and whose directory part is not empty, the only shape
    [open_action] builds. *)
Definition glob (os : os_state) (pathname : str) : list str :=
  let '(dirname, basename) := posix_split pathname in
  let dirs := if has_magic dirname then iglob_dirs os dirname else [dirname] in
  dirname ← dirs;
  name ← glob1 os dirname basename;
  [posix_join dirname name].

(** ** Byte strings *)

Definition byte_is (n : N) (x : Byte.byte) : bool := Byte.to_N x =? n.

(** The blanks of [bytes.strip()] and of [int(b)]: ASCII white space. *)
Definition is_ascii_space (x : Byte.byte) : bool :=
  let c := Byte.to_N x in ((9 <=? c) && (c <=? 13)) || (c =? 32).

(** [bytes.strip()] *)
Definition bstrip (v : bytes) : bytes := trim is_ascii_space v.

(** [v.split(sep)] for a one-byte separator. *)
Fixpoint bsplit (sep : N) (v : bytes) : list bytes :=
  match v with
  | [] => [[]]
  | x :: v' =>
      if byte_is sep x then [] :: bsplit sep v'
      else match bsplit sep v' with
           | piece :: pieces => (x :: piece) :: pieces
           | [] => [[x]]
           end
  end.

(** The lines of a file iterated in binary mode: each ends after its LF. *)
Fixpoint iter_blines (cur : bytes) (v : bytes) : list bytes :=
  match v with
  | [] => match cur with [] => [] | _ => [rev cur] end
  | x :: v' =>
      if byte_is 10 x then rev (x :: cur) :: iter_blines [] v'
      else iter_blines (x :: cur) v'
  end.

Definition continuation (x : N) : bool := (128 <=? x) && (x <=? 191).

(** [bytes.decode()]: strict UTF-8. *)
Fixpoint utf8_decode (fuel : nat) (v : list N) : result str :=
  match fuel, v with
  | _, [] => Ok []
  | O, _ => Raise UnicodeDecodeError
  | S fuel', x :: v1 =>
      if x <=? 127 then cs ← utf8_decode fuel' v1; Ok (x :: cs)
      else if (194 <=? x) && (x <=? 223) then
        match v1 with
        | y :: v2 =>
            if continuation y
            then cs ← utf8_decode fuel' v2; Ok (((x - 192) * 64 + (y - 128)) :: cs)
            else Raise UnicodeDecodeError
        | _ => Raise UnicodeDecodeError
        end
      else if (224 <=? x) && (x <=? 239) then
        match v1 with
        | y :: z :: v3 =>
            if continuation y && continuation z
               && (negb (x =? 224) || (160 <=? y))
               && (negb (x =? 237) || (y <=? 159))
            then cs ← utf8_decode fuel' v3;
                 Ok (((x - 224) * 4096 + (y - 128) * 64 + (z - 128)) :: cs)
            else Raise UnicodeDecodeError
        | _ => Raise UnicodeDecodeError
        end
      else if (240 <=? x) && (x <=? 244) then
        match v1 with
        | y :: z :: w :: v4 =>
            if continuation y && continuation z && continuation w
               && (negb (x =? 240) || (144 <=? y))
               && (negb (x =? 244) || (y <=? 143))
            then cs ← utf8_decode fuel' v4;
                 Ok (((x - 240) * 262144 + (y - 128) * 4096 + (z - 128) * 64 + (w - 128)) :: cs)
            else Raise UnicodeDecodeError
        | _ => Raise UnicodeDecodeError
        end
      else Raise UnicodeDecodeError
  end.

Definition decode (v : bytes) : result str :=
  utf8_decode (length v) (map Byte.to_N v).

(** ** [convert_time] *)

Definition timestamp_format : str := u "%Y-%m-%d %H:%M:%S".

Definition convert_time (timestring : bytes) (date : str) : result datetime :=
  t ← decode timestring;
  strptime (date ++ u " " ++ t) timestamp_format.

(** ** [numpy.genfromtxt]

    The call of [item_activated]: [delimiter=';'], [usecols=range(1, 13)],
    [names=True], [autostrip=True], [unpack=True],
    [filling_values='Burning'], twelve column types (object, ten integers,
    object), and converters for the first and the last column used. *)

Inductive pyobj : Type :=
| Int (z : Z)
| Datetime (t : datetime)
| Str (s : str).

#[global] Instance pyobj_eq_dec : EqDecision pyobj.
Proof. solve_decision. Defined.

(** One row of a log file, with the field names the source gives the
    array. *)
Record LogRecord : Type := mk_record {
  Time : pyobj;
  KF : Z; RGF : Z; SP_FRT : Z; FRT : Z; ES : Z;
  PA : Z; LL : Z; SZ : Z; SP_uP : Z; uP : Z;
  SM : pyobj
}.

(** What [genfromtxt] returns after [squeeze]: an array of rows, or, when
    the file has exactly one data row, a zero-dimensional array. *)
Inductive ndarray : Type :=
| Array0 (r : LogRecord)
| Array1 (rows : list LogRecord).

Definition comments : N := 35.   (* # *)
Definition filling_values : pyobj := Str (u "Burning").

(** [LineSplitter]: cut the comment, strip blanks and line ends, split at the
    delimiter, strip every field. *)
Definition split_line (line : bytes) : list bytes :=
  let line := default [] (head (bsplit comments line)) in
  let line := trim (fun x => byte_is 32 x || byte_is 13 x || byte_is 10 x) line in
  match line with
  | [] => []
  | _ => map bstrip (bsplit delimiter line)
  end.

(** The first line that has values: the header.  The text before a comment
    sign is dropped from it. *)
Fixpoint find_first_values (fhd : list bytes) : option (list bytes * list bytes) :=
  match fhd with
  | [] => None
  | first_line :: fhd' =>
      let first_line :=
        if existsb (byte_is comments) first_line
        then concat (tail (bsplit comments first_line))
        else first_line in
      match split_line first_line with
      | [] => find_first_values fhd'
      | first_values => Some (first_values, fhd')
      end
  end.

(** The number of column names the header leaves once the columns in use
    are selected. *)
Definition header_names (first_values : list bytes) : nat :=
  let names := match first_values with
               | fval :: others =>
                   if bool_decide (fval = []) then others else first_values
               | [] => []
               end in
  if decide (12 < length names)%nat then 12%nat else length names.

(** [np.int64(v)]: the converter of an integer column. *)
Definition np_int64 (v : bytes) : result pyobj :=
  match int_literal (map Byte.to_N (bstrip v)) with
  | None => Raise ValueError
  | Some z =>
      if ((- 2 ^ 63 <=? z) && (z <? 2 ^ 63))%Z then Ok (Int z)
      else Raise OverflowError
  end.

(** The twelve converters: [convert_time(s, date)], [np.int64] ten times,
    [s.decode()]. *)
Definition converters (date : str) : list (bytes -> result pyobj) :=
  [fun s => Datetime <$> convert_time s date]
  ++ replicate 10 np_int64
  ++ [fun s => Str <$> decode s].

(** [StringConverter._loose_call]: a [ValueError] of the converter gives the
    filling value. *)
Definition loose_call (func : bytes -> result pyobj) (value : bytes) : result pyobj :=
  match func value with
  | Ok x => Ok x
  | Raise e => if is_ValueError e then Ok filling_values else Raise e
  end.

(** Storing a row in the array: an integer column takes integers only. *)
Definition make_record (cells : list pyobj) : result LogRecord :=
  match cells with
  | [t; Int a1; Int a2; Int a3; Int a4; Int a5; Int a6; Int a7; Int a8; Int a9; Int a10; s] =>
      Ok (mk_record t a1 a2 a3 a4 a5 a6 a7 a8 a9 a10 s)
  | _ => Raise ValueError
  end.

(** The data rows: the lines after the header that have values. *)
Definition data_lines (fhd : list bytes) : list (list bytes) :=
  filter (fun values => values ≠ []) (map split_line fhd).

(** [usecols]: values 1 to 12 of a line. *)
Definition usecols (values : list bytes) : list bytes := take 12 (drop 1 values).

Definition column {A} (i : nat) (d : A) (rows : list (list A)) : list A :=
  map (fun row => nth i row d) rows.

Definition genfromtxt (os : os_state) (fname : str) (date : str) : result ndarray :=
  contents ← open_bytes os fname;
  match find_first_values (iter_blines [] contents) with
  | None => Raise IndexError
  | Some (first_values, fhd) =>
      let lines := data_lines fhd in
      if existsb (fun values => Nat.ltb (length values) 13) lines
      then Raise ValueError                       (* lines with too few columns *)
      else
        let rows := map usecols lines in
        (* every column is converted in turn *)
        columns ← traverse
                    (fun '(i, conv) => traverse (loose_call conv) (column i [] rows))
                    (zip (seq 0 12) (converters date));
        let nbnames := header_names first_values in
        if bool_decide (1 ≤ nbnames ≤ 11)%nat
        then Raise ValueError                     (* the names do not fit the columns *)
        else
          output ← traverse
                     (fun k => make_record (column k (Int 0) columns))
                     (seq 0 (length rows));
          match output with
          | [r] => Ok (Array0 r)
          | _ => Ok (Array1 output)
          end
  end.

(** ** The main window

    [MainWindow.logfiles] is a dictionary created with the class.  Writing
    [self.logfiles[date] = file] changes the dictionary [self.logfiles]
    resolves to; assigning [self.logfiles = ...] gives the window an
    attribute of its own that hides the one of the class from then on. *)

Record MainWindow : Type := mk_window {
  class_logfiles : gmap str str;           (* the dictionary held by the class *)
  self_logfiles : option (gmap str str);   (* the attribute of the window, once assigned *)
  loglist : list str;                      (* rows of the overview table *)
  logdetaillist : list (list str);         (* rows of the detail table *)
  warnings : list str;                     (* texts of the warning boxes shown *)
  graphs : list (list pyobj * list Z * list pyobj);
                                           (* data of the canvases added to the graph tab *)
  currentIndex : nat                       (* tab shown *)
}.

(** [self.logfiles] *)
Definition logfiles (w : MainWindow) : gmap str str :=
  default (class_logfiles w) (self_logfiles w).
Arguments logfiles : simpl never.

(** The window after [__init__]. *)
Definition initial_window : MainWindow := mk_window ∅ None [] [] [] [] 0.

(** [self.logfiles[date] = file] *)
Definition logfiles_setitem (w : MainWindow) (date file : str) : MainWindow :=
  match self_logfiles w with
  | Some d =>
      mk_window (class_logfiles w) (Some (<[date := file]> d))
                (loglist w) (logdetaillist w) (warnings w) (graphs w) (currentIndex w)
  | None =>
      mk_window (<[date := file]> (class_logfiles w)) None
                (loglist w) (logdetaillist w) (warnings w) (graphs w) (currentIndex w)
  end.

(** [self.logfiles = d] *)
Definition logfiles_assign (w : MainWindow) (d : gmap str str) : MainWindow :=
  mk_window (class_logfiles w) (Some d)
            (loglist w) (logdetaillist w) (warnings w) (graphs w) (currentIndex w).

Definition set_loglist (w : MainWindow) (rows : list str) : MainWindow :=
  mk_window (class_logfiles w) (self_logfiles w)
            rows (logdetaillist w) (warnings w) (graphs w) (currentIndex w).

Definition set_logdetaillist (w : MainWindow) (rows : list (list str)) : MainWindow :=
  mk_window (class_logfiles w) (self_logfiles w)
            (loglist w) rows (warnings w) (graphs w) (currentIndex w).

Definition warning (w : MainWindow) (text : str) : MainWindow :=
  mk_window (class_logfiles w) (self_logfiles w)
            (loglist w) (logdetaillist w) (warnings w ++ [text]) (graphs w) (currentIndex w).

Definition show_graph (w : MainWindow) (g : list pyobj * list Z * list pyobj) : MainWindow :=
  mk_window (class_logfiles w) (self_logfiles w)
            (loglist w) (logdetaillist w) (warnings w) (graphs w ++ [g]) 1.

(** ** [load_log_list]

    [wasCanceled i] is the answer of the progress dialog after its value was
    set to [i].  A call ends with the window it leaves and either a plain
    return or the exception that leaves the method. *)

Fixpoint load_loop (os : os_state) (wasCanceled : nat -> bool)
    (logfilescopy : gmap str str) (w : MainWindow) (logdata : list str)
    (i : nat) (files : list str) : MainWindow * result (option (list str)) :=
  match files with
  | [] => (w, Ok (Some logdata))
  | file :: files' =>
      match getlogdate os file with
      | Raise e => (w, Raise e)
      | Ok date =>
          let w := logfiles_setitem w date file in
          let logdata := logdata ++ [date] in
          if wasCanceled i then (logfiles_assign w logfilescopy, Ok None)
          else load_loop os wasCanceled logfilescopy w logdata (S i) files'
      end
  end.

Definition load_log_list (os : os_state) (wasCanceled : nat -> bool)
    (w : MainWindow) (files : list str) : MainWindow * result unit :=
  let logfilescopy := logfiles w in               (* copy.deepcopy *)
  match load_loop os wasCanceled logfilescopy w [] 1 files with
  | (w, Raise e) => (w, Raise e)
  | (w, Ok None) => (w, Ok ())                    (* canceled *)
  | (w, Ok (Some logdata)) => (set_loglist w logdata, Ok ())
  end.

(** ** [open_action]

    [directory] is what the directory chooser returns: the empty string
    when the user closed it. *)

Definition logfile_pattern : str :=
  u "CM" ++ concat (replicate 6 (u "[0-9]")) ++ u ".csv".

Definition open_action (os : os_state) (directory : str) (wasCanceled : nat -> bool)
    (w : MainWindow) : MainWindow * result unit :=
  match directory with
  | [] => (w, Ok ())
  | _ =>
      let filelist := glob os (directory ++ u "/" ++ logfile_pattern) in
      match filelist with
      | [] => (w, Ok ())
      | _ => load_log_list os wasCanceled w filelist
      end
  end.

(** ** [item_activated] *)

Inductive activation : Type :=
| TableItem (text : str)          (* a [QTableWidgetItem] of the overview table *)
| QDate (y m d : N)               (* a day of the calendar *)
| OtherParam.

(** The text of a cell of the detail table. *)
Definition cell_text (coldata : pyobj) : str :=
  match coldata with
  | Datetime t => time_isoformat t
  | Int z => str_of_int z
  | Str s => s
  end.

(** [matplotlib.dates.date2num] over a column: every value is asked for
    its ordinal ([toordinal]), which only a point in time has.  The numbers
    are left out of the model: a point in time stands for its number. *)
Definition date2num (d : list pyobj) : result (list pyobj) :=
  traverse (fun x => match x with
                     | Datetime _ => Ok x
                     | _ => Raise AttributeError
                     end) d.

Definition record_cells (r : LogRecord) : list pyobj :=
  [Time r; Int (KF r); Int (RGF r); Int (SP_FRT r); Int (FRT r); Int (ES r);
   Int (PA r); Int (LL r); Int (SZ r); Int (SP_uP r); Int (uP r); SM r].

Definition item_activated (os : os_state) (param : activation) (w : MainWindow)
    : MainWindow * result unit :=
  let selected :=
    match param with
    | TableItem text => Some text
    | QDate y m d => Some (zero_padded 4 y ++ u "-" ++ zero_padded 2 m ++ u "-" ++ zero_padded 2 d)
    | OtherParam => None
    end in
  match selected with
  | None => (w, Ok ())
  | Some date =>
      match logfiles w !! date with
      | None => (warning w (u "No log for day '" ++ date ++ u "' found."), Ok ())
      | Some path =>
          match genfromtxt os path date with
          | Raise e => (w, Raise e)
          | Ok (Array0 _) => (w, Raise TypeError)            (* len() of an unsized array *)
          | Ok (Array1 []) => (set_logdetaillist w [], Raise IndexError)   (* logdata[0] *)
          | Ok (Array1 logdata) =>
              let w := set_logdetaillist w (map (fun r => map cell_text (record_cells r)) logdata) in
              match date2num (map Time logdata) with
              | Raise e => (w, Raise e)
              | Ok x => (show_graph w (x, map FRT logdata, map SM logdata), Ok ())
              end
          end
      end
  end.

(** ** Example directories

    A directory is given by its entries, each with the lines of the file;
    lines end with CR LF, as the logs of the heating controller do. *)

Definition file_text (rows : list string) : str :=
  concat (map (fun row => u row ++ [CR; LF]) rows).

Definition file_bytes (rows : list string) : bytes :=
  concat (map (fun row => b row ++ [Byte.x0d; Byte.x0a]) rows).

Definition entry_rows (dir : str) (entries : list (string * list string)) (path : str)
    : option (list string) :=
  snd <$> (snd <$> list_find (fun e => posix_join dir (u e.1) = path) entries).

Definition directory_os (dir : str) (entries : list (string * list string)) : os_state :=
  mk_os (fun path => match entry_rows dir entries path with
                     | Some rows => Ok [Ok (file_text rows)]
                     | None => Raise OSError
                     end)
        (fun path => match entry_rows dir entries path with
                     | Some rows => Ok (file_bytes rows)
                     | None => Raise OSError
                     end)
        (fun d => if bool_decide (d = dir) then map (fun e => u e.1) entries else [])
        (fun _ => []).

Definition header_row : string :=
  "Datum;Zeit;KF;RGF;SP_FRT;FRT;ES;PA;LL;SZ;SP_uP;uP;SM"%string.

(** Five logs of one data row each, for the first five days of 2024. *)
Definition five_logs : os_state :=
  directory_os (u "/logs")
    [("CM240101.csv", [header_row; "01.01.2024;00:00:10;1;2;3;4;5;6;7;8;9;10;Burning"]);
     ("CM240102.csv", [header_row; "02.01.2024;00:00:10;1;2;3;4;5;6;7;8;9;10;Burning"]);
     ("CM240103.csv", [header_row; "03.01.2024;00:00:10;1;2;3;4;5;6;7;8;9;10;Burning"]);
     ("CM240104.csv", [header_row; "04.01.2024;00:00:10;1;2;3;4;5;6;7;8;9;10;Burning"]);
     ("CM240105.csv", [header_row; "05.01.2024;00:00:10;1;2;3;4;5;6;7;8;9;10;Burning"])]%string.

Definition five_files : list str :=
  map (fun name => u "/logs/" ++ u name)
      ["CM240101.csv"; "CM240102.csv"; "CM240103.csv"; "CM240104.csv"; "CM240105.csv"]%string.

(** A window that already knows one log of an earlier scan. *)
Definition earlier_window : MainWindow :=
  mk_window {[ u "2023-12-31" := u "/old/CM231231.csv" ]} None [u "2023-12-31"] [] [] [] 0.

(** Three logs; the third has nothing but its header. *)
Definition broken_logs : os_state :=
  directory_os (u "/logs")
    [("CM240101.csv", [header_row; "01.01.2024;00:00:10;1;2;3;4;5;6;7;8;9;10;Burning"]);
     ("CM240102.csv", [header_row; "02.01.2024;00:00:10;1;2;3;4;5;6;7;8;9;10;Burning"]);
     ("CM240103.csv", [header_row]);
     ("CM240104.csv", [header_row; "04.01.2024;00:00:10;1;2;3;4;5;6;7;8;9;10;Burning"])]%string.

Definition broken_files : list str :=
  map (fun name => u "/logs/" ++ u name)
      ["CM240101.csv"; "CM240102.csv"; "CM240103.csv"; "CM240104.csv"]%string.

(** A directory without logs. *)
Definition no_logs : os_state :=
  directory_os (u "/logs")
    [("notes.txt", ["nothing"]); ("CM24010.csv", [header_row]); ("CM240101.CSV", [header_row])]%string.

(** [posixpath.basename] *)
Definition basename (p : str) : str := (posix_split p).2.

(** The name of a log file in the words of the specification: CM, exactly
    six digits, the extension .csv in small letters. *)
Definition logfile_name (name : str) : Prop :=
  exists digits, length digits = 6%nat
                 /\ Forall (fun c => isdigit c = true) digits
                 /\ name = u "CM" ++ digits ++ u ".csv".

(** What the user does with the window: choose a directory (the system as
    it is then, the chosen directory, the answers of the progress dialog),
    or activate an item. *)
Inductive event : Type :=
| OpenDirectory (os : os_state) (directory : str) (wasCanceled : nat -> bool)
| Activate (os : os_state) (param : activation).

Definition handle (w : MainWindow) (ev : event) : MainWindow :=
  match ev with
  | OpenDirectory os directory wasCanceled => (open_action os directory wasCanceled w).1
  | Activate os param => (item_activated os param w).1
  end.

(** The window after a series of events, from the start of the program. *)
Definition run (evs : list event) : MainWindow := foldl handle initial_window evs.

(** The lines of an open file that reach the csv reader. *)
Definition logical_lines (logfile : text_file) : list (result str) :=
  strip_lines (map (fmap remove_nul) (file_lines [] logfile)).

(** The lines of a text that reach the csv reader when a file decodes to
    it. *)
Definition text_lines (text : str) : list str :=
  filter (fun line => strip line ≠ []) (map remove_nul (readlines text)).

(** The record the csv reader makes of one line that is a record by
    itself. *)
Definition record_of_line (line : str) : result (list str) :=
  r1 ← parse_line parse_reset line;
  r2 ← parse_process_char r1 None;
  Ok (fields r2).

(** Two files with the same header and first data row; the header opens a
    quoted field that only the third line closes. *)
Definition quoted_header (last_row : string) : str :=
  u "Datum;" ++ [quotechar] ++ u "Zeit" ++ [LF]
  ++ u "01.01.2024;00:00:10" ++ [LF]
  ++ [quotechar] ++ u ";KF" ++ [LF]
  ++ u last_row ++ [LF].

(** Files given by what the decoder makes of their chunks. *)
Definition text_os (files : list (string * list (result (list N)))) : os_state :=
  mk_os (fun path => match list_find (fun f => u f.1 = path) files with
                     | Some (_, (_, chunks)) => Ok chunks
                     | None => Raise OSError
                     end)
        (fun _ => Raise OSError) (fun _ => []) (fun _ => []).

Definition quoted_logs : os_state :=
  text_os [("/logs/CM240202.csv", [Ok (quoted_header "02.02.2024;00:00:10")]);
           ("/logs/CM240303.csv", [Ok (quoted_header "03.03.2024;00:00:10")])]%string.

(** Two logs with the same header and first data row.  The first goes on
    with a second data row that comes in two chunks; the second starts with
    a blank line and has a second chunk that cannot be decoded. *)
Definition tail_logs : os_state :=
  text_os [("/logs/CM240101.csv"%string,
            [Ok (app (file_text [header_row; "01.01.2024;00:00:10"; " "]%string)
                     (u "02.01.2024;00:"));
             Ok (app (u "01:10") [CR; LF])]);
           ("/logs/CM240102.csv"%string,
            [Ok (file_text [" "; header_row; "01.01.2024;00:00:10"; "garbage"]%string);
             Raise UnicodeDecodeError])].

(** A log with two data rows, a log with a header only, and a log whose
    first data row is cut by a chunk that cannot be decoded. *)
Definition short_logs : os_state :=
  text_os [("/logs/CM240101.csv"%string,
            [Ok (file_text [" "; header_row; "1.1.2024;00:00:10;1";
                            "2.1.2024;0:0:20;1"]%string)]);
           ("/logs/CM240102.csv"%string,
            [Ok (file_text [" "; header_row; " "]%string)]);
           ("/logs/CM240103.csv"%string,
            [Ok (app (file_text [header_row]%string) (u "01.01.2024;00:"));
             Raise UnicodeDecodeError])].

(** The same log three times: with a blank line, and cut into chunks at
    two different places. *)
Definition blank_logs : os_state :=
  text_os [("/logs/CM240101.csv"%string,
            [Ok (app (u header_row) [CR; LF]);
             Ok (app [NUL; 32; NUL; CR; LF] (app (u "01.01.2024;00:00:10") [LF]))]);
           ("/logs/CM240102.csv"%string,
            [Ok (app (u header_row) (CR :: LF :: u "01.01.2024;00:"));
             Ok (app (u "00:10") [LF])]);
           ("/logs/CM240103.csv"%string,
            [Ok (app (u header_row) [CR]);
             Ok (LF :: app (u "01.01.2024;00:00:10") [LF])])].

(** The records of an array, also of the zero-dimensional one. *)
Definition array_rows (a : ndarray) : list LogRecord :=
  match a with
  | Array0 r => [r]
  | Array1 rows => rows
  end.

(** The data rows [genfromtxt] finds in a file: for each line after the
    header that has values, its fields. *)
Definition raw_rows (contents : bytes) : list (list bytes) :=
  match find_first_values (iter_blines [] contents) with
  | Some (_, fhd) => data_lines fhd
  | None => []
  end.

(** The status of a row as the code computes it: the decoded field, or the
    filling value when it cannot be decoded. *)
Definition decoded_status (raw : bytes) : pyobj :=
  match decode raw with
  | Ok text => Str text
  | Raise _ => Str (u "Burning")
  end.

Definition known_statuses : list string :=
  ["Zuendung"; "Softstrt"; "Burning"; "Nachlauf"]%string.

(** The status of a row in the words of the specification: one of the four
    known words stays, anything else becomes Burning. *)
Definition claimed_status (raw : bytes) : pyobj :=
  if bool_decide (raw ∈ map b known_statuses) then Str (map Byte.to_N raw)
  else Str (u "Burning").

(** A field of a numeric column that is not an integer. *)
Definition non_integer (v : bytes) : Prop :=
  int_literal (map Byte.to_N (bstrip v)) = None.

(** The twelve columns with their numbers. *)
Definition numbered_converters (date : str) : list (nat * (bytes -> result pyobj)) :=
  zip (seq 0 12) (converters date).

(** Two data rows; the status of the first is none of the four known. *)
Definition standby_logs : os_state :=
  directory_os (u "/logs")
    [("CM240101.csv", [header_row;
                       "01.01.2024;00:00:10;1;2;3;4;5;6;7;8;9;10;Standby";
                       "01.01.2024;00:01:10;1;2;3;4;5;6;7;8;9;10;Zuendung"])]%string.

(** Two data rows; the second has a decimal fraction in a numeric column. *)
Definition fraction_logs : os_state :=
  directory_os (u "/logs")
    [("CM240101.csv", [header_row;
                       "01.01.2024;00:00:10;1;2;3;4;5;6;7;8;9;10;Burning";
                       "01.01.2024;00:01:10;1;2;3;4.5;5;6;7;8;9;10;Burning"])]%string.

(** The window after the scan of a directory that holds the log of the
    first day of 2024. *)
Definition scanned_window : MainWindow :=
  mk_window {[ u "2024-01-01" := u "/logs/CM240101.csv" ]} None [u "2024-01-01"] [] [] [] 0.

(** An error of [item_activated] that is caught and told to the user: the
    method returns normally and a warning box was shown. *)
Definition recovered_with_message (w : MainWindow) (end_ : MainWindow * result unit) : Prop :=
  end_.2 = Ok () /\ warnings end_.1 ≠ warnings w.

(** The example of the specification: one log with one data row.  The row
    as the specification prints it has a year of two digits. *)
Definition spec_example_logs : os_state :=
  directory_os (u "/logs")
    [("CM130513.csv", [header_row; "01.01.24;09:05:03;1;2;3;4;5;6;7;8;9;10;Burning"])]%string.

(** The same log with the year written out. *)
Definition example_logs : os_state :=
  directory_os (u "/logs")
    [("CM130513.csv", [header_row; "01.01.2024;09:05:03;1;2;3;4;5;6;7;8;9;10;Burning"])]%string.

Definition example_record : LogRecord :=
  mk_record (Datetime (mk_datetime 2024 1 1 9 5 3)) 1 2 3 4 5 6 7 8 9 10 (Str (u "Burning")).

(** The group of a directive of the two formats of the source. *)
Definition group_of (d : char) : re := default Eps (directive d).

(** The pattern of the format of [convert_time]. *)
Definition timestamp_regex : re :=
  Seq (group_of 89) (Seq (Chr 45) (Seq (group_of 109) (Seq (Chr 45) (Seq (group_of 100)
  (Seq (Plus isspace) (Seq (group_of 72) (Seq (Chr 58) (Seq (group_of 77) (Seq (Chr 58)
  (Seq (group_of 83) Eps)))))))))).

(** The two ways a log writes a number below 100: as it is, or with two
    digits. *)
Definition spellings (n : N) : list str := [decimal n; zero_padded 2 n].

(** A match put behind text already matched. *)
Definition after (pre : str) (gs : list (char * str)) (m : rmatched) : rmatched :=
  mk_rmatched (pre ++ matched m) (gs ++ groups m) (rest m).

Definition starts_with (p : char -> bool) (s : str) : bool :=
  match s with
  | c :: _ => p c
  | [] => false
  end.

(** A year is printed with four digits that read as the year. *)
Definition four_digits (y : N) : bool :=
  match zero_padded 4 y with
  | [a; b; c; d] =>
      isdigit a && isdigit b && isdigit c && isdigit d
      && (digits_value (strip [a; b; c; d]) =? y)
  | _ => false
  end.

(** Two logs that carry the same date. *)
Definition twin_logs : os_state :=
  directory_os (u "/logs")
    [("CM240101.csv", [header_row; "01.01.2024;00:00:10;1;2;3;4;5;6;7;8;9;10;Burning"]);
     ("CM240102.csv", [header_row; "01.01.2024;00:00:10;1;2;3;4;5;6;7;8;9;10;Burning"])]%string.

(** The ten numbers of a record, in the order of the columns. *)
Definition numbers (r : LogRecord) : list Z :=
  [KF r; RGF r; SP_FRT r; FRT r; ES r; PA r; LL r; SZ r; SP_uP r; uP r].

(** The time of a row as the code computes it: the time field read on the
    selected date, or the filling value when it cannot be read. *)
Definition converted_time (raw : bytes) (date : str) : pyobj :=
  match convert_time raw date with
  | Ok t => Datetime t
  | Raise _ => Str (u "Burning")
  end.

(** Two data rows; the time of the second is none. *)
Definition odd_time_logs : os_state :=
  directory_os (u "/logs")
    [("CM240101.csv", [header_row;
                       "01.01.2024;00:00:10;1;2;3;4;5;6;7;8;9;10;Burning";
                       "01.01.2024;24:00:00;+1;-2;03;4;5;6;7;8;9;10;Burning"])]%string.

(** [output.squeeze()] for the rows of a file. *)
Definition squeeze (rows : list LogRecord) : ndarray :=
  match rows with
  | [r] => Array0 r
  | _ => Array1 rows
  end.

(** ** [selection_changed] and [overview_cal_clicked] *)

Definition iso_date_format : str := u "%Y-%m-%d".

(** [selection_changed], for the texts of the selected items of the
    overview table: the date handed to [setSelectedDate]. *)
Definition selection_changed (selectedItems : list str) : result datetime :=
  match selectedItems with
  | [] => Raise IndexError
  | selected :: _ => strptime selected iso_date_format
  end.

(** [date.toString('yyyy-MM-dd')] for a day of the calendar. *)
Definition QDate_toString (y m d : N) : str :=
  zero_padded 4 y ++ u "-" ++ zero_padded 2 m ++ u "-" ++ zero_padded 2 d.

(** [findItems(text, MatchExactly)]: the rows of a table of one column
    whose text is the given one. *)
Definition findItems (rows : list str) (text : str) : list nat :=
  filter (fun i => rows !! i = Some text) (seq 0 (length rows)).

(** [overview_cal_clicked]: the rows of the overview table it selects, one
    after the other; with single selection the last one stays selected. *)
Definition overview_cal_clicked (y m d : N) (w : MainWindow) : list nat :=
  findItems (loglist w) (QDate_toString y m d).

(** The pattern of the format of [selection_changed]. *)
Definition iso_date_regex : re :=
  Seq (group_of 89) (Seq (Chr 45) (Seq (group_of 109) (Seq (Chr 45)
  (Seq (group_of 100) Eps)))).

(** A text is the ISO form of a day of the calendar. *)
Definition iso_date (text : str) : Prop :=
  exists t, valid_datetime t = true /\ text = date_isoformat t.

(** Midnight of a day. *)
Definition midnight (t : datetime) : datetime :=
  mk_datetime (year t) (month t) (day t) 0 0 0.

(** [s.split(sep)] for a separator of one character. *)
Fixpoint split_on (sep : char) (s : str) : list str :=
  match s with
  | [] => [[]]
  | c :: s' =>
      if c =? sep then [] :: split_on sep s'
      else match split_on sep s' with
           | piece :: pieces => (c :: piece) :: pieces
           | [] => [[c]]
           end
  end.

(** A character that the csv reader takes as part of a field or as the
    delimiter: no line end, no NUL, no quote. *)
Definition plain (c : char) : Prop :=
  is_newline c = false /\ c ≠ NUL /\ c ≠ quotechar.

#[global] Instance plain_dec c : Decision (plain c).
Proof. unfold plain. apply _. Defined.

(** A line that is one record: a body of plain characters, not empty and
    not longer than a field may be, and the line end after it. *)
Definition record_line (line body : str) : Prop :=
  body ≠ [] /\ Forall plain body /\ N.of_nat (length body) <= field_limit
  /\ exists eol, line = body ++ eol /\ Forall (fun c => is_newline c = true) eol.

(** A field put before the first piece of a split text. *)
Definition glue (f : str) (pieces : list str) : list str :=
  match pieces with
  | piece :: pieces' => (f ++ piece) :: pieces'
  | [] => [f]
  end.

(** The pattern of the format of [getlogdate]. *)
Definition date_regex : re :=
  Seq (group_of 100) (Seq (Chr 46) (Seq (group_of 109) (Seq (Chr 46)
  (Seq (group_of 89) Eps)))).




(** ** [MplCanvas.set_data]

    What the canvas is given: a line for every axis of [y] over [x], and
    the four calls of [fill_between], each with its face colour and with
    [where=status == word] worked out element by element. *)

Record canvas : Type := mk_canvas {
  plotted : list (list pyobj * list Z);
  shaded : list (string * list bool)
}.

Definition shadings : list (string * string) :=
  [("Zuendung", "green"); ("Softstrt", "yellow"); ("Burning", "red"); ("Nachlauf", "blue")]%string.

Definition set_data (x : list pyobj) (y : list (list Z)) (status : list pyobj) : canvas :=
  mk_canvas (map (fun axis => (x, axis)) y)
            (map (fun '(word, facecolor) =>
                    (facecolor, map (fun s => bool_decide (s = Str (u word))) status))
                 shadings).

(** The colours a canvas shades the sample of a row with. *)
Definition shade_at (c : canvas) (k : nat) : list string :=
  (filter (fun band => band.2 !! k = Some true) (shaded c)).*1.

(** [bytes.isascii] *)
Definition isascii (v : bytes) : bool := forallb (fun x => Byte.to_N x <=? 127) v.

(** What a caller of [open_action] can notice of a scan that found no file:
    a warning box, or something else than a plain return. *)
Definition reports_no_files (w : MainWindow) (end_ : MainWindow * result unit) : Prop :=
  warnings end_.1 ≠ warnings w \/ end_.2 ≠ Ok ().

(** * Properties *)

(** ** The scan of a list of files *)

(** The entries a scan writes, in the order it writes them. *)
Definition add_entries (m : gmap str str) (kvs : list (str * str)) : gmap str str :=
  foldl (fun m kv => <[kv.1 := kv.2]> m) m kvs.

(** The files at the front of the list whose date can be read, each with
    its date. *)
Fixpoint dated (os : os_state) (files : list str) : list (str * str) :=
  match files with
  | [] => []
  | file :: files' =>
      match getlogdate os file with
      | Ok date => (date, file) :: dated os files'
      | Raise _ => []
      end
  end.

(** The exception of the first file whose date cannot be read. *)
Fixpoint first_error (os : os_state) (files : list str) : option exn :=
  match files with
  | [] => None
  | file :: files' =>
      match getlogdate os file with
      | Ok _ => first_error os files'
      | Raise e => Some e
      end
  end.

Definition set_entries (w : MainWindow) (kvs : list (str * str)) : MainWindow :=
  foldl (fun w kv => logfiles_setitem w kv.1 kv.2) w kvs.

Section Scan.
Variable os : os_state.

Lemma logfiles_setitem_lookup w date file :
  logfiles (logfiles_setitem w date file) = <[date := file]> (logfiles w).
Proof. destruct w as [c [d|] ? ? ? ? ?]; reflexivity. Qed.

Lemma logfiles_assign_lookup w d : logfiles (logfiles_assign w d) = d.
Proof. reflexivity. Qed.

Lemma logfiles_set_loglist w rows : logfiles (set_loglist w rows) = logfiles w.
Proof. reflexivity. Qed.

Lemma logfiles_set_entries (kvs : list (str * str)) : forall w,
  logfiles (set_entries w kvs) = add_entries (logfiles w) kvs.
Proof.
  induction kvs as [|kv kvs IH]; intros w; [reflexivity|].
  cbn. rewrite IH, logfiles_setitem_lookup. reflexivity.
Qed.

Lemma add_entries_union (kvs : list (str * str)) : forall m : gmap str str,
  add_entries m kvs = list_to_map (rev kvs) ∪ m.
Proof.
  induction kvs as [|[k v] kvs IH]; intros m; cbn.
  - by rewrite (left_id_L ∅ (∪)).
  - change (add_entries (<[k:=v]> m) kvs = list_to_map (rev kvs ++ [(k, v)]) ∪ m).
    rewrite IH, list_to_map_app. cbn.
    rewrite <- (assoc_L (∪)). f_equal.
    rewrite insert_union_singleton_l, insert_empty. reflexivity.
Qed.

(** Writing the same entries a second time changes nothing. *)
Lemma add_entries_twice (kvs : list (str * str)) (m : gmap str str) :
  add_entries (add_entries m kvs) kvs = add_entries m kvs.
Proof.
  rewrite !add_entries_union, (assoc_L (∪)), (idemp_L (∪)). reflexivity.
Qed.

Lemma add_entries_app (m : gmap str str) (kvs kvs' : list (str * str)) :
  add_entries m (kvs ++ kvs') = add_entries (add_entries m kvs) kvs'.
Proof. apply foldl_app. Qed.

Lemma dated_length files : (length (dated os files) ≤ length files)%nat.
Proof.
  induction files as [|f files IH]; cbn; [lia|].
  destruct (getlogdate os f); cbn; lia.
Qed.

Lemma first_error_none files :
  first_error os files = None -> map snd (dated os files) = files.
Proof.
  induction files as [|f files IH]; cbn; [done|].
  destruct (getlogdate os f); [|done]. intros H. cbn. by rewrite IH.
Qed.

(** How the loop ends.  Either the dialog was canceled after one of the
    files whose date could be read, and the window's dictionary is the
    copy; or it was not, and every such file has its entry. *)
Lemma load_loop_ends wasCanceled copy files : forall w logdata i,
  let end_ := load_loop os wasCanceled copy w logdata i files in
  (exists n, (n < length (dated os files))%nat /\ wasCanceled (i + n)%nat = true
             /\ end_.2 = Ok None /\ logfiles end_.1 = copy)
  \/ ((forall n, (n < length (dated os files))%nat -> wasCanceled (i + n)%nat = false)
      /\ end_.1 = set_entries w (dated os files)
      /\ end_.2 = match first_error os files with
                  | Some e => Raise e
                  | None => Ok (Some (logdata ++ map fst (dated os files)))
                  end).
Proof.
  induction files as [|f files IH]; intros w logdata i; cbn.
  - right. split_and!; [intros n Hn; cbn in Hn; lia|done|by rewrite app_nil_r].
  - destruct (getlogdate os f) as [date|e] eqn:Hd; cbn.
    + destruct (wasCanceled i) eqn:Hc; cbn.
      * left. exists 0%nat. rewrite Nat.add_0_r. split_and!; [lia|done..].
      * destruct (IH (logfiles_setitem w date f) (logdata ++ [date]) (S i))
          as [(n & Hn & Hcn & Hr & Hl)|(Hno & Hw & Hr)].
        -- left. exists (S n). rewrite Nat.add_succ_r. split_and!; [lia|done..].
        -- right. split_and!; [|done|].
           ++ intros [|n] Hn; [by rewrite Nat.add_0_r|].
              rewrite Nat.add_succ_r. apply (Hno n). lia.
           ++ rewrite Hr. destruct (first_error os files); [done|].
              by rewrite <- app_assoc.
    + right. split_and!; [intros n Hn; cbn in Hn; lia|done..].
Qed.

End Scan.

(** ** Cancelling, failing and repeating a scan *)

Section ScanTheorems.
Variable os : os_state.

Lemma dated_prefix k files :
  (k ≤ length files)%nat ->
  Forall (fun file => raised (getlogdate os file) = false) (take k files) ->
  dated os (take k files) = take k (dated os files) /\ length (dated os (take k files)) = k.
Proof.
  revert k. induction files as [|f files IH]; intros [|k] Hk HF; cbn in *;
    [done| lia | done |].
  inversion HF as [|? ? Hf HF']; subst.
  destruct (getlogdate os f); [|done]. cbn.
  destruct (IH k) as [-> ->]; [lia|done|done].
Qed.

Lemma dated_Forall2 files :
  Forall2 (fun file kv => getlogdate os file = Ok kv.1 /\ kv.2 = file)
          (take (length (dated os files)) files) (dated os files).
Proof.
  induction files as [|f files IH]; cbn; [constructor|].
  destruct (getlogdate os f) eqn:Hf; cbn; constructor; done.
Qed.

(** What a scan leaves in the dictionary of the window. *)
Lemma load_log_list_logfiles wasCanceled w files :
  let end_ := load_log_list os wasCanceled w files in
  (exists n, (n < length (dated os files))%nat /\ wasCanceled (S n) = true
             /\ end_.2 = Ok () /\ logfiles end_.1 = logfiles w)
  \/ ((forall n, (n < length (dated os files))%nat -> wasCanceled (S n) = false)
      /\ logfiles end_.1 = add_entries (logfiles w) (dated os files)
      /\ end_.2 = match first_error os files with
                  | Some e => Raise e
                  | None => Ok ()
                  end).
Proof.
  unfold load_log_list.
  destruct (load_loop_ends os wasCanceled (logfiles w) files w [] 1)
    as [(n & Hn & Hc & Hr & Hl)|(Hno & Hw & Hr)];
    destruct (load_loop _ _ _ _ _ _ _) as [w' r]; cbn in *.
  - left. exists n. subst r. split_and!; done.
  - right. subst w' r. split; [exact Hno|].
    destruct (first_error os files); cbn;
      rewrite ?logfiles_set_loglist, logfiles_set_entries; done.
Qed.

End ScanTheorems.

(** C3. If the progress dialog reports a cancellation after the k-th file
    of a scan (1 <= k <= number of files, the dates of the first k files
    having been read), the dictionary of log files is, when [load_log_list]
    returns, the one from before the scan, whatever was stored for the
    first k files in between. *)
Theorem cancelled_scan_restores_index os wasCanceled w files k :
  (1 ≤ k ≤ length files)%nat ->
  Forall (fun file => raised (getlogdate os file) = false) (take k files) ->
  wasCanceled k = true ->
  (load_log_list os wasCanceled w files).2 = Ok ()
  /\ logfiles (load_log_list os wasCanceled w files).1 = logfiles w.
Proof.
  intros Hk HF Hc.
  destruct (load_log_list_logfiles os wasCanceled w files)
    as [(n & _ & _ & Hr & Hl)|(Hno & _ & _)]; [done|].
  destruct (dated_prefix os k files) as [Hd Hlen]; [lia|done|].
  assert (k ≤ length (dated os files))%nat.
  { rewrite <- Hlen, Hd, length_take. lia. }
  specialize (Hno (k - 1)%nat). replace (S (k - 1)) with k in Hno by lia.
  rewrite Hno in Hc; [done|lia].
Qed.

(** The example of C3: five files, the dialog canceled after the second. *)
Lemma cancelled_scan_witness :
  (load_log_list five_logs (fun i => Nat.eqb i 2) earlier_window five_files).2 = Ok ()
  /\ logfiles (load_log_list five_logs (fun i => Nat.eqb i 2) earlier_window five_files).1
     = logfiles earlier_window.
Proof.
  apply (cancelled_scan_restores_index five_logs (fun i => Nat.eqb i 2)
           earlier_window five_files 2).
  - vm_compute. lia.
  - repeat constructor.
  - reflexivity.
Defined.

(** C9. No restore on errors: if the dates of the first k files are read,
    the dialog is not canceled after any of them, and reading the date of
    the next file raises an exception, then [load_log_list] is left by that
    exception and the dictionary holds the entries of the first k files on
    top of what it held before the scan. *)
Theorem failed_scan_keeps_partial_index os wasCanceled w files k file e :
  files !! k = Some file ->
  Forall (fun f => raised (getlogdate os f) = false) (take k files) ->
  getlogdate os file = Raise e ->
  (forall i, (1 ≤ i ≤ k)%nat -> wasCanceled i = false) ->
  exists dates,
    Forall2 (fun f date => getlogdate os f = Ok date) (take k files) dates
    /\ (load_log_list os wasCanceled w files).2 = Raise e
    /\ logfiles (load_log_list os wasCanceled w files).1
       = add_entries (logfiles w) (zip dates (take k files)).
Proof.
  intros Hfile HF He Hno.
  assert (Hk : (k < length files)%nat) by (eapply lookup_lt_Some; done).
  destruct (dated_prefix os k files) as [Hd Hlen]; [lia|done|].
  (* the files with a date are exactly the first k *)
  assert (Hall : dated os files = dated os (take k files)
                 /\ first_error os files = Some e).
  { clear Hno Hd Hlen Hk. revert k Hfile HF.
    induction files as [|f files IH]; intros [|k] Hfile HF; cbn in *; try done.
    - injection Hfile as ->. by rewrite He.
    - inversion HF as [|? ? Hf HF']; subst.
      destruct (getlogdate os f); [|done].
      destruct (IH k) as [-> ->]; done. }
  destruct Hall as [Hdated Herr].
  exists (map fst (dated os (take k files))). split_and!.
  - pose proof (dated_Forall2 os (take k files)) as H2.
    rewrite Hlen, take_take, Nat.min_id in H2.
    apply Forall2_fmap_r. eapply Forall2_impl; [exact H2|]. by intros ? ? [? _].
  - destruct (load_log_list_logfiles os wasCanceled w files)
      as [(n & Hn & Hc & _)|(_ & _ & Hr)].
    + rewrite Hdated, Hlen in Hn. rewrite Hno in Hc; [done|lia].
    + by rewrite Hr, Herr.
  - destruct (load_log_list_logfiles os wasCanceled w files)
      as [(n & Hn & Hc & _)|(_ & Hl & _)].
    + rewrite Hdated, Hlen in Hn. rewrite Hno in Hc; [done|lia].
    + rewrite Hl, Hdated. f_equal.
      pose proof (dated_Forall2 os (take k files)) as H2.
      rewrite Hlen, take_take, Nat.min_id in H2.
      clear -H2. induction H2 as [|f [d f'] fs kvs [_ Hf] _ IH]; cbn in *; [done|].
      subst f'. by rewrite <- IH.
Qed.

(** The example of C9: the third file has only its header, so its date
    cannot be read; the first two files are in the dictionary afterwards. *)
Lemma failed_scan_witness :
  exists dates,
    Forall2 (fun f date => getlogdate broken_logs f = Ok date) (take 2 broken_files) dates
    /\ (load_log_list broken_logs (fun _ => false) earlier_window broken_files).2
       = Raise StopIteration
    /\ logfiles (load_log_list broken_logs (fun _ => false) earlier_window broken_files).1
       = add_entries (logfiles earlier_window) (zip dates (take 2 broken_files)).
Proof.
  apply (failed_scan_keeps_partial_index broken_logs (fun _ => false) earlier_window
           broken_files 2 (u "/logs/CM240103.csv") StopIteration).
  - reflexivity.
  - repeat constructor.
  - vm_compute. reflexivity.
  - intros i _. reflexivity.
Defined.

(** A second scan of a directory leaves the dictionary as the first scan
    left it, unless the first scan was canceled and the second is not. *)
Lemma rescan_after_full_scan os directory wasCanceled wasCanceled' w :
  (forall i, wasCanceled i = false) ->
  let w1 := (open_action os directory wasCanceled w).1 in
  logfiles (open_action os directory wasCanceled' w1).1 = logfiles w1.
Proof.
  intros Hno w1. subst w1. unfold open_action.
  destruct directory as [|c directory]; [done|].
  destruct (glob os _) as [|file files] eqn:Hglob; [done|].
  set (fs := file :: files).
  destruct (load_log_list_logfiles os wasCanceled w fs)
    as [(n & _ & Hc & _)|(_ & Hl & _)]; [by rewrite Hno in Hc|].
  destruct (load_log_list_logfiles os wasCanceled'
              (load_log_list os wasCanceled w fs).1 fs)
    as [(n & _ & _ & _ & Hl')|(_ & Hl' & _)]; [done|].
  rewrite Hl', Hl. apply add_entries_twice.
Qed.


(** C5, as the code has it. A scan that finds no file named like a log returns
    at once: the window is as before (dictionary, tables, no warning box)
    and the method returns normally. *)
Theorem scan_without_logs_changes_nothing os directory wasCanceled w :
  glob os (directory ++ u "/" ++ logfile_pattern) = [] ->
  open_action os directory wasCanceled w = (w, Ok ()).
Proof.
  intros Hglob. unfold open_action. destruct directory; [done|].
  by rewrite Hglob.
Qed.

Lemma scan_without_logs_witness :
  glob no_logs (u "/logs" ++ u "/" ++ logfile_pattern) = []
  /\ open_action no_logs (u "/logs") (fun _ => false) earlier_window
     = (earlier_window, Ok ()).
Proof.
  split; [vm_compute; reflexivity|].
  apply (scan_without_logs_changes_nothing no_logs (u "/logs")).
  vm_compute. reflexivity.
Defined.

(** C5 as stated fails: in a directory without logs the dictionary stays as
    it was, but nothing tells the caller that no file was found. *)
Lemma scan_without_logs_counterexample :
  let end_ := open_action no_logs (u "/logs") (fun _ => false) earlier_window in
  ~ (logfiles end_.1 = logfiles earlier_window /\ reports_no_files earlier_window end_).
Proof.
  intros end_ [_ [H|H]]; apply H; vm_compute; reflexivity.
Qed.

(** ** File names *)

(** A pattern matches a whole text. *)
Definition whole (r : re) (s : str) : bool :=
  existsb (fun m => bool_decide (rest m = [])) (rmatch r s).

Lemma whole_Eps s : whole Eps s = bool_decide (s = []).
Proof. unfold whole. cbn. by rewrite orb_false_r. Qed.

Lemma whole_Seq_Chr c k s :
  whole (Seq (Chr c) k) s =
  match s with
  | x :: s' => (x =? c) && whole k s'
  | [] => false
  end.
Proof.
  unfold whole. destruct s as [|x s']; cbn; [done|].
  destruct (x =? c); cbn; [|done].
  rewrite app_nil_r. induction (rmatch k s') as [|m ms IH]; cbn; [done|].
  by rewrite IH.
Qed.

Lemma whole_Seq_Cls p k s :
  whole (Seq (Cls p) k) s =
  match s with
  | x :: s' => p x && whole k s'
  | [] => false
  end.
Proof.
  unfold whole. destruct s as [|x s']; cbn; [done|].
  destruct (p x); cbn; [|done].
  rewrite app_nil_r. induction (rmatch k s') as [|m ms IH]; cbn; [done|].
  by rewrite IH.
Qed.

(** The class the pattern has for [[0-9]]. *)
Definition digit_class (x : char) : bool := xorb false (in_class [48; 45; 57] x).

Lemma digit_class_isdigit x : digit_class x = isdigit x.
Proof. unfold digit_class, isdigit. cbn. by rewrite orb_false_r. Qed.

Lemma translate_logfile_pattern :
  translate (length logfile_pattern) logfile_pattern
  = Seq (Chr 67) (Seq (Chr 77)
      (Seq (Cls digit_class) (Seq (Cls digit_class) (Seq (Cls digit_class)
      (Seq (Cls digit_class) (Seq (Cls digit_class) (Seq (Cls digit_class)
      (Seq (Chr 46) (Seq (Chr 99) (Seq (Chr 115) (Seq (Chr 118) Eps))))))))))).
Proof. reflexivity. Qed.

(** The pattern of [open_action] accepts the names of log files and no
    others. *)
Lemma fnmatch_logfile_name name :
  fnmatch name logfile_pattern = true <-> logfile_name name.
Proof.
  unfold fnmatch. fold (whole (translate (length logfile_pattern) logfile_pattern) name).
  rewrite translate_logfile_pattern.
  split.
  - intros H.
    do 2 (rewrite whole_Seq_Chr in H; destruct name as [|? name]; [discriminate H|];
          apply andb_prop in H as [->%N.eqb_eq H]).
    do 6 (rewrite whole_Seq_Cls in H;
          destruct name as [|? name]; [discriminate H|];
          rewrite digit_class_isdigit in H;
          apply andb_prop in H as [? H]).
    do 4 (rewrite whole_Seq_Chr in H; destruct name as [|? name]; [discriminate H|];
          apply andb_prop in H as [->%N.eqb_eq H]).
    rewrite whole_Eps in H. apply bool_decide_eq_true in H as ->.
    eexists [_; _; _; _; _; _]. split_and!; [done| |reflexivity].
    repeat constructor; assumption.
  - intros (digits & Hlen & Hd & ->).
    destruct digits as [|d1 [|d2 [|d3 [|d4 [|d5 [|d6 [|d7 digits]]]]]]];
      try discriminate Hlen. clear Hlen.
    do 6 (apply Forall_cons in Hd as [? Hd]). clear Hd.
    change (u "CM" ++ [d1; d2; d3; d4; d5; d6] ++ u ".csv")
      with [67; 77; d1; d2; d3; d4; d5; d6; 46; 99; 115; 118].
    do 2 rewrite whole_Seq_Chr, N.eqb_refl, andb_true_l.
    do 6 (rewrite whole_Seq_Cls, digit_class_isdigit;
          match goal with
          | Hd : isdigit ?c = true |- context [isdigit ?c] => rewrite Hd, andb_true_l
          end).
    do 4 rewrite whole_Seq_Chr, N.eqb_refl, andb_true_l.
    by rewrite whole_Eps.
Qed.

Lemma rsplit_slash_no_slash t :
  Forall (fun c => c ≠ slash) t -> rsplit_slash t = ([], t).
Proof.
  induction 1 as [|c t Hc _ IH]; cbn; [done|].
  rewrite IH. apply N.eqb_neq in Hc. by rewrite Hc.
Qed.

Lemma rsplit_slash_last pre t :
  Forall (fun c => c ≠ slash) t ->
  rsplit_slash (pre ++ slash :: t) = (pre ++ [slash], t).
Proof.
  intros Ht. induction pre as [|c pre IH]; cbn.
  - by rewrite (rsplit_slash_no_slash t Ht).
  - rewrite IH. by destruct pre.
Qed.

Lemma basename_rsplit p : basename p = (rsplit_slash p).2.
Proof. unfold basename, posix_split. by destruct (rsplit_slash p). Qed.

Lemma logfile_name_no_slash name :
  logfile_name name -> Forall (fun c => c ≠ slash) name /\ exists c name', name = c :: name'.
Proof.
  intros (digits & Hlen & Hd & ->). split; [|by eexists _, _].
  cbn. repeat constructor; try done.
  apply Forall_app. split; [|by repeat constructor].
  eapply Forall_impl; [exact Hd|]. intros c Hc ->. done.
Qed.

(** The last component of a path joined from a directory and the name of a
    log file is that name. *)
Lemma basename_join dirname name :
  logfile_name name -> basename (posix_join dirname name) = name.
Proof.
  intros Hname. destruct (logfile_name_no_slash name Hname) as [Hns (c & name' & ->)].
  rewrite basename_rsplit. unfold posix_join.
  assert ((c =? slash) = false) as ->.
  { apply N.eqb_neq. by inversion Hns. }
  destruct dirname as [|d dirname _] using rev_ind.
  - rewrite bool_decide_eq_true_2 by done. cbn [orb app].
    by rewrite rsplit_slash_no_slash.
  - rewrite last_snoc. destruct (decide (d = slash)) as [->|Hd].
    + rewrite (bool_decide_eq_true_2 (Some slash = Some slash)) by done.
      rewrite orb_true_r, <- app_assoc. cbn [app].
      by rewrite rsplit_slash_last.
    + rewrite (bool_decide_eq_false_2 (Some d = Some slash)) by congruence.
      rewrite bool_decide_eq_false_2 by (by destruct dirname).
      cbn [orb]. by rewrite rsplit_slash_last.
Qed.

Lemma logfile_pattern_no_slash : Forall (fun c => c ≠ slash) logfile_pattern.
Proof. apply (bool_decide_unpack _). vm_compute. exact I. Qed.

(** Every path [glob] finds for the pattern of [open_action] is a directory
    joined with an entry of that directory that is named like a log file. *)
Lemma glob_logfile_names os directory path :
  path ∈ glob os (directory ++ u "/" ++ logfile_pattern) ->
  exists dirname name,
    path = posix_join dirname name /\ name ∈ listdir os dirname /\ logfile_name name.
Proof.
  unfold glob, posix_split.
  change (directory ++ u "/" ++ logfile_pattern) with (directory ++ slash :: logfile_pattern).
  rewrite (rsplit_slash_last _ _ logfile_pattern_no_slash).
  intros Hin. apply list_elem_of_bind in Hin as (dirname & Hin & _).
  apply list_elem_of_bind in Hin as (name & Hin & Hname).
  apply list_elem_of_singleton in Hin as ->.
  exists dirname, name. split; [done|].
  unfold glob1 in Hname.
  apply list_elem_of_filter in Hname as [Hm Hname].
  apply fnmatch_logfile_name in Hm. split; [|done].
  destruct (ishidden logfile_pattern); [done|].
  by apply list_elem_of_filter in Hname as [_ Hname].
Qed.

(** ** Only log files enter the dictionary *)

Definition index_ok (m : gmap str str) : Prop :=
  forall date path, m !! date = Some path -> logfile_name (basename path).

Definition window_ok (w : MainWindow) : Prop :=
  index_ok (class_logfiles w) /\ forall d, self_logfiles w = Some d -> index_ok d.

Lemma window_ok_logfiles w : window_ok w -> index_ok (logfiles w).
Proof. intros [Hc Hs]. unfold logfiles. destruct (self_logfiles w); cbn; auto. Qed.

Lemma index_ok_insert (m : gmap str str) date file :
  index_ok m -> logfile_name (basename file) -> index_ok (<[date := file]> m).
Proof.
  intros Hm Hf date' path. rewrite lookup_insert.
  case_decide; [intros [= <-]; done|apply Hm].
Qed.

Lemma window_ok_setitem w date file :
  window_ok w -> logfile_name (basename file) -> window_ok (logfiles_setitem w date file).
Proof.
  intros [Hc Hs] Hf. unfold logfiles_setitem.
  destruct (self_logfiles w) as [d|] eqn:Hd; split; cbn; try done.
  - intros ? [= <-]. apply index_ok_insert; auto.
  - by apply index_ok_insert.
Qed.

Lemma load_loop_ok os wasCanceled copy files : forall w logdata i,
  index_ok copy -> window_ok w ->
  Forall (fun file => logfile_name (basename file)) files ->
  window_ok (load_loop os wasCanceled copy w logdata i files).1.
Proof.
  induction files as [|f files IH]; intros w logdata i Hcopy Hw Hfiles; cbn; [done|].
  inversion Hfiles as [|? ? Hf Hfiles']; subst.
  destruct (getlogdate os f) as [date|e]; cbn; [|done].
  pose proof (window_ok_setitem w date f Hw Hf) as Hw'.
  destruct (wasCanceled i); cbn.
  - destruct Hw' as [Hc _]. split; cbn; [done|]. by intros ? [= <-].
  - by apply IH.
Qed.

Lemma load_log_list_ok os wasCanceled w files :
  window_ok w ->
  Forall (fun file => logfile_name (basename file)) files ->
  window_ok (load_log_list os wasCanceled w files).1.
Proof.
  intros Hw Hfiles. unfold load_log_list.
  pose proof (load_loop_ok os wasCanceled (logfiles w) files w [] 1
                (window_ok_logfiles w Hw) Hw Hfiles) as H.
  destruct (load_loop _ _ _ _ _ _ _) as [w' [[logdata|]|e]]; done.
Qed.

Lemma open_action_ok os directory wasCanceled w :
  window_ok w -> window_ok (open_action os directory wasCanceled w).1.
Proof.
  intros Hw. unfold open_action. destruct directory as [|c directory]; [done|].
  destruct (glob os _) as [|file files] eqn:Hglob; [done|].
  apply load_log_list_ok; [done|]. rewrite <- Hglob.
  apply Forall_forall. intros path Hpath.
  apply glob_logfile_names in Hpath as (dirname & name & -> & _ & Hname).
  by rewrite basename_join.
Qed.

Lemma item_activated_ok os param w :
  window_ok w -> window_ok (item_activated os param w).1.
Proof.
  intros Hw. unfold item_activated.
  repeat (match goal with
          | |- context [match ?x with _ => _ end] => destruct x
          end; try done).
Qed.

Lemma initial_window_ok : window_ok initial_window.
Proof.
  split; [|done]. intros date path H.
  cbn [initial_window class_logfiles] in H. by rewrite lookup_empty in H.
Qed.

Lemma run_ok evs : window_ok (run evs).
Proof.
  unfold run. induction evs as [|ev evs IH] using rev_ind.
  - exact initial_window_ok.
  - rewrite foldl_app. cbn. destruct ev; [by apply open_action_ok|by apply item_activated_ok].
Qed.

(** C8. Whatever directories are opened and whatever the files in them
    hold, a path stored in the dictionary of log files has a last component
    made of CM, exactly six digits and the extension .csv in small letters:
    a file named otherwise is never in the index. *)
Theorem index_holds_only_logfile_names evs date path :
  logfiles (run evs) !! date = Some path -> logfile_name (basename path).
Proof. apply window_ok_logfiles, run_ok. Qed.

Lemma index_holds_only_logfile_names_witness :
  logfiles (run [OpenDirectory five_logs (u "/logs") (fun _ => false)]) !! u "2024-01-01"
    = Some (u "/logs/CM240101.csv")
  /\ logfile_name (basename (u "/logs/CM240101.csv")).
Proof.
  assert (H : logfiles (run [OpenDirectory five_logs (u "/logs") (fun _ => false)])
                !! u "2024-01-01" = Some (u "/logs/CM240101.csv"))
    by (vm_compute; reflexivity).
  split; [exact H|].
  exact (index_holds_only_logfile_names _ _ _ H).
Defined.

(** ** The lines that decide the date *)

Definition outside_quotes (st : parser_state) : Prop :=
  st ≠ IN_QUOTED_FIELD /\ st ≠ QUOTE_IN_QUOTED_FIELD.

Lemma parse_process_char_outside r c r' :
  outside_quotes (state r) -> c ≠ quotechar ->
  parse_process_char r (Some c) = Ok r' -> outside_quotes (state r').
Proof.
  intros [H1 H2] Hc%N.eqb_neq. unfold parse_process_char, parse_add_char.
  rewrite Hc.
  destruct (state r) eqn:Hs; try done;
    repeat (match goal with
            | |- context [if ?x then _ else _] => destruct x
            end; cbn);
    try discriminate; intros [= <-]; cbn; rewrite ?Hs; split; done.
Qed.

Lemma parse_line_outside line : forall r r',
  outside_quotes (state r) -> Forall (fun c => c ≠ quotechar) line ->
  parse_line r line = Ok r' -> outside_quotes (state r').
Proof.
  induction line as [|c line IH]; intros r r' Hr Hline; cbn.
  - by intros [= <-].
  - inversion Hline as [|? ? Hc Hline']; subst.
    destruct (c =? NUL); [done|].
    destruct (parse_process_char r _) as [r1|e] eqn:H1; cbn; [|done].
    apply IH; [|done]. eapply parse_process_char_outside; done.
Qed.

Lemma end_of_line_outside r r' :
  outside_quotes (state r) ->
  parse_process_char r None = Ok r' -> state r' = START_RECORD.
Proof.
  intros [H1 H2]. unfold parse_process_char.
  destruct (state r) eqn:Hs; try done; by intros [= <-].
Qed.

(** A line without a quote character is a record by itself: the reader
    returns it, or fails on it, without looking at the lines after it. *)
Lemma reader_next_no_quote line lines :
  Forall (fun c => c ≠ quotechar) line ->
  reader_next (Ok line :: lines) = (fun record => (record, lines)) <$> record_of_line line.
Proof.
  intros Hline. unfold reader_next, record_of_line. cbn [reader_loop].
  destruct (parse_line parse_reset line) as [r1|e] eqn:H1; cbn; [|done].
  destruct (parse_process_char r1 None) as [r2|e] eqn:H2; cbn; [|done].
  assert (state r2 = START_RECORD) as ->; [|done].
  eapply end_of_line_outside; [|exact H2].
  eapply parse_line_outside; [|exact Hline|exact H1]. by split.
Qed.

(** C10, as the code has it. Two files whose lines, as they reach the csv
    reader (NUL characters and blank lines removed), start with the same
    header and the same first data row, both read without a decoding error
    and neither holding a double quote, have the same date (or fail
    alike): what follows the two lines, text or bytes that cannot be
    decoded, plays no part. *)
Theorem date_depends_on_first_two_lines os path path' logfile logfile' header row
    others others' :
  open_text os path = Ok logfile ->
  open_text os path' = Ok logfile' ->
  logical_lines logfile = Ok header :: Ok row :: others ->
  logical_lines logfile' = Ok header :: Ok row :: others' ->
  Forall (fun c => c ≠ quotechar) header ->
  Forall (fun c => c ≠ quotechar) row ->
  getlogdate os path = getlogdate os path'.
Proof.
  intros Ho Ho' Ht Ht' Hh Hr. unfold getlogdate. rewrite Ho, Ho'.
  cbn [mbind result_bind]. unfold getlogdate_file.
  fold (logical_lines logfile). fold (logical_lines logfile'). rewrite Ht, Ht'.
  rewrite !(reader_next_no_quote header) by done.
  destruct (record_of_line header) as [fs|e]; cbn; [|done].
  rewrite !(reader_next_no_quote row) by done.
  destruct (record_of_line row) as [fs'|e]; cbn; done.
Qed.

Lemma date_depends_on_first_two_lines_witness :
  getlogdate tail_logs (u "/logs/CM240101.csv") = getlogdate tail_logs (u "/logs/CM240102.csv").
Proof.
  apply (date_depends_on_first_two_lines tail_logs _ _
           [Ok (app (file_text [header_row; "01.01.2024;00:00:10"; " "]%string)
                    (u "02.01.2024;00:"));
            Ok (app (u "01:10") [CR; LF])]
           [Ok (file_text [" "; header_row; "01.01.2024;00:00:10"; "garbage"]%string);
            Raise UnicodeDecodeError]
           (u header_row ++ [CR; LF]) (u "01.01.2024;00:00:10" ++ [CR; LF])
           [Ok (u "02.01.2024;00:01:10" ++ [CR; LF])]
           [Ok (u "garbage" ++ [CR; LF]); Raise UnicodeDecodeError]).
  - vm_compute. reflexivity.
  - vm_compute. reflexivity.
  - vm_compute. reflexivity.
  - vm_compute. reflexivity.
  - apply (bool_decide_unpack _). vm_compute. exact I.
  - apply (bool_decide_unpack _). vm_compute. exact I.
Defined.

(** C10 as stated fails: a double quote in the header makes the reader
    take the lines up to the closing quote as the header record, and the
    date is read from a later line. *)
Lemma date_depends_on_first_two_lines_counterexample :
  ~ (forall os path path' logfile logfile',
       open_text os path = Ok logfile ->
       open_text os path' = Ok logfile' ->
       take 2 (logical_lines logfile) = take 2 (logical_lines logfile') ->
       getlogdate os path = getlogdate os path').
Proof.
  intros H.
  specialize (H quoted_logs (u "/logs/CM240202.csv") (u "/logs/CM240303.csv") _ _
                eq_refl eq_refl).
  assert (getlogdate quoted_logs (u "/logs/CM240202.csv") = Ok (u "2024-02-02")) as E1
    by (vm_compute; reflexivity).
  assert (getlogdate quoted_logs (u "/logs/CM240303.csv") = Ok (u "2024-03-03")) as E2
    by (vm_compute; reflexivity).
  rewrite E1, E2 in H. discriminate H. vm_compute. reflexivity.
Qed.

(** ** The rows of [genfromtxt] *)

Lemma traverse_Ok {A B} (f : A -> result B) l l' :
  traverse f l = Ok l' -> Forall2 (fun x y => f x = Ok y) l l'.
Proof.
  revert l'. induction l as [|x l IH]; intros l'; cbn.
  - intros [= <-]. constructor.
  - destruct (f x) as [y|e] eqn:Hx; cbn; [|done].
    destruct (traverse f l) as [ys|e]; cbn; [|done].
    intros [= <-]. constructor; auto.
Qed.

(** A row of the transposed table has the cells its columns have at the
    number of the row. *)
Lemma column_Forall2 {A B C} (Q : A -> B -> C -> Prop) (d : C) ics rows columns k row :
  Forall2 (fun ic col => Forall2 (Q ic) rows col) ics columns ->
  rows !! k = Some row ->
  Forall2 (fun ic cell => Q ic row cell) ics (column k d columns).
Proof.
  intros H Hk. induction H as [|ic col ics columns Hcol _ IH]; cbn; constructor; [|done].
  destruct (Forall2_lookup_l _ _ _ _ _ Hcol Hk) as (cell & Hcell & HQ).
  by rewrite (nth_lookup_Some _ _ _ _ Hcell).
Qed.

Lemma nth_usecols values j :
  (j < 12)%nat -> nth j (usecols values) [] = nth (S j) values [].
Proof.
  intros Hj. unfold usecols. rewrite !nth_lookup, lookup_take_lt, lookup_drop by done.
  reflexivity.
Qed.

(** What a returned array says about the file: every data row has its
    record, made of the twelve cells the converters give for its fields. *)
Lemma genfromtxt_rows os fname date contents a :
  open_bytes os fname = Ok contents ->
  genfromtxt os fname date = Ok a ->
  Forall2 (fun values r =>
             exists cells,
               Forall2 (fun ic cell => loose_call ic.2 (nth (S ic.1) values []) = Ok cell)
                       (numbered_converters date) cells
               /\ make_record cells = Ok r)
          (raw_rows contents) (array_rows a).
Proof.
  intros Hopen. unfold genfromtxt, raw_rows. rewrite Hopen. cbn [mbind result_bind].
  destruct (find_first_values _) as [[first_values fhd]|]; [|done].
  destruct (existsb _ _); [done|].
  fold (numbered_converters date).
  destruct (traverse _ (numbered_converters date)) as [columns|e] eqn:Hcols; [|done].
  cbn [mbind result_bind].
  destruct (bool_decide _); [done|].
  destruct (traverse _ (seq _ _)) as [output|e] eqn:Hout; [|done].
  cbn [mbind result_bind]. intros Ha.
  assert (array_rows a = output) as ->.
  { destruct output as [|r [|r' output]]; by injection Ha as <-. }
  clear Ha. apply traverse_Ok in Hout.
  (* the columns, cell by cell *)
  assert (Hcells : Forall2 (fun ic col =>
                     Forall2 (fun row cell => loose_call ic.2 (nth ic.1 row []) = Ok cell)
                             (map usecols (data_lines fhd)) col)
                     (numbered_converters date) columns).
  { apply traverse_Ok in Hcols. eapply Forall2_impl; [exact Hcols|].
    intros [i conv] col Hcol. apply traverse_Ok in Hcol. unfold column in Hcol.
    by apply Forall2_fmap_l in Hcol. }
  apply Forall2_same_length_lookup_2.
  { apply Forall2_length in Hout. rewrite length_seq, length_map in Hout. done. }
  intros k values r Hvalues Hr.
  assert (Hk : seq 0 (length (map usecols (data_lines fhd))) !! k = Some k).
  { apply lookup_seq. split; [done|]. rewrite length_map. by eapply lookup_lt_Some. }
  pose proof (Forall2_lookup_lr _ _ _ _ _ _ Hout Hk Hr) as Hrec. cbn beta in Hrec.
  exists (column k (Int 0) columns). split; [|done].
  assert (Hrow : map usecols (data_lines fhd) !! k = Some (usecols values)).
  { by rewrite list_lookup_fmap, Hvalues. }
  pose proof (column_Forall2 _ (Int 0) _ _ _ _ _ Hcells Hrow) as Hc.
  cbn beta in Hc.
  (* the column numbers are below 12 *)
  assert (Hnum : Forall (fun ic : nat * (bytes -> result pyobj) => (ic.1 < 12)%nat)
                        (numbered_converters date)).
  { repeat constructor. }
  clear -Hc Hnum. induction Hc as [|ic cell ics cells H _ IH]; constructor.
  - inversion Hnum as [|? ? Hlt _]; subst. by rewrite <- nth_usecols.
  - apply IH. by inversion Hnum.
Qed.

Lemma make_record_Ok cells r : make_record cells = Ok r -> cells = record_cells r.
Proof.
  unfold make_record. intros H.
  repeat (match type of H with
          | match ?x with _ => _ end = _ => destruct x; try discriminate H
          end).
  by injection H as <-.
Qed.

Lemma utf8_decode_Raise fuel : forall v e,
  utf8_decode fuel v = Raise e -> e = UnicodeDecodeError.
Proof.
  induction fuel as [|fuel IH]; intros v e H; cbn in H.
  - destruct v; congruence.
  - repeat (match type of H with
            | match ?x with _ => _ end = _ => destruct x eqn:?; try discriminate H
            | (if ?x then _ else _) = _ => destruct x eqn:?; try discriminate H
            | mbind _ (utf8_decode fuel ?v') = _ =>
                let E := fresh "E" in
                destruct (utf8_decode fuel v') eqn:E; cbn in H;
                [discriminate H|apply IH in E; congruence]
            | Raise _ = Raise _ => congruence
            end).
Qed.

(** The converter of the status column never fails: the field is decoded,
    or the filling value stands in. *)
Lemma loose_call_status raw :
  loose_call (fun s => Str <$> decode s) raw = Ok (decoded_status raw).
Proof.
  unfold loose_call, decoded_status.
  destruct (decode raw) as [text|e] eqn:H; cbn; [done|].
  apply utf8_decode_Raise in H as ->. done.
Qed.

(** C2, as the code has it. The status of every record of a parsed file is
    the status field of its row, decoded; a field that cannot be decoded
    gives Burning. So the four known words are kept as they are - and so
    is any other word. *)
Theorem status_is_decoded_field os fname date contents a :
  open_bytes os fname = Ok contents ->
  genfromtxt os fname date = Ok a ->
  Forall2 (fun values r => SM r = decoded_status (nth 12 values []))
          (raw_rows contents) (array_rows a)
  /\ Forall (fun word => decoded_status (b word) = Str (u word)) known_statuses
  /\ decoded_status [Byte.xff] = Str (u "Burning").
Proof.
  intros Hopen Ha. split; [|split; [repeat constructor|reflexivity]].
  eapply Forall2_impl; [exact (genfromtxt_rows os fname date contents a Hopen Ha)|].
  intros values r (cells & Hcells & Hr). cbn beta in *.
  apply make_record_Ok in Hr as ->.
  assert (H11 : numbered_converters date !! 11%nat = Some (11%nat, fun s => Str <$> decode s))
    by reflexivity.
  assert (Hsm : record_cells r !! 11%nat = Some (SM r)) by reflexivity.
  pose proof (Forall2_lookup_lr _ _ _ _ _ _ Hcells H11 Hsm) as H.
  cbn [fst snd] in H. rewrite loose_call_status in H. by injection H.
Qed.

Lemma status_is_decoded_field_witness :
  Forall2 (fun values r => SM r = decoded_status (nth 12 values []))
          (raw_rows (file_bytes [header_row;
                       "01.01.2024;00:00:10;1;2;3;4;5;6;7;8;9;10;Standby";
                       "01.01.2024;00:01:10;1;2;3;4;5;6;7;8;9;10;Zuendung"]%string))
          [mk_record (Datetime (mk_datetime 2024 1 1 0 0 10)) 1 2 3 4 5 6 7 8 9 10
                     (Str (u "Standby"));
           mk_record (Datetime (mk_datetime 2024 1 1 0 1 10)) 1 2 3 4 5 6 7 8 9 10
                     (Str (u "Zuendung"))]
  /\ Forall (fun word => decoded_status (b word) = Str (u word)) known_statuses
  /\ decoded_status [Byte.xff] = Str (u "Burning").
Proof.
  apply (status_is_decoded_field standby_logs (u "/logs/CM240101.csv") (u "2024-01-01")
           _ (Array1 _)).
  - vm_compute. reflexivity.
  - vm_compute. reflexivity.
Defined.

(** C2 as stated fails: a status that is none of the four known words is
    kept, it does not become Burning. *)
Lemma status_counterexample :
  exists a,
    genfromtxt standby_logs (u "/logs/CM240101.csv") (u "2024-01-01") = Ok a
    /\ ~ Forall2 (fun values r => SM r = claimed_status (nth 12 values []))
           (raw_rows (file_bytes [header_row;
                        "01.01.2024;00:00:10;1;2;3;4;5;6;7;8;9;10;Standby";
                        "01.01.2024;00:01:10;1;2;3;4;5;6;7;8;9;10;Zuendung"]%string))
           (array_rows a).
Proof.
  exists (Array1 [mk_record (Datetime (mk_datetime 2024 1 1 0 0 10)) 1 2 3 4 5 6 7 8 9 10
                            (Str (u "Standby"));
                  mk_record (Datetime (mk_datetime 2024 1 1 0 1 10)) 1 2 3 4 5 6 7 8 9 10
                            (Str (u "Zuendung"))]).
  split; [vm_compute; reflexivity|].
  intros H. apply (Forall2_lookup_lr _ _ _ 0%nat
                     (map b ["01.01.2024"; "00:00:10"; "1"; "2"; "3"; "4"; "5"; "6"; "7"; "8";
                             "9"; "10"; "Standby"]%string)
                     (mk_record (Datetime (mk_datetime 2024 1 1 0 0 10)) 1 2 3 4 5 6 7 8 9 10
                                (Str (u "Standby")))) in H.
  - vm_compute in H. discriminate H.
  - vm_compute. reflexivity.
  - reflexivity.
Qed.

(** ** A row that is not numeric *)

Lemma loose_call_non_integer v :
  non_integer v -> loose_call np_int64 v = Ok filling_values.
Proof. unfold non_integer, loose_call, np_int64. by intros ->. Qed.

Lemma numeric_column date j :
  (1 ≤ j ≤ 10)%nat -> numbered_converters date !! j = Some (j, np_int64).
Proof.
  intros Hj. do 11 (destruct j as [|j]; [first [lia|reflexivity]|]). lia.
Qed.

Lemma numeric_cell r j :
  (1 ≤ j ≤ 10)%nat -> exists z, record_cells r !! j = Some (Int z).
Proof.
  intros Hj. do 11 (destruct j as [|j]; [first [lia|eexists; reflexivity]|]). lia.
Qed.

(** C4, as the code has it. If a data row of a log file has a field that is
    not an integer in one of the ten numeric columns (fields 2 to 11 of the
    line), [genfromtxt] raises an exception and returns no record; the
    exception leaves [item_activated], and the window is as it was: no
    table is filled and no message is shown. *)
Theorem non_integer_value_fails os fname date contents values i w :
  open_bytes os fname = Ok contents ->
  values ∈ raw_rows contents ->
  (2 ≤ i ≤ 11)%nat ->
  non_integer (nth i values []) ->
  logfiles w !! date = Some fname ->
  exists e, genfromtxt os fname date = Raise e
            /\ item_activated os (TableItem date) w = (w, Raise e).
Proof.
  intros Hopen Hin Hi Hnon Hw.
  destruct (genfromtxt os fname date) as [a|e] eqn:Ha.
  - exfalso.
    apply list_elem_of_lookup in Hin as [k Hk].
    pose proof (genfromtxt_rows os fname date contents a Hopen Ha) as Hrows.
    destruct (Forall2_lookup_l _ _ _ _ _ Hrows Hk) as (r & _ & cells & Hcells & Hr).
    apply make_record_Ok in Hr as ->.
    apply loose_call_non_integer in Hnon.
    destruct i as [|j]; [lia|].
    pose proof (numeric_column date j ltac:(lia)) as H1.
    destruct (numeric_cell r j ltac:(lia)) as [z H2].
    pose proof (Forall2_lookup_lr _ _ _ _ _ _ Hcells H1 H2) as H.
    cbn [fst snd] in H. rewrite Hnon in H. discriminate H.
  - exists e. split; [done|]. unfold item_activated. by rewrite Hw, Ha.
Qed.

Lemma non_integer_value_witness :
  exists e, genfromtxt fraction_logs (u "/logs/CM240101.csv") (u "2024-01-01") = Raise e
            /\ item_activated fraction_logs (TableItem (u "2024-01-01")) scanned_window
               = (scanned_window, Raise e).
Proof.
  apply (non_integer_value_fails fraction_logs (u "/logs/CM240101.csv") (u "2024-01-01")
           (file_bytes [header_row;
                        "01.01.2024;00:00:10;1;2;3;4;5;6;7;8;9;10;Burning";
                        "01.01.2024;00:01:10;1;2;3;4.5;5;6;7;8;9;10;Burning"]%string)
           (map b ["01.01.2024"; "00:01:10"; "1"; "2"; "3"; "4.5"; "5"; "6"; "7"; "8"; "9";
                   "10"; "Burning"]%string)
           5 scanned_window).
  - vm_compute. reflexivity.
  - apply (bool_decide_unpack _). vm_compute. exact I.
  - lia.
  - vm_compute. reflexivity.
  - vm_compute. reflexivity.
Defined.

(** C4 as stated fails: the parse fails as a whole, but nothing catches the
    exception and no message is shown. *)
Lemma non_integer_value_counterexample :
  let end_ := item_activated fraction_logs (TableItem (u "2024-01-01")) scanned_window in
  ~ (raised (genfromtxt fraction_logs (u "/logs/CM240101.csv") (u "2024-01-01")) = true
     /\ recovered_with_message scanned_window end_).
Proof.
  intros end_ [_ [H _]]. vm_compute in H. discriminate H.
Qed.

(** ** The example of the specification *)

(** C1, as the code has it. With the year of the data row written out
    (01.01.2024), the scan of the directory maps 2024-01-01 to the path of
    CM130513.csv and to nothing else, and the parse of that file for that
    date has the one record Time 09:05:03 (on 2024-01-01), KF = 1 to
    uP = 10 in the order of the columns, SM = Burning. *)
Theorem end_to_end_example :
  let path := u "/logs/CM130513.csv" in
  let w := (open_action example_logs (u "/logs") (fun _ => false) initial_window).1 in
  logfiles w = {[ u "2024-01-01" := path ]}
  /\ (exists a, genfromtxt example_logs path (u "2024-01-01") = Ok a
                /\ array_rows a = [example_record])
  /\ map cell_text (record_cells example_record)
     = map u ["09:05:03"; "1"; "2"; "3"; "4"; "5"; "6"; "7"; "8"; "9"; "10"; "Burning"]%string.
Proof.
  cbv zeta. split_and!.
  - vm_compute. reflexivity.
  - exists (Array0 example_record). split; vm_compute; reflexivity.
  - vm_compute. reflexivity.
Qed.

(** Beyond the parse, [item_activated] does not get to show the one row:
    the array of a file with a single data row has no length. *)
Lemma single_row_is_not_shown :
  item_activated example_logs (TableItem (u "2024-01-01"))
    (open_action example_logs (u "/logs") (fun _ => false) initial_window).1
  = ((open_action example_logs (u "/logs") (fun _ => false) initial_window).1,
     Raise TypeError).
Proof. vm_compute. reflexivity. Qed.

(** C1 as stated fails: the first field of the row the specification
    prints, 01.01.24, is no date of the form DD.MM.YYYY; reading the date
    raises ValueError and the dictionary stays empty. *)
Lemma end_to_end_counterexample :
  let path := u "/logs/CM130513.csv" in
  let end_ := open_action spec_example_logs (u "/logs") (fun _ => false) initial_window in
  ~ (logfiles end_.1 !! u "2024-01-01" = Some path)
  /\ getlogdate spec_example_logs path = Raise ValueError
  /\ end_.2 = Raise ValueError
  /\ logfiles end_.1 = ∅.
Proof.
  cbv zeta. split_and!.
  - intros H. vm_compute in H. discriminate H.
  - vm_compute. reflexivity.
  - vm_compute. reflexivity.
  - vm_compute. reflexivity.
Qed.

(** ** The time of a row *)

Lemma pattern_timestamp : pattern false timestamp_format = Some timestamp_regex.
Proof. reflexivity. Qed.

Lemma N_lt_cases (P : N -> Prop) (n : nat) :
  Forall P (map N.of_nat (seq 0 n)) -> forall x, x < N.of_nat n -> P x.
Proof.
  intros H x Hx. rewrite Forall_forall in H. apply H.
  apply list_elem_of_fmap. exists (N.to_nat x). split; [lia|].
  apply elem_of_seq. lia.
Qed.

Lemma rmatch_Seq_filter (q : list N -> bool) r k s :
  (forall s', q s' = false -> rmatch k s' = []) ->
  rmatch (Seq r k) s
  = flat_map (fun m1 => map (after (matched m1) (groups m1)) (rmatch k (rest m1)))
             (List.filter (fun m => q (rest m)) (rmatch r s)).
Proof.
  intros Hq. cbn [rmatch]. induction (rmatch r s) as [|m1 l IH]; [reflexivity|].
  cbn [flat_map List.filter]. destruct (q (rest m1)) eqn:Hm.
  - cbn [flat_map]. by rewrite IH.
  - rewrite (Hq _ Hm). cbn [map app]. exact IH.
Qed.

Lemma rmatch_Chr_nil c k s : starts_with (N.eqb c) s = false -> rmatch (Seq (Chr c) k) s = [].
Proof.
  destruct s as [|x s]; cbn; [done|]. rewrite N.eqb_sym. by intros ->.
Qed.

Lemma rmatch_Chr_cons c k s :
  rmatch (Seq (Chr c) k) (c :: s) = map (after [c] []) (rmatch k s).
Proof. cbn. rewrite N.eqb_refl. cbn. by rewrite app_nil_r. Qed.

Lemma rmatch_Plus_nil p k s : starts_with p s = false -> rmatch (Seq (Plus p) k) s = [].
Proof. destruct s as [|x s]; cbn; [done|]. by intros ->. Qed.

Lemma rmatch_Plus_one p k c s :
  p c = true -> starts_with p s = false ->
  rmatch (Seq (Plus p) k) (c :: s) = map (after [c] []) (rmatch k s).
Proof.
  intros Hc Hs. cbn. rewrite Hc.
  assert (star_match p s = [mk_rmatched [] [] s]) as ->.
  { destruct s as [|x s]; cbn in *; [done|]. by rewrite Hs. }
  cbn. by rewrite app_nil_r.
Qed.

Ltac enumerate bound :=
  refine (N_lt_cases _ bound _); repeat constructor;
  (let sp := fresh "sp" in let Hsp := fresh "Hsp" in
   intros sp Hsp; apply elem_of_cons in Hsp as [->|Hsp];
   [|apply list_elem_of_singleton in Hsp as ->]);
  vm_compute; reflexivity.

Lemma hour_group tl : forall n, n < 24 -> forall sp, sp ∈ spellings n ->
  List.filter (fun m => starts_with (N.eqb 58) (rest m)) (rmatch (group_of 72) (sp ++ 58 :: tl))
  = [mk_rmatched sp [(72, sp)] (58 :: tl)].
Proof. enumerate 24%nat. Qed.

Lemma minute_group tl : forall n, n < 60 -> forall sp, sp ∈ spellings n ->
  List.filter (fun m => starts_with (N.eqb 58) (rest m)) (rmatch (group_of 77) (sp ++ 58 :: tl))
  = [mk_rmatched sp [(77, sp)] (58 :: tl)].
Proof. enumerate 60%nat. Qed.

Lemma second_group : forall n, n < 60 -> forall sp, sp ∈ spellings n ->
  head (rmatch (Seq (group_of 83) Eps) sp) = Some (mk_rmatched sp [(83, sp)] []).
Proof. enumerate 60%nat. Qed.

Lemma spelling_value : forall n, n < 60 -> forall sp, sp ∈ spellings n -> digits_value (strip sp) = n.
Proof. enumerate 60%nat. Qed.

Lemma N_lt_forallb (P : N -> bool) (n : nat) :
  forallb P (map N.of_nat (seq 0 n)) = true -> forall x, x < N.of_nat n -> P x = true.
Proof.
  intros H x Hx. rewrite forallb_forall in H. apply H.
  apply list_elem_of_In, list_elem_of_fmap. exists (N.to_nat x). split; [lia|].
  apply elem_of_seq. lia.
Qed.

Lemma month_group tl : forall n, n < 12 ->
  List.filter (fun m => starts_with (N.eqb 45) (rest m))
              (rmatch (group_of 109) (zero_padded 2 (n + 1) ++ 45 :: tl))
  = [mk_rmatched (zero_padded 2 (n + 1)) [(109, zero_padded 2 (n + 1))] (45 :: tl)].
Proof. refine (N_lt_cases _ 12%nat _); repeat constructor; vm_compute; reflexivity. Qed.

Lemma day_group tl : forall n, n < 31 ->
  List.filter (fun m => starts_with isspace (rest m))
              (rmatch (group_of 100) (zero_padded 2 (n + 1) ++ 32 :: tl))
  = [mk_rmatched (zero_padded 2 (n + 1)) [(100, zero_padded 2 (n + 1))] (32 :: tl)].
Proof. refine (N_lt_cases _ 31%nat _); repeat constructor; vm_compute; reflexivity. Qed.

Lemma padded_value : forall n, n < 60 -> digits_value (strip (zero_padded 2 n)) = n.
Proof. refine (N_lt_cases _ 60%nat _); repeat constructor. Qed.

Lemma spelling_no_blank tl : forall n, n < 60 -> forall sp, sp ∈ spellings n ->
  starts_with isspace (sp ++ tl) = false.
Proof. enumerate 60%nat. Qed.

Lemma zero_padded_year y :
  y < 10000 ->
  exists a b c d, zero_padded 4 y = [a; b; c; d]
    /\ isdigit a = true /\ isdigit b = true /\ isdigit c = true /\ isdigit d = true
    /\ digits_value (strip [a; b; c; d]) = y.
Proof.
  intros Hy. assert (H : four_digits y = true).
  { revert y Hy. apply (N_lt_forallb four_digits (100 * 100)). vm_compute. reflexivity. }
  unfold four_digits in H. destruct (zero_padded 4 y) as [|a [|b [|c [|d [|]]]]]; try done.
  apply andb_prop in H as [H Hv%N.eqb_eq]. apply andb_prop in H as [H Hd].
  apply andb_prop in H as [H Hc]. apply andb_prop in H as [Ha Hb].
  by exists a, b, c, d.
Qed.

Lemma isdigit_isdecimal c : isdigit c = true -> isdecimal c = true.
Proof.
  unfold isdigit. intros [H1%N.leb_le H2%N.leb_le]%andb_prop.
  unfold isdecimal, to_decimal, decimal_zeros. cbn [List.find].
  assert ((48 <=? c) && (c <? 48 + 10) = true) as ->; [|done].
  apply andb_true_intro. split; [apply N.leb_le|apply N.ltb_lt]; lia.
Qed.

Lemma year_group a b c d tl :
  isdigit a = true -> isdigit b = true -> isdigit c = true -> isdigit d = true ->
  List.filter (fun m => starts_with (N.eqb 45) (rest m))
              (rmatch (group_of 89) (a :: b :: c :: d :: 45 :: tl))
  = [mk_rmatched [a; b; c; d] [(89, [a; b; c; d])] (45 :: tl)].
Proof.
  intros Ha%isdigit_isdecimal Hb%isdigit_isdecimal Hc%isdigit_isdecimal Hd%isdigit_isdecimal.
  change (group_of 89) with (Group 89 (Seq (Cls isdecimal) (Seq (Cls isdecimal)
                                (Seq (Cls isdecimal) (Seq (Cls isdecimal) Eps))))).
  cbn [rmatch flat_map map app]. rewrite Ha. cbn [rmatch flat_map map app rest matched groups].
  rewrite Hb. cbn [rmatch flat_map map app rest matched groups].
  rewrite Hc. cbn [rmatch flat_map map app rest matched groups].
  rewrite Hd. cbn [rmatch flat_map map app rest matched groups List.filter starts_with].
  reflexivity.
Qed.

Lemma group_value_cons d' txt gs d default :
  group_value ((d', txt) :: gs) d default
  = if d' =? d then digits_value (strip txt) else group_value gs d default.
Proof.
  unfold group_value. cbn [list_find]. cbn [fst]. destruct (decide (d' = d)) as [->|Hne].
  - by rewrite N.eqb_refl.
  - apply N.eqb_neq in Hne as ->. cbn. by destruct (list_find _ gs) as [[? [? ?]]|].
Qed.

Lemma head_map {A B} (f : A -> B) l : head (map f l) = f <$> head l.
Proof. by destruct l. Qed.

(** A time of day written with or without leading zeros, put behind the
    date of the file, is read as that time on that date. *)
Lemma convert_time_spelled timestring t hh mm ss :
  valid_datetime t = true ->
  hh ∈ spellings (hour t) -> mm ∈ spellings (minute t) -> ss ∈ spellings (second t) ->
  decode timestring = Ok (hh ++ u ":" ++ mm ++ u ":" ++ ss) ->
  convert_time timestring (date_isoformat t) = Ok t.
Proof.
  intros Hvalid Hh Hm Hs Hdec. unfold convert_time. rewrite Hdec. cbn [mbind result_bind].
  unfold strptime. rewrite pattern_timestamp.
  destruct t as [y mo d h mi s]. cbn [hour minute second] in *.
  pose proof Hvalid as Hv. unfold valid_datetime in Hv. cbn [year month day hour minute second] in Hv.
  repeat (apply andb_prop in Hv as [Hv ?]).
  repeat match goal with H : (_ <=? _) = true |- _ => apply N.leb_le in H end.
  assert (d <= 31).
  { etransitivity; [eassumption|]. unfold days_in_month.
    repeat match goal with |- context [if ?x then _ else _] => destruct x end; lia. }
  destruct (zero_padded_year y ltac:(lia)) as (a & b & c & e & Hy & Ha & Hb & Hc & He & Hyv).
  unfold date_isoformat. cbn [year month day]. rewrite Hy.
  replace mo with (mo - 1 + 1) at 1 by lia. replace d with (d - 1 + 1) at 1 by lia.
  change (u "-") with [45]. change (u " ") with [32]. change (u ":") with [58].
  rewrite <- !app_assoc. cbn [app].
  unfold re_match, timestamp_regex.
  (* the year *)
  rewrite (rmatch_Seq_filter (starts_with (N.eqb 45))) by apply rmatch_Chr_nil.
  rewrite year_group by done. cbn [flat_map rest matched groups]. rewrite rmatch_Chr_cons.
  (* the month *)
  rewrite (rmatch_Seq_filter (starts_with (N.eqb 45))) by apply rmatch_Chr_nil.
  rewrite month_group by lia. cbn [flat_map rest matched groups]. rewrite rmatch_Chr_cons.
  (* the day and the blank *)
  rewrite (rmatch_Seq_filter (starts_with isspace)) by apply rmatch_Plus_nil.
  rewrite day_group by lia. cbn [flat_map rest matched groups].
  rewrite rmatch_Plus_one; [|reflexivity|by apply (spelling_no_blank _ h); [lia|]].
  (* the time of day *)
  rewrite (rmatch_Seq_filter (starts_with (N.eqb 58))) by apply rmatch_Chr_nil.
  rewrite (hour_group _ h) by (done || lia). cbn [flat_map rest matched groups].
  rewrite rmatch_Chr_cons.
  rewrite (rmatch_Seq_filter (starts_with (N.eqb 58))) by apply rmatch_Chr_nil.
  rewrite (minute_group _ mi) by (done || lia). cbn [flat_map rest matched groups].
  rewrite rmatch_Chr_cons.
  rewrite !app_nil_r, !head_map, (second_group s) by (done || lia).
  cbn [fmap option_fmap option_map after rest groups matched app].
  rewrite !group_value_cons.
  repeat match goal with
         | |- context [?x =? ?y] =>
             let v := eval vm_compute in (x =? y) in change (x =? y) with v
         end.
  cbn iota.
  rewrite Hyv, !padded_value, (spelling_value h), (spelling_value mi), (spelling_value s)
    by (done || lia).
  replace (mo - 1 + 1) with mo by lia. replace (d - 1 + 1) with d by lia.
  by rewrite Hvalid.
Qed.

(** C7. [convert_time] puts the date of the file and a blank before the
    decoded time field and reads the text as YYYY-MM-DD HH:MM:SS; the field
    may lack leading zeros.  For the field 9:5:3 and the date 2024-03-01 the
    result is the timestamp 2024-03-01T09:05:03, and in general a valid
    time of day, each of its three numbers written with or without a
    leading zero, gives the timestamp of that time on the date of the
    file. *)
Theorem convert_time_timestamp :
  (convert_time (b "9:5:3") (u "2024-03-01") = Ok (mk_datetime 2024 3 1 9 5 3)
   /\ datetime_isoformat (mk_datetime 2024 3 1 9 5 3) = u "2024-03-01T09:05:03")
  /\ (forall timestring date,
        convert_time timestring date
        = (text ← decode timestring; strptime (date ++ u " " ++ text) timestamp_format))
  /\ (forall timestring t hh mm ss,
        valid_datetime t = true ->
        hh ∈ spellings (hour t) -> mm ∈ spellings (minute t) -> ss ∈ spellings (second t) ->
        decode timestring = Ok (hh ++ u ":" ++ mm ++ u ":" ++ ss) ->
        convert_time timestring (date_isoformat t) = Ok t).
Proof.
  split_and!.
  - vm_compute. reflexivity.
  - vm_compute. reflexivity.
  - reflexivity.
  - apply convert_time_spelled.
Qed.

(** The zero-padded spelling of the example, through the general part. *)
Lemma convert_time_timestamp_witness :
  convert_time (b "09:05:03") (u "2024-03-01") = Ok (mk_datetime 2024 3 1 9 5 3).
Proof.
  apply (proj2 (proj2 convert_time_timestamp) (b "09:05:03") (mk_datetime 2024 3 1 9 5 3)
           (u "09") (u "05") (u "03")).
  - reflexivity.
  - apply (bool_decide_unpack _). vm_compute. exact I.
  - apply (bool_decide_unpack _). vm_compute. exact I.
  - apply (bool_decide_unpack _). vm_compute. exact I.
  - vm_compute. reflexivity.
Defined.

(** * Further properties *)

(** ** What a scan does to the dictionary and to the overview list *)

Lemma add_entries_lookup_other (m : gmap str str) (kvs : list (str * str)) date :
  date ∉ map fst kvs -> add_entries m kvs !! date = m !! date.
Proof.
  revert m. induction kvs as [|[k v] kvs IH]; intros m Hnot; cbn in *; [done|].
  apply not_elem_of_cons in Hnot as [Hne Hnot].
  change (add_entries (<[k:=v]> m) kvs !! date = m !! date).
  rewrite IH by done. by rewrite lookup_insert_ne.
Qed.

Lemma add_entries_is_Some (m : gmap str str) (kvs : list (str * str)) date :
  is_Some (m !! date) -> is_Some (add_entries m kvs !! date).
Proof.
  revert m. induction kvs as [|[k v] kvs IH]; intros m Hm; cbn in *; [done|].
  apply IH. rewrite lookup_insert. case_decide; [by eexists|done].
Qed.

Lemma add_entries_has_key (m : gmap str str) (kvs : list (str * str)) date :
  date ∈ map fst kvs -> is_Some (add_entries m kvs !! date).
Proof.
  revert m. induction kvs as [|[k v] kvs IH]; intros m Hin; cbn in *.
  - by apply elem_of_nil in Hin.
  - apply elem_of_cons in Hin as [->|Hin]; [|by apply IH].
    apply add_entries_is_Some. rewrite lookup_insert_eq. by eexists.
Qed.

Lemma dated_dates os files date :
  date ∈ map fst (dated os files) -> exists file, file ∈ files /\ getlogdate os file = Ok date.
Proof.
  induction files as [|f files IH]; cbn; [by intros ?%elem_of_nil|].
  destruct (getlogdate os f) as [d|e] eqn:Hf; cbn; [|by intros ?%elem_of_nil].
  intros [->|Hin]%elem_of_cons.
  - exists f. split; [left|done].
  - destruct (IH Hin) as (file & ? & ?). exists file. split; [by right|done].
Qed.

Lemma dated_app os pre post :
  Forall (fun f => raised (getlogdate os f) = false) pre ->
  dated os (pre ++ post) = dated os pre ++ dated os post.
Proof.
  induction 1 as [|f pre Hf _ IH]; cbn; [done|].
  destruct (getlogdate os f); [|done]. cbn. by rewrite IH.
Qed.

Lemma loglist_setitem w date file : loglist (logfiles_setitem w date file) = loglist w.
Proof. unfold logfiles_setitem. by destruct (self_logfiles w). Qed.

Lemma loglist_set_entries (kvs : list (str * str)) : forall w,
  loglist (set_entries w kvs) = loglist w.
Proof.
  induction kvs as [|kv kvs IH]; intros w; cbn; [done|].
  change (loglist (set_entries (logfiles_setitem w kv.1 kv.2) kvs) = loglist w).
  by rewrite IH, loglist_setitem.
Qed.

(** The loop of [load_log_list] writes to the dictionary only. *)
Lemma load_loop_loglist os wasCanceled copy files : forall w logdata i,
  loglist (load_loop os wasCanceled copy w logdata i files).1 = loglist w.
Proof.
  induction files as [|f files IH]; intros w logdata i; cbn; [done|].
  destruct (getlogdate os f) as [date|e]; cbn; [|done].
  destruct (wasCanceled i); cbn.
  - apply loglist_setitem.
  - by rewrite IH, loglist_setitem.
Qed.

(** The overview list after [load_log_list]: the dates of the files when the
    scan came to its end, the old rows otherwise. *)
Lemma load_log_list_loglist os wasCanceled w files :
  let end_ := load_log_list os wasCanceled w files in
  (end_.2 = Ok ()
   /\ (forall n, (n < length files)%nat -> wasCanceled (S n) = false)
   /\ first_error os files = None
   /\ loglist end_.1 = map fst (dated os files))
  \/ loglist end_.1 = loglist w.
Proof.
  unfold load_log_list.
  pose proof (load_loop_loglist os wasCanceled (logfiles w) files w [] 1) as Hl.
  destruct (load_loop_ends os wasCanceled (logfiles w) files w [] 1)
    as [(n & Hn & Hc & Hr & _)|(Hno & Hw & Hr)];
    destruct (load_loop _ _ _ _ _ _ _) as [w' r]; cbn in *.
  - right. by subst r.
  - subst r. destruct (first_error os files) as [e|] eqn:He; cbn; [by right|].
    left. split_and!; [done| |done|done].
    intros n Hn. apply (Hno n).
    by rewrite <- (length_map snd), (first_error_none os files He).
Qed.

Lemma first_error_none_readable os files :
  first_error os files = None -> Forall (fun f => raised (getlogdate os f) = false) files.
Proof.
  induction files as [|f files IH]; cbn; [constructor|].
  destruct (getlogdate os f) eqn:Hf; [|done]. intros H. constructor; [by rewrite Hf|auto].
Qed.

Lemma open_action_logfiles os directory wasCanceled w :
  let end_ := open_action os directory wasCanceled w in
  logfiles end_.1 = logfiles w
  \/ logfiles end_.1
     = add_entries (logfiles w) (dated os (glob os (directory ++ u "/" ++ logfile_pattern))).
Proof.
  unfold open_action. destruct directory as [|c directory]; [by left|].
  destruct (glob os _) as [|file files] eqn:Hglob; [by left|].
  destruct (load_log_list_logfiles os wasCanceled w (file :: files))
    as [(n & _ & _ & _ & Hl)|(_ & Hl & _)]; [by left|by right].
Qed.

(** X1. A scan never removes a date from the dictionary: a date that had
    a log before [open_action] has one after it, however the scan ends. *)
Theorem scan_keeps_known_dates os directory wasCanceled w date :
  is_Some (logfiles w !! date) ->
  is_Some (logfiles (open_action os directory wasCanceled w).1 !! date).
Proof.
  intros Hd. destruct (open_action_logfiles os directory wasCanceled w) as [->| ->];
    [done|by apply add_entries_is_Some].
Qed.

Lemma scan_keeps_known_dates_witness :
  is_Some (logfiles earlier_window !! u "2023-12-31")
  /\ is_Some (logfiles (open_action five_logs (u "/logs") (fun _ => false) earlier_window).1
                !! u "2023-12-31").
Proof.
  assert (H : is_Some (logfiles earlier_window !! u "2023-12-31")).
  { exists (u "/old/CM231231.csv"). vm_compute. reflexivity. }
  split; [exact H|].
  exact (scan_keeps_known_dates five_logs (u "/logs") (fun _ => false) earlier_window _ H).
Defined.

(** X2. A scan changes only the dates it reads: a date that none of the
    files found in the directory carries keeps the path it had (or stays
    without one). *)
Theorem scan_leaves_other_dates os directory wasCanceled w date :
  (forall file, file ∈ glob os (directory ++ u "/" ++ logfile_pattern) ->
                getlogdate os file ≠ Ok date) ->
  logfiles (open_action os directory wasCanceled w).1 !! date = logfiles w !! date.
Proof.
  intros Hnone. destruct (open_action_logfiles os directory wasCanceled w) as [->| ->];
    [done|].
  apply add_entries_lookup_other. intros Hin.
  apply dated_dates in Hin as (file & Hfile & Hdate). by apply (Hnone file).
Qed.

Lemma scan_leaves_other_dates_witness :
  logfiles (open_action five_logs (u "/logs") (fun _ => false) earlier_window).1
    !! u "2023-12-31"
  = logfiles earlier_window !! u "2023-12-31".
Proof.
  apply (scan_leaves_other_dates five_logs (u "/logs") (fun _ => false) earlier_window).
  intros file Hfile. vm_compute in Hfile.
  repeat (apply elem_of_cons in Hfile as [->|Hfile]; [vm_compute; discriminate|]).
  by apply elem_of_nil in Hfile.
Defined.

(** X3. The last file wins: in a scan that is not canceled, a file whose
    date is read, after files whose dates are read, and followed by no file
    with the same date, is the log of its date afterwards - whatever file
    had that date before, and even if the scan fails on a later file. *)
Theorem last_file_of_a_date_wins os wasCanceled w pre file post date :
  (forall i, wasCanceled i = false) ->
  Forall (fun f => raised (getlogdate os f) = false) pre ->
  getlogdate os file = Ok date ->
  Forall (fun f => getlogdate os f ≠ Ok date) post ->
  logfiles (load_log_list os wasCanceled w (pre ++ file :: post)).1 !! date = Some file.
Proof.
  intros Hno Hpre Hfile Hpost.
  destruct (load_log_list_logfiles os wasCanceled w (pre ++ file :: post))
    as [(n & _ & Hc & _)|(_ & -> & _)]; [by rewrite Hno in Hc|].
  rewrite (dated_app os pre (file :: post) Hpre). cbn [dated]. rewrite Hfile.
  rewrite add_entries_app. cbn [add_entries foldl fst snd].
  change (add_entries (<[date:=file]> (add_entries (logfiles w) (dated os pre)))
            (dated os post) !! date = Some file).
  rewrite add_entries_lookup_other; [by rewrite lookup_insert_eq|].
  intros Hin. apply dated_dates in Hin as (f & Hf & Hdate).
  rewrite Forall_forall in Hpost. by apply (Hpost f).
Qed.

Lemma last_file_of_a_date_wins_witness :
  logfiles (load_log_list twin_logs (fun _ => false) initial_window
              ([u "/logs/CM240101.csv"] ++ u "/logs/CM240102.csv" :: [])).1 !! u "2024-01-01"
  = Some (u "/logs/CM240102.csv").
Proof.
  apply (last_file_of_a_date_wins twin_logs (fun _ => false) initial_window
           [u "/logs/CM240101.csv"] (u "/logs/CM240102.csv") [] (u "2024-01-01")).
  - intros i. reflexivity.
  - repeat constructor.
  - vm_compute. reflexivity.
  - constructor.
Defined.

Lemma dated_all os files :
  Forall (fun f => raised (getlogdate os f) = false) files ->
  Forall2 (fun f date => getlogdate os f = Ok date) files (map fst (dated os files))
  /\ first_error os files = None.
Proof.
  induction 1 as [|f files Hf _ [IH1 IH2]]; cbn; [by split; [constructor|]|].
  destruct (getlogdate os f) as [d|e] eqn:Hd; [|done]. cbn.
  split; [by constructor|done].
Qed.

(** X4. When a scan comes to its end - the dialog is not canceled and the
    date of every file can be read - the overview list shows one row per
    file, in the order of the files, each row the date of its file (two
    files of one day give two rows). *)
Theorem finished_scan_lists_every_file os wasCanceled w files :
  (forall i, wasCanceled i = false) ->
  Forall (fun f => raised (getlogdate os f) = false) files ->
  (load_log_list os wasCanceled w files).2 = Ok ()
  /\ Forall2 (fun f date => getlogdate os f = Ok date) files
             (loglist (load_log_list os wasCanceled w files).1).
Proof.
  intros Hno Hfiles. destruct (dated_all os files Hfiles) as [Hdates Herr].
  unfold load_log_list.
  destruct (load_loop_ends os wasCanceled (logfiles w) files w [] 1)
    as [(n & _ & Hc & _)|(_ & Hw & Hr)]; [by rewrite Hno in Hc|].
  destruct (load_loop _ _ _ _ _ _ _) as [w' r]; cbn in *. subst r. by rewrite Herr.
Qed.

Lemma finished_scan_lists_every_file_witness :
  (load_log_list twin_logs (fun _ => false) initial_window
     [u "/logs/CM240101.csv"; u "/logs/CM240102.csv"]).2 = Ok ()
  /\ Forall2 (fun f date => getlogdate twin_logs f = Ok date)
             [u "/logs/CM240101.csv"; u "/logs/CM240102.csv"]
             (loglist (load_log_list twin_logs (fun _ => false) initial_window
                         [u "/logs/CM240101.csv"; u "/logs/CM240102.csv"]).1).
Proof.
  apply (finished_scan_lists_every_file twin_logs (fun _ => false) initial_window).
  - intros i. reflexivity.
  - repeat constructor.
Defined.

(** X5. A scan that is canceled, or that fails on one of its files, leaves
    the overview list as it was. *)
Theorem unfinished_scan_keeps_list os wasCanceled w files :
  (exists k, (1 ≤ k ≤ length files)%nat /\ wasCanceled k = true)
  \/ (exists file, file ∈ files /\ raised (getlogdate os file) = true) ->
  loglist (load_log_list os wasCanceled w files).1 = loglist w.
Proof.
  intros Hend.
  destruct (load_log_list_loglist os wasCanceled w files)
    as [(_ & Hno & Herr & _)|Hl]; [exfalso|done].
  destruct Hend as [(k & Hk & Hc)|(file & Hin & Hfile)].
  - specialize (Hno (k - 1)%nat). replace (S (k - 1)) with k in Hno by lia.
    rewrite Hno in Hc; [done|lia].
  - apply first_error_none_readable in Herr. rewrite Forall_forall in Herr.
    by rewrite (Herr file Hin) in Hfile.
Qed.

Lemma unfinished_scan_keeps_list_witness :
  loglist (load_log_list broken_logs (fun _ => false) earlier_window broken_files).1
  = loglist earlier_window.
Proof.
  apply (unfinished_scan_keeps_list broken_logs (fun _ => false) earlier_window broken_files).
  right. exists (u "/logs/CM240103.csv"). split.
  - apply (bool_decide_unpack _). vm_compute. exact I.
  - vm_compute. reflexivity.
Defined.

(** ** The overview list and the dictionary agree *)

(** [item_activated] leaves the dictionary and the overview list alone. *)
Lemma item_activated_index os param w :
  logfiles (item_activated os param w).1 = logfiles w
  /\ loglist (item_activated os param w).1 = loglist w.
Proof.
  unfold item_activated.
  repeat (match goal with
          | |- context [match ?x with _ => _ end] => destruct x
          end; try done).
Qed.

(** X6. [item_activated] never writes to the dictionary of log files nor to
    the overview list, however it ends: with a warning, with an exception,
    or with the log shown. *)
Theorem item_activated_keeps_index os param w :
  logfiles (item_activated os param w).1 = logfiles w
  /\ loglist (item_activated os param w).1 = loglist w.
Proof. exact (item_activated_index os param w). Qed.

Definition listed_dates_known (w : MainWindow) : Prop :=
  forall date, date ∈ loglist w -> is_Some (logfiles w !! date).

Lemma open_action_listed os directory wasCanceled w :
  listed_dates_known w -> listed_dates_known (open_action os directory wasCanceled w).1.
Proof.
  intros Hw. unfold open_action. destruct directory as [|c directory]; [done|].
  destruct (glob os _) as [|file files] eqn:Hglob; [done|].
  set (fs := file :: files). intros date.
  destruct (load_log_list_loglist os wasCanceled w fs)
    as [(_ & Hno & _ & Hl)|Hl]; rewrite Hl.
  - destruct (load_log_list_logfiles os wasCanceled w fs)
      as [(n & Hn & Hc & _)|(_ & -> & _)].
    + pose proof (dated_length os fs). rewrite Hno in Hc; [done|lia].
    + apply add_entries_has_key.
  - intros Hin%Hw.
    destruct (load_log_list_logfiles os wasCanceled w fs)
      as [(n & _ & _ & _ & ->)|(_ & -> & _)]; [done|by apply add_entries_is_Some].
Qed.

Arguments item_activated : simpl never.
Arguments open_action : simpl never.

Lemma run_listed evs : listed_dates_known (run evs).
Proof.
  unfold run. induction evs as [|ev evs IH] using rev_ind.
  - intros date Hin. by apply elem_of_nil in Hin.
  - rewrite foldl_app. cbn. destruct ev as [os directory wasCanceled|os param].
    + by apply open_action_listed.
    + destruct (item_activated_index os param (foldl handle initial_window evs))
        as [Hl1 Hl2].
      intros date Hin. unfold handle in *. rewrite Hl2 in Hin. rewrite Hl1. by apply IH.
Qed.

(** X7. Whatever the user has done so far, every date shown in the overview
    list has a log in the dictionary: activating a row of the list never
    ends in the warning that there is no log for the day. *)
Theorem listed_date_has_a_log evs os date :
  date ∈ loglist (run evs) ->
  is_Some (logfiles (run evs) !! date)
  /\ warnings (item_activated os (TableItem date) (run evs)).1 = warnings (run evs).
Proof.
  intros Hin. destruct (run_listed evs date Hin) as [path Hpath]. split; [by eexists|].
  unfold item_activated. rewrite Hpath.
  repeat (match goal with
          | |- context [match ?x with _ => _ end] => destruct x
          end; try done).
Qed.

Lemma listed_date_has_a_log_witness :
  u "2024-01-02" ∈ loglist (run [OpenDirectory five_logs (u "/logs") (fun _ => false)])
  /\ is_Some (logfiles (run [OpenDirectory five_logs (u "/logs") (fun _ => false)])
                !! u "2024-01-02")
  /\ warnings (item_activated five_logs (TableItem (u "2024-01-02"))
                 (run [OpenDirectory five_logs (u "/logs") (fun _ => false)])).1
     = warnings (run [OpenDirectory five_logs (u "/logs") (fun _ => false)]).
Proof.
  assert (H : u "2024-01-02"
              ∈ loglist (run [OpenDirectory five_logs (u "/logs") (fun _ => false)])).
  { apply (bool_decide_unpack _). vm_compute. exact I. }
  split; [exact H|].
  exact (listed_date_has_a_log _ five_logs _ H).
Defined.

(** ** The cells of a parsed row *)

Lemma strptime_Raise data format e : strptime data format = Raise e -> e = ValueError.
Proof.
  unfold strptime. intros H.
  repeat (match type of H with
          | match ?x with _ => _ end = _ => destruct x; try discriminate H
          | (if ?x then _ else _) = _ => destruct x; try discriminate H
          end).
  all: congruence.
Qed.

Lemma convert_time_Raise raw date e :
  convert_time raw date = Raise e -> is_ValueError e = true.
Proof.
  unfold convert_time. destruct (decode raw) as [text|e'] eqn:Hd; cbn [mbind result_bind].
  - by intros ->%strptime_Raise.
  - intros [= <-]. by apply utf8_decode_Raise in Hd as ->.
Qed.

Lemma loose_call_time raw date :
  loose_call (fun s => Datetime <$> convert_time s date) raw = Ok (converted_time raw date).
Proof.
  unfold loose_call, converted_time.
  destruct (convert_time raw date) as [t|e] eqn:H; cbn; [done|].
  by rewrite (convert_time_Raise _ _ _ H).
Qed.

(** X8. The time of every record of a parsed file is the time field of its
    row read on the selected date; a time field that cannot be read does
    not make the parse fail: the record then holds the text Burning where
    its time should be. *)
Theorem time_is_converted_field os fname date contents a :
  open_bytes os fname = Ok contents ->
  genfromtxt os fname date = Ok a ->
  Forall2 (fun values r => Time r = converted_time (nth 1 values []) date)
          (raw_rows contents) (array_rows a).
Proof.
  intros Hopen Ha.
  eapply Forall2_impl; [exact (genfromtxt_rows os fname date contents a Hopen Ha)|].
  intros values r (cells & Hcells & Hr). cbn beta in *.
  apply make_record_Ok in Hr as ->.
  assert (H0 : numbered_converters date !! 0%nat
               = Some (0%nat, fun s => Datetime <$> convert_time s date)) by reflexivity.
  assert (Ht : record_cells r !! 0%nat = Some (Time r)) by reflexivity.
  pose proof (Forall2_lookup_lr _ _ _ _ _ _ Hcells H0 Ht) as H.
  cbn [fst snd] in H. rewrite loose_call_time in H. by injection H.
Qed.

Lemma time_is_converted_field_witness :
  Forall2 (fun values r => Time r = converted_time (nth 1 values []) (u "2024-01-01"))
          (raw_rows (file_bytes [header_row;
                       "01.01.2024;00:00:10;1;2;3;4;5;6;7;8;9;10;Burning";
                       "01.01.2024;24:00:00;+1;-2;03;4;5;6;7;8;9;10;Burning"]%string))
          [mk_record (Datetime (mk_datetime 2024 1 1 0 0 10)) 1 2 3 4 5 6 7 8 9 10
                     (Str (u "Burning"));
           mk_record (Str (u "Burning")) 1 (-2) 3 4 5 6 7 8 9 10 (Str (u "Burning"))].
Proof.
  apply (time_is_converted_field odd_time_logs (u "/logs/CM240101.csv") (u "2024-01-01")
           _ (Array1 _)).
  - vm_compute. reflexivity.
  - vm_compute. reflexivity.
Defined.

Lemma loose_call_Int v z :
  loose_call np_int64 v = Ok (Int z) ->
  int_literal (map Byte.to_N (bstrip v)) = Some z /\ (- 2 ^ 63 ≤ z < 2 ^ 63)%Z.
Proof.
  unfold loose_call, np_int64.
  destruct (int_literal _) as [z'|]; [|discriminate].
  destruct (_ && _) eqn:Hrange; cbn; [|discriminate].
  intros [= ->]. split; [done|]. apply andb_prop in Hrange as [?%Z.leb_le ?%Z.ltb_lt]. lia.
Qed.

(** X9. The ten numbers of every record of a parsed file are the integers
    written in fields 3 to 12 of its row, in that order (KF first, uP
    last), each within 64 bits; a sign and leading zeros are read as
    [int] reads them. *)
Theorem numbers_are_the_fields os fname date contents a :
  open_bytes os fname = Ok contents ->
  genfromtxt os fname date = Ok a ->
  Forall2 (fun values r =>
             Forall2 (fun j z =>
                        int_literal (map Byte.to_N (bstrip (nth j values []))) = Some z
                        /\ (- 2 ^ 63 ≤ z < 2 ^ 63)%Z)
                     (seq 2 10) (numbers r))
          (raw_rows contents) (array_rows a).
Proof.
  intros Hopen Ha.
  eapply Forall2_impl; [exact (genfromtxt_rows os fname date contents a Hopen Ha)|].
  intros values r (cells & Hcells & Hr). cbn beta in *.
  apply make_record_Ok in Hr as ->.
  apply Forall2_same_length_lookup_2; [reflexivity|].
  intros i j z Hj Hz. apply lookup_seq in Hj as [-> Hi].
  assert (Hcol := numeric_column date (S i) ltac:(lia)).
  assert (Hcell : record_cells r !! S i = Some (Int z)).
  { do 10 (destruct i as [|i]; [by injection Hz as <-|]). lia. }
  pose proof (Forall2_lookup_lr _ _ _ _ _ _ Hcells Hcol Hcell) as H.
  cbn [fst snd] in H. by apply loose_call_Int in H.
Qed.

Lemma numbers_are_the_fields_witness :
  Forall2 (fun values r =>
             Forall2 (fun j z =>
                        int_literal (map Byte.to_N (bstrip (nth j values []))) = Some z
                        /\ (- 2 ^ 63 ≤ z < 2 ^ 63)%Z)
                     (seq 2 10) (numbers r))
          (raw_rows (file_bytes [header_row;
                       "01.01.2024;00:00:10;1;2;3;4;5;6;7;8;9;10;Burning";
                       "01.01.2024;24:00:00;+1;-2;03;4;5;6;7;8;9;10;Burning"]%string))
          [mk_record (Datetime (mk_datetime 2024 1 1 0 0 10)) 1 2 3 4 5 6 7 8 9 10
                     (Str (u "Burning"));
           mk_record (Str (u "Burning")) 1 (-2) 3 4 5 6 7 8 9 10 (Str (u "Burning"))].
Proof.
  apply (numbers_are_the_fields odd_time_logs (u "/logs/CM240101.csv") (u "2024-01-01")
           _ (Array1 _)).
  - vm_compute. reflexivity.
  - vm_compute. reflexivity.
Defined.

(** ** Which logs are shown *)

Lemma genfromtxt_squeeze os fname date a :
  genfromtxt os fname date = Ok a -> a = squeeze (array_rows a).
Proof.
  unfold genfromtxt. destruct (open_bytes os fname) as [contents|]; [|done].
  cbn [mbind result_bind].
  destruct (find_first_values _) as [[first_values fhd]|]; [|done].
  destruct (existsb _ _); [done|].
  destruct (traverse _ (zip _ _)) as [columns|e]; [|done]. cbn [mbind result_bind].
  destruct (bool_decide _); [done|].
  destruct (traverse _ (seq _ _)) as [output|e]; [|done]. cbn [mbind result_bind].
  destruct output as [|r [|r' output]]; by intros [= <-].
Qed.

(** X10. [item_activated] shows a log only if the file has at least two
    data rows.  When it returns normally for a date that has a log, the
    detail table has one row of twelve cells for every data row of the
    file, one canvas was added, and the detail tab is the current one. *)
Theorem shown_log_has_two_rows os date w fname contents :
  logfiles w !! date = Some fname ->
  open_bytes os fname = Ok contents ->
  (item_activated os (TableItem date) w).2 = Ok () ->
  let w' := (item_activated os (TableItem date) w).1 in
  (2 ≤ length (raw_rows contents))%nat
  /\ length (logdetaillist w') = length (raw_rows contents)
  /\ Forall (fun row => length row = 12%nat) (logdetaillist w')
  /\ length (graphs w') = S (length (graphs w))
  /\ currentIndex w' = 1%nat.
Proof.
  intros Hw Hopen. unfold item_activated. rewrite Hw.
  destruct (genfromtxt os fname date) as [a|e] eqn:Ha; [|done].
  pose proof (Forall2_length _ _ _ (genfromtxt_rows os fname date contents a Hopen Ha)) as Hlen.
  pose proof (genfromtxt_squeeze os fname date a Ha) as Hsq.
  destruct a as [r|[|r rows]]; [done|done|].
  destruct (date2num _) as [x|e]; [|done]. intros _. cbn [fst snd array_rows] in *.
  split_and!.
  - destruct rows; [discriminate Hsq|]. rewrite Hlen. cbn. lia.
  - cbn. by rewrite length_map, Hlen.
  - cbn. constructor; [done|]. apply Forall_forall. intros row Hrow.
    apply list_elem_of_fmap in Hrow as (r' & -> & _). done.
  - cbn. rewrite length_app. cbn. lia.
  - done.
Qed.

Lemma shown_log_has_two_rows_witness :
  let w' := (item_activated standby_logs (TableItem (u "2024-01-01")) scanned_window).1 in
  (2 ≤ length (raw_rows (file_bytes [header_row;
                          "01.01.2024;00:00:10;1;2;3;4;5;6;7;8;9;10;Standby";
                          "01.01.2024;00:01:10;1;2;3;4;5;6;7;8;9;10;Zuendung"]%string)))%nat
  /\ length (logdetaillist w')
     = length (raw_rows (file_bytes [header_row;
                          "01.01.2024;00:00:10;1;2;3;4;5;6;7;8;9;10;Standby";
                          "01.01.2024;00:01:10;1;2;3;4;5;6;7;8;9;10;Zuendung"]%string))
  /\ Forall (fun row => length row = 12%nat) (logdetaillist w')
  /\ length (graphs w') = S (length (graphs scanned_window))
  /\ currentIndex w' = 1%nat.
Proof.
  apply (shown_log_has_two_rows standby_logs (u "2024-01-01") scanned_window
           (u "/logs/CM240101.csv")).
  - vm_compute. reflexivity.
  - vm_compute. reflexivity.
  - vm_compute. reflexivity.
Defined.

(** X11. A log with exactly one data row is never shown: [item_activated]
    is left by an exception ([TypeError] when the row itself parses: the
    array of one row has no length) and the window is as it was. *)
Theorem single_row_log_raises os date w fname contents :
  logfiles w !! date = Some fname ->
  open_bytes os fname = Ok contents ->
  length (raw_rows contents) = 1%nat ->
  exists e, item_activated os (TableItem date) w = (w, Raise e)
            /\ (raised (genfromtxt os fname date) = false -> e = TypeError).
Proof.
  intros Hw Hopen Hone. unfold item_activated. rewrite Hw.
  destruct (genfromtxt os fname date) as [a|e] eqn:Ha; [|by exists e].
  pose proof (Forall2_length _ _ _ (genfromtxt_rows os fname date contents a Hopen Ha)) as Hlen.
  pose proof (genfromtxt_squeeze os fname date a Ha) as Hsq.
  rewrite Hone in Hlen. destruct a as [r|rows]; [by exists TypeError|].
  cbn [array_rows] in *. destruct rows as [|r [|r' rows]]; discriminate.
Qed.

Lemma single_row_log_raises_witness :
  exists e, item_activated example_logs (TableItem (u "2024-01-01"))
              (open_action example_logs (u "/logs") (fun _ => false) initial_window).1
            = ((open_action example_logs (u "/logs") (fun _ => false) initial_window).1,
               Raise e)
            /\ (raised (genfromtxt example_logs (u "/logs/CM130513.csv") (u "2024-01-01"))
                = false -> e = TypeError).
Proof.
  apply (single_row_log_raises example_logs (u "2024-01-01") _ (u "/logs/CM130513.csv")
           (file_bytes [header_row;
                        "01.01.2024;09:05:03;1;2;3;4;5;6;7;8;9;10;Burning"]%string)).
  - vm_compute. reflexivity.
  - vm_compute. reflexivity.
  - vm_compute. reflexivity.
Defined.

(** ** What the scan finds in a directory *)

Lemma bind_singleton_map {A B} (f : A -> B) (l : list A) :
  (l ≫= fun x => [f x]) = map f l.
Proof. induction l as [|x l IH]; [done|]. cbn. by rewrite IH. Qed.

Lemma posix_split_pattern directory c :
  c ≠ slash ->
  posix_split ((directory ++ [c]) ++ slash :: logfile_pattern)
  = (directory ++ [c], logfile_pattern).
Proof.
  intros Hc. unfold posix_split.
  rewrite (rsplit_slash_last _ _ logfile_pattern_no_slash).
  assert (Hrev : rev (drop_while (fun x => x =? slash) (rev ((directory ++ [c]) ++ [slash])))
                 = directory ++ [c]).
  { rewrite !rev_app_distr. cbn. apply N.eqb_neq in Hc as ->.
    rewrite ?N.eqb_refl. cbn. by rewrite rev_involutive. }
  rewrite Hrev. rewrite bool_decide_eq_false_2; [done|].
  clear Hrev. induction directory as [|x directory IH]; cbn.
  - apply N.eqb_neq in Hc as ->. done.
  - destruct (x =? slash); [exact IH|done].
Qed.

Lemma posix_join_name dirname c name :
  c ≠ slash -> logfile_name name ->
  posix_join (dirname ++ [c]) name = (dirname ++ [c]) ++ u "/" ++ name.
Proof.
  intros Hc Hname. destruct (logfile_name_no_slash name Hname) as [Hns (x & name' & ->)].
  unfold posix_join. assert ((x =? slash) = false) as ->.
  { apply N.eqb_neq. by inversion Hns. }
  rewrite last_snoc.
  rewrite bool_decide_eq_false_2 by (by destruct dirname).
  rewrite bool_decide_eq_false_2 by congruence. done.
Qed.

(** X12. In a directory whose path has no wildcard character and does not
    end with a slash, the scan finds every entry named like a log (CM, six
    digits, .csv) and nothing else, in the order of the listing, each as
    the path directory/name. *)
Theorem glob_finds_every_log os directory :
  has_magic directory = false ->
  (exists c, last directory = Some c /\ c ≠ slash) ->
  glob os (directory ++ u "/" ++ logfile_pattern)
  = map (fun name => directory ++ u "/" ++ name)
        (filter (fun name => fnmatch name logfile_pattern = true) (listdir os directory))
  /\ forall name, name ∈ listdir os directory -> logfile_name name ->
                  directory ++ u "/" ++ name
                  ∈ glob os (directory ++ u "/" ++ logfile_pattern).
Proof.
  intros Hmagic (c & Hlast & Hc).
  assert (exists d, directory = d ++ [c]) as [d ->].
  { destruct directory as [|x directory _] using rev_ind; [done|].
    rewrite last_snoc in Hlast. injection Hlast as ->. by eexists. }
  assert (Hglob : glob os ((d ++ [c]) ++ u "/" ++ logfile_pattern)
          = map (fun name => (d ++ [c]) ++ u "/" ++ name)
                (filter (fun name => fnmatch name logfile_pattern = true)
                        (listdir os (d ++ [c])))).
  { unfold glob. change (u "/" ++ logfile_pattern) with (slash :: logfile_pattern).
    rewrite (posix_split_pattern d c Hc), Hmagic. cbn [mbind list_bind].
    rewrite app_nil_r, bind_singleton_map. unfold glob1.
    change (ishidden logfile_pattern) with false. cbv iota.
    induction (listdir os (d ++ [c])) as [|name names IH]; [done|].
    rewrite !filter_cons. destruct (decide (ishidden name = false)) as [Hh|Hh].
    - rewrite filter_cons. destruct (decide (fnmatch name logfile_pattern = true)) as [Hm|Hm].
      + cbn [map]. rewrite IH. f_equal. apply posix_join_name; [done|].
        by apply fnmatch_logfile_name.
      + exact IH.
    - destruct (decide (fnmatch name logfile_pattern = true)) as [Hm|Hm]; [|exact IH].
      exfalso. apply Hh. apply fnmatch_logfile_name in Hm as (digits & _ & _ & ->). done. }
  split; [exact Hglob|].
  intros name Hin Hname. rewrite Hglob. apply list_elem_of_fmap. exists name.
  split; [done|]. apply list_elem_of_filter. split; [by apply fnmatch_logfile_name|done].
Qed.

Lemma glob_finds_every_log_witness :
  glob no_logs (u "/logs" ++ u "/" ++ logfile_pattern)
  = map (fun name => u "/logs" ++ u "/" ++ name)
        (filter (fun name => fnmatch name logfile_pattern = true) (listdir no_logs (u "/logs")))
  /\ forall name, name ∈ listdir no_logs (u "/logs") -> logfile_name name ->
                  u "/logs" ++ u "/" ++ name
                  ∈ glob no_logs (u "/logs" ++ u "/" ++ logfile_pattern).
Proof.
  apply (glob_finds_every_log no_logs (u "/logs")).
  - reflexivity.
  - exists 115. split; [reflexivity|done].
Defined.

(** ** Dates in the list and in the calendar *)

Lemma pattern_iso_date : pattern false iso_date_format = Some iso_date_regex.
Proof. reflexivity. Qed.

Lemma day_at_end : forall n, n < 31 ->
  head (rmatch (Seq (group_of 100) Eps) (zero_padded 2 (n + 1)))
  = Some (mk_rmatched (zero_padded 2 (n + 1)) [(100, zero_padded 2 (n + 1))] []).
Proof. refine (N_lt_cases _ 31%nat _); repeat constructor. Qed.

Lemma valid_datetime_bounds t :
  valid_datetime t = true ->
  1 <= year t <= 9999 /\ 1 <= month t <= 12 /\ 1 <= day t <= 31
  /\ hour t <= 23 /\ minute t <= 59 /\ second t <= 59.
Proof.
  unfold valid_datetime. intros Hv.
  repeat (apply andb_prop in Hv as [Hv ?]).
  repeat match goal with H : (_ <=? _) = true |- _ => apply N.leb_le in H end.
  assert (day t <= 31); [|lia].
  etransitivity; [eassumption|]. unfold days_in_month.
  repeat match goal with |- context [if ?x then _ else _] => destruct x end; lia.
Qed.

Lemma valid_midnight t : valid_datetime t = true -> valid_datetime (midnight t) = true.
Proof.
  unfold valid_datetime, midnight. cbn [year month day hour minute second].
  intros Hv. do 3 (apply andb_prop in Hv as [Hv _]). by rewrite Hv.
Qed.

(** The ISO form of a day is read back as that day. *)
Lemma iso_date_round_trip t :
  valid_datetime t = true ->
  strptime (date_isoformat t) iso_date_format = Ok (midnight t).
Proof.
  intros Hvalid. pose proof (valid_datetime_bounds t Hvalid) as (Hy & Hm & Hd & _).
  pose proof (valid_midnight t Hvalid) as Hmid.
  unfold strptime. rewrite pattern_iso_date.
  destruct t as [y mo d h mi s]. unfold midnight in *.
  cbn [year month day hour minute second] in *.
  destruct (zero_padded_year y ltac:(lia)) as (a & b0 & c & e & Hyp & Ha & Hb & Hc & He & Hyv).
  unfold date_isoformat. cbn [year month day]. rewrite Hyp.
  replace mo with (mo - 1 + 1) at 1 by lia. replace d with (d - 1 + 1) at 1 by lia.
  change (u "-") with [45]. rewrite <- ?app_assoc. cbn [app].
  unfold re_match, iso_date_regex.
  rewrite (rmatch_Seq_filter (starts_with (N.eqb 45))) by apply rmatch_Chr_nil.
  rewrite year_group by done. cbn [flat_map rest matched groups]. rewrite rmatch_Chr_cons.
  rewrite (rmatch_Seq_filter (starts_with (N.eqb 45))) by apply rmatch_Chr_nil.
  rewrite month_group by lia. cbn [flat_map rest matched groups]. rewrite rmatch_Chr_cons.
  rewrite !app_nil_r, !head_map, day_at_end by lia.
  cbn [fmap option_fmap option_map after rest groups matched app].
  rewrite !group_value_cons.
  repeat match goal with
         | |- context [?x =? ?y] =>
             let v := eval vm_compute in (x =? y) in change (x =? y) with v
         end.
  cbn iota. change (group_value [] 72 0) with 0. change (group_value [] 77 0) with 0.
  change (group_value [] 83 0) with 0.
  rewrite Hyv, !padded_value by lia.
  replace (mo - 1 + 1) with mo by lia. replace (d - 1 + 1) with d by lia.
  by rewrite Hmid.
Qed.

Lemma strptime_valid data format t : strptime data format = Ok t -> valid_datetime t = true.
Proof.
  unfold strptime.
  destruct (pattern false format) as [format_regex|]; [|done].
  destruct (re_match format_regex data) as [found|]; [|done].
  destruct (rest found); [|done].
  destruct (valid_datetime _) eqn:Hv; [|done]. by intros [= <-].
Qed.

(** A date read from a file is the ISO form of a day of the calendar. *)
Lemma getlogdate_iso os file date : getlogdate os file = Ok date -> iso_date date.
Proof.
  unfold getlogdate, getlogdate_file.
  destruct (open_text os file) as [text|]; [|done]. cbn [mbind result_bind].
  destruct (reader_next _) as [[? lines]|]; [|done]. cbn [mbind result_bind].
  destruct (reader_next lines) as [[[|first ?] ?]|]; try done. cbn [mbind result_bind].
  destruct (strptime first date_format) as [t|] eqn:Ht; [|done]. cbn [mbind result_bind].
  intros [= <-]. exists t. split; [by eapply strptime_valid|done].
Qed.

Lemma add_entries_is_Some_inv (m : gmap str str) (kvs : list (str * str)) date :
  is_Some (add_entries m kvs !! date) -> is_Some (m !! date) \/ date ∈ map fst kvs.
Proof.
  intros H. destruct (decide (date ∈ map fst kvs)) as [Hin|Hnot]; [by right|].
  left. by rewrite <- (add_entries_lookup_other m kvs date Hnot).
Qed.

Lemma open_action_loglist os directory wasCanceled w :
  let end_ := open_action os directory wasCanceled w in
  loglist end_.1 = loglist w
  \/ loglist end_.1 = map fst (dated os (glob os (directory ++ u "/" ++ logfile_pattern))).
Proof.
  unfold open_action. destruct directory as [|c directory]; [by left|].
  destruct (glob os _) as [|file files] eqn:Hglob; [by left|].
  destruct (load_log_list_loglist os wasCanceled w (file :: files))
    as [(_ & _ & _ & Hl)|Hl]; [by right|by left].
Qed.

Definition dates_are_iso (w : MainWindow) : Prop :=
  (forall date, is_Some (logfiles w !! date) -> iso_date date)
  /\ (forall text, text ∈ loglist w -> iso_date text).

Lemma run_dates_are_iso evs : dates_are_iso (run evs).
Proof.
  unfold run. induction evs as [|ev evs IH] using rev_ind.
  - split.
    + intros date [path H]. unfold logfiles in H. cbn in H. by rewrite lookup_empty in H.
    + intros text H. by apply elem_of_nil in H.
  - rewrite foldl_app. cbn [foldl]. destruct IH as [IHk IHl].
    set (w := foldl handle initial_window evs) in *.
    destruct ev as [os directory wasCanceled|os param]; cbn [handle].
    + split.
      * intros date Hd.
        destruct (open_action_logfiles os directory wasCanceled w) as [Hl|Hl];
          rewrite Hl in Hd; [by apply IHk|].
        apply add_entries_is_Some_inv in Hd as [Hd|Hd]; [by apply IHk|].
        apply dated_dates in Hd as (file & _ & Hfile). by eapply getlogdate_iso.
      * intros text Ht.
        destruct (open_action_loglist os directory wasCanceled w) as [Hl|Hl];
          rewrite Hl in Ht; [by apply IHl|].
        apply dated_dates in Ht as (file & _ & Hfile). by eapply getlogdate_iso.
    + destruct (item_activated_index os param w) as [Hl1 Hl2].
      unfold dates_are_iso. rewrite Hl1, Hl2. by split.
Qed.

(** X13. Whatever the user has done so far, every key of the dictionary of
    log files is the ISO form YYYY-MM-DD of a real day of the calendar. *)
Theorem index_keys_are_iso_dates evs date path :
  logfiles (run evs) !! date = Some path ->
  exists t, valid_datetime t = true /\ date = date_isoformat t.
Proof. intros H. apply (proj1 (run_dates_are_iso evs) date). by eexists. Qed.

Lemma index_keys_are_iso_dates_witness :
  logfiles (run [OpenDirectory five_logs (u "/logs") (fun _ => false)]) !! u "2024-01-01"
    = Some (u "/logs/CM240101.csv")
  /\ exists t, valid_datetime t = true /\ u "2024-01-01" = date_isoformat t.
Proof.
  assert (H : logfiles (run [OpenDirectory five_logs (u "/logs") (fun _ => false)])
                !! u "2024-01-01" = Some (u "/logs/CM240101.csv"))
    by (vm_compute; reflexivity).
  split; [exact H|].
  exact (index_keys_are_iso_dates _ _ _ H).
Defined.

(** A listed date is read back by [selection_changed]. *)
Lemma listed_date_parses evs text :
  text ∈ loglist (run evs) ->
  exists t, selection_changed [text] = Ok t
            /\ valid_datetime t = true
            /\ date_isoformat t = text.
Proof.
  intros H. destruct (proj2 (run_dates_are_iso evs) text H) as (t & Hv & ->).
  exists (midnight t). split_and!.
  - by apply iso_date_round_trip.
  - by apply valid_midnight.
  - reflexivity.
Qed.

(** X14. Selecting a row of the overview list never fails in
    [selection_changed]: the text of the row is read back as the day it
    names, and that day is handed to the calendar. *)
Theorem selection_sets_the_calendar evs text :
  text ∈ loglist (run evs) ->
  exists t, selection_changed [text] = Ok t
            /\ valid_datetime t = true
            /\ date_isoformat t = text.
Proof. exact (listed_date_parses evs text). Qed.

Lemma selection_sets_the_calendar_witness :
  u "2024-01-03" ∈ loglist (run [OpenDirectory five_logs (u "/logs") (fun _ => false)])
  /\ exists t, selection_changed [u "2024-01-03"] = Ok t
               /\ valid_datetime t = true
               /\ date_isoformat t = u "2024-01-03".
Proof.
  assert (H : u "2024-01-03"
              ∈ loglist (run [OpenDirectory five_logs (u "/logs") (fun _ => false)])).
  { apply (bool_decide_unpack _). vm_compute. exact I. }
  split; [exact H|].
  exact (selection_sets_the_calendar _ _ H).
Defined.

Lemma findItems_spec (rows : list str) text i :
  i ∈ findItems rows text <-> rows !! i = Some text.
Proof.
  unfold findItems. rewrite list_elem_of_filter, elem_of_seq. split; [by intros [? _]|].
  intros H. split; [done|]. apply lookup_lt_Some in H. lia.
Qed.

(** X15. The list and the calendar stay in step: the day that selecting a
    row hands to the calendar is a day whose click in the calendar selects
    that row again, and a click selects only rows that show the clicked
    day. *)
Theorem calendar_click_finds_the_row evs i text :
  loglist (run evs) !! i = Some text ->
  exists t, selection_changed [text] = Ok t
            /\ i ∈ overview_cal_clicked (year t) (month t) (day t) (run evs)
            /\ forall j, j ∈ overview_cal_clicked (year t) (month t) (day t) (run evs) ->
                         loglist (run evs) !! j = Some text.
Proof.
  intros Hi.
  destruct (listed_date_parses evs text) as (t & Hsel & _ & Hiso).
  { apply list_elem_of_lookup. by exists i. }
  exists t. split; [done|]. unfold overview_cal_clicked.
  change (QDate_toString (year t) (month t) (day t)) with (date_isoformat t). rewrite Hiso.
  split; [by apply findItems_spec|]. intros j Hj. by apply findItems_spec.
Qed.

Lemma calendar_click_finds_the_row_witness :
  loglist (run [OpenDirectory five_logs (u "/logs") (fun _ => false)]) !! 2%nat
    = Some (u "2024-01-03")
  /\ exists t, selection_changed [u "2024-01-03"] = Ok t
       /\ 2%nat ∈ overview_cal_clicked (year t) (month t) (day t)
                    (run [OpenDirectory five_logs (u "/logs") (fun _ => false)])
       /\ forall j, j ∈ overview_cal_clicked (year t) (month t) (day t)
                          (run [OpenDirectory five_logs (u "/logs") (fun _ => false)]) ->
                    loglist (run [OpenDirectory five_logs (u "/logs") (fun _ => false)]) !! j
                    = Some (u "2024-01-03").
Proof.
  assert (H : loglist (run [OpenDirectory five_logs (u "/logs") (fun _ => false)]) !! 2%nat
              = Some (u "2024-01-03")) by (vm_compute; reflexivity).
  split; [exact H|].
  exact (calendar_click_finds_the_row _ _ _ H).
Defined.

(** ** The fields of a line *)

Lemma split_on_cons sep s : exists piece pieces, split_on sep s = piece :: pieces.
Proof.
  destruct s as [|c s]; cbn; [by eexists _, _|].
  destruct (c =? sep); [by eexists _, _|]. destruct (split_on sep s); by eexists _, _.
Qed.

Lemma glue_nil pieces : pieces ≠ [] -> glue [] pieces = pieces.
Proof. by destruct pieces. Qed.

Definition in_record (st : parser_state) : Prop :=
  st = START_RECORD \/ st = START_FIELD \/ st = IN_FIELD.

(** The characters of a body, read from a state between fields or inside an
    unquoted field: the fields found are those of the split body, the first
    glued to the field that was being read. *)
Lemma parse_line_body body : forall st fs f,
  in_record st ->
  Forall plain body ->
  N.of_nat (length f + length body) <= field_limit ->
  exists r, parse_line (mk_reader st fs f) body = Ok r
            /\ fields r ++ [field r] = fs ++ glue f (split_on delimiter body)
            /\ (body = [] /\ state r = st \/ state r = START_FIELD \/ state r = IN_FIELD).
Proof.
  induction body as [|c body IH]; intros st fs f Hst Hbody Hlen.
  - eexists. split; [reflexivity|]. cbn. rewrite app_nil_r. split; [done|by left].
  - apply Forall_cons in Hbody as [(Hnl & Hnul & Hq) Hbody].
    cbn [parse_line]. apply N.eqb_neq in Hnul as ->.
    assert (Hq' : (c =? quotechar) = false) by by apply N.eqb_neq.
    destruct (c =? delimiter) eqn:Hd.
    + (* the delimiter ends the field *)
      assert (Hstep : parse_process_char (mk_reader st fs f) (Some c)
                      = Ok (mk_reader START_FIELD (fs ++ [f]) [])).
      { unfold parse_process_char. cbn [state].
        destruct Hst as [->|[->| ->]]; rewrite ?Hnl, ?Hq', ?Hd; reflexivity. }
      rewrite Hstep. cbn [mbind result_bind].
      destruct (IH START_FIELD (fs ++ [f]) []) as (r & Hr & Hfields & Hstate);
        [by right; left|done|cbn in *; lia|].
      exists r. split; [done|]. split.
      * rewrite Hfields. cbn [split_on]. rewrite Hd.
        destruct (split_on_cons delimiter body) as (piece & pieces & ->).
        cbn. rewrite app_nil_r, <- app_assoc. reflexivity.
      * right. destruct Hstate as [[_ ->]|H]; [by left|done].
    + (* any other character joins the field *)
      assert (Hroom : (field_limit <=? N.of_nat (length f)) = false).
      { apply N.leb_gt. cbn in Hlen. lia. }
      assert (Hstep : parse_process_char (mk_reader st fs f) (Some c)
                      = Ok (mk_reader IN_FIELD fs (f ++ [c]))).
      { unfold parse_process_char, parse_add_char. cbn [state field fields].
        destruct Hst as [->|[->| ->]]; rewrite ?Hnl, ?Hq', ?Hd, ?Hroom; reflexivity. }
      rewrite Hstep. cbn [mbind result_bind].
      destruct (IH IN_FIELD fs (f ++ [c])) as (r & Hr & Hfields & Hstate);
        [by right; right|done|rewrite length_app; cbn in *; lia|].
      exists r. split; [done|]. split.
      * rewrite Hfields. cbn [split_on]. rewrite Hd.
        destruct (split_on_cons delimiter body) as (piece & pieces & ->).
        cbn. by rewrite <- app_assoc.
      * right. destruct Hstate as [[_ ->]|H]; [by right|done].
Qed.

(** The line end after a body: the field being read is saved, and the
    record is complete when the end-of-line marker comes. *)
Lemma parse_line_eol eol : forall st fs,
  st = EAT_CRNL ->
  Forall (fun c => is_newline c = true) eol ->
  exists r, parse_line (mk_reader st fs []) eol = Ok r /\ state r = EAT_CRNL /\ fields r = fs.
Proof.
  induction eol as [|c eol IH]; intros st fs -> Heol; [by eexists|].
  apply Forall_cons in Heol as [Hc Heol]. cbn [parse_line].
  assert ((c =? NUL) = false) as ->.
  { apply N.eqb_neq. intros ->. done. }
  unfold parse_process_char. cbn [state]. rewrite Hc. cbn [mbind result_bind].
  by apply IH.
Qed.

Lemma parse_line_app l1 l2 r r1 :
  parse_line r l1 = Ok r1 -> parse_line r (l1 ++ l2) = parse_line r1 l2.
Proof.
  revert r. induction l1 as [|c l1 IH]; intros r; cbn [parse_line app].
  - by intros [= ->].
  - destruct (c =? NUL); [done|].
    destruct (parse_process_char r (Some c)) as [r'|]; [|done]. cbn [mbind result_bind].
    apply IH.
Qed.

(** The record of a line without quote characters. *)
Lemma record_of_line_split line body :
  record_line line body -> record_of_line line = Ok (split_on delimiter body).
Proof.
  intros (Hne & Hbody & Hlen & eol & -> & Heol). unfold record_of_line, parse_reset.
  destruct (parse_line_body body START_RECORD [] []) as (r1 & Hr1 & Hfields & Hstate);
    [by left|done|cbn; lia|].
  destruct Hstate as [[-> _]|Hstate]; [done|].
  rewrite (parse_line_app _ eol _ _ Hr1).
  destruct (split_on_cons delimiter body) as (piece & pieces & Hsplit).
  rewrite Hsplit in *. cbn [glue app] in Hfields.
  destruct r1 as [st fs f]. cbn [state fields field] in *.
  destruct eol as [|c eol].
  - cbn [parse_line mbind result_bind]. unfold parse_process_char. cbn [state].
    destruct Hstate as [->| ->]; cbn; by rewrite Hfields.
  - apply Forall_cons in Heol as [Hc Heol]. cbn [parse_line].
    assert ((c =? NUL) = false) as ->.
    { apply N.eqb_neq. intros ->. done. }
    assert (Hstep : parse_process_char (mk_reader st fs f) (Some c)
                    = Ok (mk_reader EAT_CRNL (fs ++ [f]) [])).
    { unfold parse_process_char. cbn [state].
      destruct Hstate as [->| ->]; rewrite Hc; reflexivity. }
    rewrite Hstep. cbn [mbind result_bind].
    destruct (parse_line_eol eol EAT_CRNL (fs ++ [f])) as (r2 & -> & Hst2 & Hf2); [done..|].
    cbn [mbind result_bind]. unfold parse_process_char. rewrite Hst2. cbn.
    by rewrite Hf2, Hfields.
Qed.

(** X16. The csv reader takes a line without quote characters as one
    record: the fields of the line, cut at every semicolon, without the
    line end (an empty field where two semicolons meet or the line ends
    with one). *)
Theorem csv_record_is_split line body :
  record_line line body -> record_of_line line = Ok (split_on delimiter body).
Proof. exact (record_of_line_split line body). Qed.

Lemma csv_record_is_split_witness :
  record_of_line (u "01.01.2024;;9:5:3;" ++ [CR; LF])
  = Ok (split_on delimiter (u "01.01.2024;;9:5:3;")).
Proof.
  apply (csv_record_is_split _ (u "01.01.2024;;9:5:3;")).
  split_and!.
  - done.
  - apply Forall_forall. intros c Hc. vm_compute in Hc.
    repeat (apply elem_of_cons in Hc as [->|Hc]; [by split_and!|]).
    by apply elem_of_nil in Hc.
  - vm_compute. discriminate.
  - exists [CR; LF]. split; [reflexivity|]. by repeat constructor.
Defined.

(** ** The date of the first data row *)

Lemma pattern_date : pattern false date_format = Some date_regex.
Proof. reflexivity. Qed.

Lemma day_before_dot tl : forall n, n < 31 -> forall sp, sp ∈ spellings (n + 1) ->
  List.filter (fun m => starts_with (N.eqb 46) (rest m)) (rmatch (group_of 100) (sp ++ 46 :: tl))
  = [mk_rmatched sp [(100, sp)] (46 :: tl)].
Proof. enumerate 31%nat. Qed.

Lemma month_before_dot tl : forall n, n < 12 -> forall sp, sp ∈ spellings (n + 1) ->
  List.filter (fun m => starts_with (N.eqb 46) (rest m)) (rmatch (group_of 109) (sp ++ 46 :: tl))
  = [mk_rmatched sp [(109, sp)] (46 :: tl)].
Proof. enumerate 12%nat. Qed.

Lemma year_at_end a b0 c d :
  isdigit a = true -> isdigit b0 = true -> isdigit c = true -> isdigit d = true ->
  head (rmatch (Seq (group_of 89) Eps) [a; b0; c; d])
  = Some (mk_rmatched [a; b0; c; d] [(89, [a; b0; c; d])] []).
Proof.
  intros Ha%isdigit_isdecimal Hb%isdigit_isdecimal Hc%isdigit_isdecimal Hd%isdigit_isdecimal.
  change (group_of 89) with (Group 89 (Seq (Cls isdecimal) (Seq (Cls isdecimal)
                                (Seq (Cls isdecimal) (Seq (Cls isdecimal) Eps))))).
  cbn [rmatch flat_map map app]. rewrite Ha. cbn [rmatch flat_map map app rest matched groups].
  rewrite Hb. cbn [rmatch flat_map map app rest matched groups].
  rewrite Hc. cbn [rmatch flat_map map app rest matched groups].
  rewrite Hd. cbn [rmatch flat_map map app rest matched groups head].
  reflexivity.
Qed.

(** A date written day.month.year, day and month with or without a leading
    zero, the year with four digits, is read as that day. *)
Lemma date_spelled t dd mm :
  valid_datetime t = true ->
  dd ∈ spellings (day t) -> mm ∈ spellings (month t) ->
  strptime (dd ++ u "." ++ mm ++ u "." ++ zero_padded 4 (year t)) date_format
  = Ok (midnight t).
Proof.
  intros Hvalid Hdd Hmm. pose proof (valid_datetime_bounds t Hvalid) as (Hy & Hm & Hd & _).
  pose proof (valid_midnight t Hvalid) as Hmid.
  unfold strptime. rewrite pattern_date.
  destruct t as [y mo d h mi s]. unfold midnight in *.
  cbn [year month day hour minute second] in *.
  destruct (zero_padded_year y ltac:(lia)) as (a & b0 & c & e & -> & Ha & Hb & Hc & He & Hyv).
  replace mo with (mo - 1 + 1) in Hmm by lia. replace d with (d - 1 + 1) in Hdd by lia.
  change (u ".") with [46]. rewrite <- ?app_assoc. cbn [app].
  unfold re_match, date_regex.
  rewrite (rmatch_Seq_filter (starts_with (N.eqb 46))) by apply rmatch_Chr_nil.
  rewrite (day_before_dot _ (d - 1)) by (done || lia).
  cbn [flat_map rest matched groups]. rewrite rmatch_Chr_cons.
  rewrite (rmatch_Seq_filter (starts_with (N.eqb 46))) by apply rmatch_Chr_nil.
  rewrite (month_before_dot _ (mo - 1)) by (done || lia).
  cbn [flat_map rest matched groups]. rewrite rmatch_Chr_cons.
  rewrite !app_nil_r, !head_map, year_at_end by done.
  cbn [fmap option_fmap option_map after rest groups matched app].
  rewrite !group_value_cons.
  repeat match goal with
         | |- context [?x =? ?y] =>
             let v := eval vm_compute in (x =? y) in change (x =? y) with v
         end.
  cbn iota. change (group_value [] 72 0) with 0. change (group_value [] 77 0) with 0.
  change (group_value [] 83 0) with 0.
  rewrite Hyv, (spelling_value (d - 1 + 1) ltac:(lia) dd Hdd),
    (spelling_value (mo - 1 + 1) ltac:(lia) mm Hmm).
  replace (mo - 1 + 1) with mo by lia. replace (d - 1 + 1) with d by lia.
  by rewrite Hmid.
Qed.

Lemma record_line_no_quote line body :
  record_line line body -> Forall (fun c => c ≠ quotechar) line.
Proof.
  intros (_ & Hbody & _ & eol & -> & Heol). apply Forall_app. split.
  - eapply Forall_impl; [exact Hbody|]. by intros c (_ & _ & ?).
  - eapply Forall_impl; [exact Heol|]. intros c Hc ->. done.
Qed.

(** The date of a file is read from the first field of its second line. *)
Lemma getlogdate_first_field logfile header row others hbody rbody :
  logical_lines logfile = Ok header :: Ok row :: others ->
  record_line header hbody -> record_line row rbody ->
  getlogdate_file logfile
  = match split_on delimiter rbody with
    | first :: _ => date ← strptime first date_format; Ok (date_isoformat date)
    | [] => Raise IndexError
    end.
Proof.
  intros Hlines Hh Hr. unfold getlogdate_file. fold (logical_lines logfile). rewrite Hlines.
  rewrite (reader_next_no_quote header) by by eapply record_line_no_quote.
  rewrite (record_of_line_split header hbody Hh). cbn [fmap result_fmap mbind result_bind].
  rewrite (reader_next_no_quote row) by by eapply record_line_no_quote.
  rewrite (record_of_line_split row rbody Hr). reflexivity.
Qed.

(** X17. The date of a log file is the date written in the first field of
    its first data row: if the lines of the file that reach the csv reader
    start with a header line and a data row, both read without a decoding
    error and without quote characters, and the first field of the row
    spells a real day as day.month.year (day and month with or without a
    leading zero, the year with four digits), then [getlogdate] returns
    that day in the form YYYY-MM-DD. *)
Theorem date_is_first_field_of_first_row os path logfile header row others hbody rbody
    field fields t dd mm :
  open_text os path = Ok logfile ->
  logical_lines logfile = Ok header :: Ok row :: others ->
  record_line header hbody -> record_line row rbody ->
  split_on delimiter rbody = field :: fields ->
  valid_datetime t = true ->
  dd ∈ spellings (day t) -> mm ∈ spellings (month t) ->
  field = dd ++ u "." ++ mm ++ u "." ++ zero_padded 4 (year t) ->
  getlogdate os path = Ok (date_isoformat t).
Proof.
  intros Hopen Hlines Hh Hr Hsplit Hvalid Hdd Hmm ->.
  unfold getlogdate. rewrite Hopen. cbn [mbind result_bind].
  rewrite (getlogdate_first_field logfile header row others hbody rbody Hlines Hh Hr), Hsplit.
  by rewrite date_spelled.
Qed.

Lemma date_is_first_field_of_first_row_witness :
  getlogdate short_logs (u "/logs/CM240101.csv")
  = Ok (date_isoformat (mk_datetime 2024 1 1 0 0 0)).
Proof.
  apply (date_is_first_field_of_first_row short_logs _
           [Ok (file_text [" "; header_row; "1.1.2024;00:00:10;1"; "2.1.2024;0:0:20;1"]%string)]
           (u header_row ++ [CR; LF]) (u "1.1.2024;00:00:10;1" ++ [CR; LF])
           [Ok (u "2.1.2024;0:0:20;1" ++ [CR; LF])]
           (u header_row) (u "1.1.2024;00:00:10;1")
           (u "1.1.2024") [u "00:00:10"; u "1"]
           (mk_datetime 2024 1 1 0 0 0) (u "1") (u "1")).
  - vm_compute. reflexivity.
  - vm_compute. reflexivity.
  - split_and!; [done| |vm_compute; discriminate|].
    + apply (bool_decide_unpack _). vm_compute. exact I.
    + exists [CR; LF]. split; [reflexivity|]. by repeat constructor.
  - split_and!; [done| |vm_compute; discriminate|].
    + apply (bool_decide_unpack _). vm_compute. exact I.
    + exists [CR; LF]. split; [reflexivity|]. by repeat constructor.
  - vm_compute. reflexivity.
  - reflexivity.
  - apply (bool_decide_unpack _). vm_compute. exact I.
  - apply (bool_decide_unpack _). vm_compute. exact I.
  - vm_compute. reflexivity.
Defined.

(** X18. A file without a data row has no date: when no line of the file
    reaches the csv reader, or only a header line (without quote
    characters), [getlogdate] raises [StopIteration]. *)
Theorem file_without_data_row_has_no_date os path logfile :
  open_text os path = Ok logfile ->
  logical_lines logfile = []
  \/ (exists header body, logical_lines logfile = [Ok header] /\ record_line header body) ->
  getlogdate os path = Raise StopIteration.
Proof.
  intros Hopen H. unfold getlogdate. rewrite Hopen. cbn [mbind result_bind].
  destruct H as [Hnone|(header & body & Hone & Hh)]; unfold getlogdate_file;
    fold (logical_lines logfile).
  - by rewrite Hnone.
  - rewrite Hone.
    rewrite (reader_next_no_quote header) by by eapply record_line_no_quote.
    by rewrite (record_of_line_split header body Hh).
Qed.

Lemma file_without_data_row_has_no_date_witness :
  getlogdate short_logs (u "/logs/CM240102.csv") = Raise StopIteration.
Proof.
  apply (file_without_data_row_has_no_date short_logs _
           [Ok (file_text [" "; header_row; " "]%string)]); [vm_compute; reflexivity|].
  right.
  exists (u header_row ++ [CR; LF]), (u header_row). split; [vm_compute; reflexivity|].
  split_and!; [done| |vm_compute; discriminate|].
  - apply (bool_decide_unpack _). vm_compute. exact I.
  - exists [CR; LF]. split; [reflexivity|]. by repeat constructor.
Defined.

(** X25. Bytes that cannot be decoded make [getlogdate] fail only when
    they have to be read: if the chunk that cannot be decoded is needed
    before a line reaches the csv reader, or after the header line
    (without quote characters) and before a data row, [getlogdate] raises
    the error of the decoder. *)
Theorem decoding_error_before_the_date os path logfile e :
  open_text os path = Ok logfile ->
  logical_lines logfile = [Raise e]
  \/ (exists header body,
        logical_lines logfile = [Ok header; Raise e] /\ record_line header body) ->
  getlogdate os path = Raise e.
Proof.
  intros Hopen H. unfold getlogdate. rewrite Hopen. cbn [mbind result_bind].
  destruct H as [Hnone|(header & body & Hone & Hh)]; unfold getlogdate_file;
    fold (logical_lines logfile).
  - by rewrite Hnone.
  - rewrite Hone.
    rewrite (reader_next_no_quote header) by by eapply record_line_no_quote.
    by rewrite (record_of_line_split header body Hh).
Qed.

Lemma decoding_error_before_the_date_witness :
  getlogdate short_logs (u "/logs/CM240103.csv") = Raise UnicodeDecodeError.
Proof.
  apply (decoding_error_before_the_date short_logs _
           [Ok (app (file_text [header_row]%string) (u "01.01.2024;00:"));
            Raise UnicodeDecodeError]);
    [vm_compute; reflexivity|].
  right.
  exists (u header_row ++ [CR; LF]), (u header_row). split; [vm_compute; reflexivity|].
  split_and!; [done| |vm_compute; discriminate|].
  - apply (bool_decide_unpack _). vm_compute. exact I.
  - exists [CR; LF]. split; [reflexivity|]. by repeat constructor.
Defined.

(** ** Files that decode in full *)

Definition no_line_end (c : char) : Prop := c ≠ LF /\ c ≠ CR.

Lemma iter_lines_no_line_end p : forall cur t,
  Forall no_line_end p -> iter_lines cur (p ++ t) = iter_lines (rev p ++ cur) t.
Proof.
  induction p as [|x p IH]; intros cur t Hp; [done|].
  apply Forall_cons in Hp as [[H1 H2] Hp]. cbn [app iter_lines].
  apply N.eqb_neq in H1 as ->. apply N.eqb_neq in H2 as ->.
  rewrite IH by done. cbn [rev]. by rewrite <- app_assoc.
Qed.

Lemma iter_lines_pending cur t :
  Forall no_line_end cur -> iter_lines [] (rev cur ++ t) = iter_lines cur t.
Proof.
  intros Hcur. rewrite iter_lines_no_line_end by by apply Forall_rev.
  by rewrite rev_involutive, app_nil_r.
Qed.

(** The lines of a text are the lines complete in a first part of it and
    the lines of what that part leaves with the rest. *)
Lemma complete_lines_iter n : forall s cur t,
  (length s ≤ n)%nat -> Forall no_line_end cur ->
  iter_lines cur (s ++ t)
  = (complete_lines cur s).1 ++ iter_lines [] ((complete_lines cur s).2 ++ t).
Proof.
  induction n as [|n IH]; intros s cur t Hn Hcur.
  - destruct s; [|cbn in Hn; lia]. cbn. by rewrite iter_lines_pending.
  - destruct s as [|c s]; [cbn; by rewrite iter_lines_pending|].
    cbn in Hn. cbn [app iter_lines complete_lines].
    destruct (c =? LF) eqn:Hlf.
    { rewrite (IH s [] t) by (lia || constructor).
      by destruct (complete_lines [] s). }
    destruct (c =? CR) eqn:Hcr.
    + apply N.eqb_eq in Hcr as ->. destruct s as [|c' s].
      * cbn [app fst snd rev]. rewrite <- app_assoc. cbn [app].
        rewrite iter_lines_pending by done. reflexivity.
      * cbn in Hn. cbn [app]. destruct (c' =? LF).
        -- rewrite (IH s [] t) by (lia || constructor).
           by destruct (complete_lines [] s).
        -- change (c' :: s ++ t) with ((c' :: s) ++ t).
           rewrite (IH (c' :: s) [] t) by (cbn; lia || constructor).
           by destruct (complete_lines [] (c' :: s)).
    + apply IH; [lia|]. constructor; [|done]. split; by apply N.eqb_neq.
Qed.

Lemma file_lines_decodable texts : forall pending,
  file_lines pending (map Ok texts) = map Ok (readlines (pending ++ concat texts)).
Proof.
  induction texts as [|text texts IH]; intros pending.
  - cbn. by rewrite app_nil_r.
  - cbn [map file_lines concat]. unfold readlines. rewrite app_assoc.
    rewrite (complete_lines_iter (length (pending ++ text)) (pending ++ text) [])
      by (done || constructor).
    destruct (complete_lines [] (pending ++ text)) as [lines pending'].
    cbn [fst snd]. by rewrite IH, map_app.
Qed.

Lemma strip_lines_Ok lines :
  strip_lines (map Ok lines) = map Ok (filter (fun line => strip line ≠ []) lines).
Proof.
  induction lines as [|line lines IH]; [done|].
  cbn [map strip_lines]. rewrite filter_cons.
  case_bool_decide; destruct (decide _); try done. cbn [map]. by rewrite IH.
Qed.

(** The lines of a file that decodes in full are those of its text,
    wherever the chunks end. *)
Lemma logical_lines_decodable texts :
  logical_lines (map Ok texts) = map Ok (text_lines (concat texts)).
Proof.
  unfold logical_lines, text_lines. rewrite (file_lines_decodable texts []). cbn [app].
  rewrite <- strip_lines_Ok. f_equal. rewrite <- !list_fmap_compose. reflexivity.
Qed.

Lemma getlogdate_logical_lines logfile logfile' :
  logical_lines logfile = logical_lines logfile' ->
  getlogdate_file logfile = getlogdate_file logfile'.
Proof.
  intros H. unfold getlogdate_file. fold (logical_lines logfile).
  fold (logical_lines logfile'). by rewrite H.
Qed.

(** X26. For a file that decodes in full, where its chunks end plays no
    part: two files with the same text have the same date (or fail
    alike). *)
Theorem chunks_do_not_matter os path path' texts texts' :
  open_text os path = Ok (map Ok texts) ->
  open_text os path' = Ok (map Ok texts') ->
  concat texts = concat texts' ->
  getlogdate os path = getlogdate os path'.
Proof.
  intros Ho Ho' Htext. unfold getlogdate. rewrite Ho, Ho'. cbn [mbind result_bind].
  apply getlogdate_logical_lines. by rewrite !logical_lines_decodable, Htext.
Qed.

Lemma chunks_do_not_matter_witness :
  getlogdate blank_logs (u "/logs/CM240102.csv") = getlogdate blank_logs (u "/logs/CM240103.csv").
Proof.
  apply (chunks_do_not_matter blank_logs _ _
           [app (u header_row) (CR :: LF :: u "01.01.2024;00:"); app (u "00:10") [LF]]
           [app (u header_row) [CR]; LF :: app (u "01.01.2024;00:00:10") [LF]]).
  - vm_compute. reflexivity.
  - vm_compute. reflexivity.
  - vm_compute. reflexivity.
Defined.

(** ** Blank lines *)

(** A text that ends with LF is read line by line before what follows
    it. *)
Lemma iter_lines_app n : forall s cur t,
  (length s ≤ n)%nat ->
  iter_lines cur ((s ++ [LF]) ++ t) = iter_lines cur (s ++ [LF]) ++ iter_lines [] t.
Proof.
  induction n as [|n IH]; intros s cur t Hn.
  - destruct s; [|cbn in Hn; lia]. reflexivity.
  - destruct s as [|c s]; [reflexivity|]. cbn in Hn. cbn [app iter_lines].
    destruct (c =? LF).
    + cbn [app]. f_equal. apply IH. lia.
    + destruct (c =? CR).
      * destruct s as [|c' s]; [reflexivity|]. cbn in Hn. cbn [app].
        destruct (c' =? LF).
        -- cbn [app]. f_equal. apply IH. lia.
        -- cbn [app]. f_equal. apply (IH (c' :: s)). cbn. lia.
      * apply IH. lia.
Qed.

Lemma readlines_app pre t :
  pre = [] \/ last pre = Some LF -> readlines (pre ++ t) = readlines pre ++ readlines t.
Proof.
  intros [->|Hlast]; [reflexivity|].
  destruct pre as [|c pre _] using rev_ind; [done|].
  rewrite last_snoc in Hlast. injection Hlast as ->.
  unfold readlines. by apply (iter_lines_app (length pre)).
Qed.

Lemma iter_lines_Forall (P : char -> Prop) n : forall s cur,
  (length s ≤ n)%nat -> Forall P cur -> Forall P s -> Forall (Forall P) (iter_lines cur s).
Proof.
  induction n as [|n IH]; intros s cur Hn Hcur Hs.
  - destruct s; [|cbn in Hn; lia]. cbn. destruct cur; [constructor|].
    repeat constructor. by apply Forall_rev.
  - destruct s as [|c s]; cbn [iter_lines].
    + destruct cur; [constructor|]. repeat constructor. by apply Forall_rev.
    + cbn in Hn. apply Forall_cons in Hs as [Hc Hs].
      assert (Hline : Forall P (rev (c :: cur))) by (apply Forall_rev; by constructor).
      destruct (c =? LF); [constructor; [done|apply IH; [lia|constructor|done]]|].
      destruct (c =? CR); [|apply IH; [lia|by constructor|done]].
      destruct s as [|c' s]; [by repeat constructor|].
      cbn in Hn. apply Forall_cons in Hs as [Hc' Hs].
      destruct (c' =? LF).
      * constructor; [apply Forall_rev; by repeat constructor|].
        apply IH; [lia|constructor|done].
      * constructor; [done|]. apply IH; [cbn; lia|constructor|by constructor].
Qed.

Lemma blank_line_stripped line :
  Forall (fun c => c = NUL \/ isspace c = true) line -> strip (remove_nul line) = [].
Proof.
  intros Hline. unfold strip, trim, remove_nul.
  assert (drop_while isspace (filter (fun c => c ≠ NUL) line) = []) as ->; [|done].
  induction Hline as [|c line Hc _ IH]; [done|].
  rewrite filter_cons. destruct (decide (c ≠ NUL)) as [Hne|_]; [|exact IH].
  cbn [drop_while]. destruct Hc as [->|Hsp]; [done|]. rewrite Hsp. exact IH.
Qed.

Lemma text_lines_app pre t :
  pre = [] \/ last pre = Some LF ->
  text_lines (pre ++ t) = text_lines pre ++ text_lines t.
Proof.
  intros Hpre. unfold text_lines.
  by rewrite (readlines_app pre t Hpre), map_app, filter_app.
Qed.

Lemma text_lines_blank ws :
  Forall (fun c => c = NUL \/ isspace c = true) ws -> text_lines (ws ++ [LF]) = [].
Proof.
  intros Hws. unfold text_lines, readlines.
  assert (Hlines : Forall (Forall (fun c => c = NUL \/ isspace c = true))
                          (iter_lines [] (ws ++ [LF]))).
  { apply (iter_lines_Forall _ (length (ws ++ [LF]))); [done|constructor|].
    apply Forall_app. split; [done|]. apply Forall_singleton. right. reflexivity. }
  induction Hlines as [|line lines Hline _ IH]; [done|].
  cbn [map]. rewrite filter_cons. rewrite (blank_line_stripped line Hline).
  destruct (decide _); [done|exact IH].
Qed.

(** X19. Blank lines do not count: in a file that decodes in full, a line
    made of blanks and NUL characters only, put in at the start of the
    file or after the end of any line, changes neither the lines the csv
    reader gets nor the date [getlogdate] returns. *)
Theorem blank_lines_are_skipped os path path' texts texts' pre ws post :
  open_text os path = Ok (map Ok texts) ->
  open_text os path' = Ok (map Ok texts') ->
  concat texts = pre ++ (ws ++ [LF]) ++ post ->
  concat texts' = pre ++ post ->
  pre = [] \/ last pre = Some LF ->
  Forall (fun c => c = NUL \/ isspace c = true) ws ->
  logical_lines (map Ok texts) = logical_lines (map Ok texts')
  /\ getlogdate os path = getlogdate os path'.
Proof.
  intros Ho Ho' Ht Ht' Hpre Hws.
  assert (H : logical_lines (map Ok texts) = logical_lines (map Ok texts')).
  { rewrite !logical_lines_decodable, Ht, Ht'. f_equal.
    rewrite !(text_lines_app pre) by done.
    rewrite (text_lines_app (ws ++ [LF])) by (right; apply last_snoc).
    by rewrite (text_lines_blank ws Hws). }
  split; [done|]. unfold getlogdate. rewrite Ho, Ho'. cbn [mbind result_bind].
  by apply getlogdate_logical_lines.
Qed.

Lemma blank_lines_are_skipped_witness :
  logical_lines (map Ok [app (u header_row) [CR; LF];
                         app [NUL; 32; NUL; CR; LF] (app (u "01.01.2024;00:00:10") [LF])])
  = logical_lines (map Ok [app (u header_row) (CR :: LF :: u "01.01.2024;00:");
                           app (u "00:10") [LF]])
  /\ getlogdate blank_logs (u "/logs/CM240101.csv")
     = getlogdate blank_logs (u "/logs/CM240102.csv").
Proof.
  apply (blank_lines_are_skipped blank_logs _ _ _ _
           (u header_row ++ [CR; LF]) [NUL; 32; NUL; CR] (u "01.01.2024;00:00:10" ++ [LF])).
  - vm_compute. reflexivity.
  - vm_compute. reflexivity.
  - vm_compute. reflexivity.
  - vm_compute. reflexivity.
  - right. vm_compute. reflexivity.
  - repeat (apply Forall_cons; split; [first [by left | by right]|]). constructor.
Defined.

(** ** Which files parse *)


Lemma traverse_raised {A B} (f : A -> result B) l :
  raised (traverse f l) = false -> Forall (fun x => raised (f x) = false) l.
Proof.
  induction l as [|x l IH]; [constructor|]. cbn.
  destruct (f x) eqn:Hx; cbn; [|done]. destruct (traverse f l); cbn; [|done].
  intros _. constructor; [by rewrite Hx|by apply IH].
Qed.










Lemma row_time date values r :
  (exists cells,
     Forall2 (fun (ic : nat * (bytes -> result pyobj)) cell =>
                loose_call ic.2 (nth (S ic.1) values []) = Ok cell)
             (numbered_converters date) cells
     /\ make_record cells = Ok r) ->
  Time r = converted_time (nth 1 values []) date.
Proof.
  intros (cells & Hcells & Hr). apply make_record_Ok in Hr as ->.
  assert (H0 : numbered_converters date !! 0%nat
               = Some (0%nat, fun s => Datetime <$> convert_time s date)) by reflexivity.
  assert (Ht : record_cells r !! 0%nat = Some (Time r)) by reflexivity.
  pose proof (Forall2_lookup_lr _ _ _ _ _ _ Hcells H0 Ht) as H.
  cbn [fst snd] in H. rewrite loose_call_time in H. by injection H.
Qed.

Lemma date2num_Ok d x :
  date2num d = Ok x -> x = d /\ Forall (fun c => exists t, c = Datetime t) d.
Proof.
  unfold date2num. revert x. induction d as [|c d IH]; intros x; cbn [traverse].
  - by intros [= <-].
  - destruct c as [z|t|txt]; cbn [mbind result_bind]; try done.
    destruct (traverse _ d) as [x'|e]; cbn [mbind result_bind]; [|done].
    destruct (IH x' eq_refl) as [-> Hd]. intros [= <-]. split; [done|].
    constructor; [by exists t|done].
Qed.


Lemma times_of_rows os fname date contents a :
  open_bytes os fname = Ok contents ->
  genfromtxt os fname date = Ok a ->
  Forall2 (fun values c => c = converted_time (nth 1 values []) date)
          (raw_rows contents) (map Time (array_rows a)).
Proof.
  intros Hopen Ha. apply Forall2_fmap_r.
  eapply Forall2_impl; [exact (genfromtxt_rows os fname date contents a Hopen Ha)|].
  intros values r Hcells. by apply row_time.
Qed.

Lemma times_are_dates date rows cells :
  Forall2 (fun values c => c = converted_time (nth 1 values []) date) rows cells ->
  Forall (fun c => exists t, c = Datetime t) cells
  <-> Forall (fun values => raised (convert_time (nth 1 values []) date) = false) rows.
Proof.
  induction 1 as [|values c rows cells -> _ IH]; [by split|].
  rewrite !Forall_cons, IH. unfold converted_time.
  destruct (convert_time (nth 1 values []) date) as [t|e]; cbn [raised].
  - split; intros [_ ?]; (split; [|done]); [done|by exists t].
  - split; intros [H _]; [by destruct H|done].
Qed.



(** ** The shading of the graph *)

Lemma shade_at_status x y status k s :
  status !! k = Some s ->
  shade_at (set_data x y status) k
  = (filter (fun wc : string * string => s = Str (u wc.1)) shadings).*2.
Proof.
  intros Hs. unfold shade_at, set_data. cbn [shaded].
  induction shadings as [|[word colour] l IH]; [done|].
  cbn [map]. rewrite !filter_cons. cbn [fst snd].
  rewrite list_lookup_fmap, Hs. cbn [fmap option_fmap option_map].
  destruct (decide (s = Str (u word))) as [Heq|Hne].
  - rewrite decide_True by (by rewrite bool_decide_eq_true_2).
    cbn. by rewrite IH.
  - rewrite decide_False by (rewrite bool_decide_eq_false_2 by done; done).
    exact IH.
Qed.

(** X22. The shadings of [set_data] never overlap: a sample lies in at most
    one of the four coloured bands, and every band has an entry for every
    sample. *)
Theorem shading_bands_do_not_overlap x y status k :
  (length (shade_at (set_data x y status) k) ≤ 1)%nat
  /\ Forall (fun band => length band.2 = length status) (shaded (set_data x y status)).
Proof.
  split.
  - destruct (status !! k) as [s|] eqn:Hs.
    + rewrite (shade_at_status x y status k s Hs). unfold shadings.
      rewrite !filter_cons, filter_nil. cbn [fst snd].
      repeat case_decide; subst;
        try match goal with
            | H : Str _ = Str _ |- _ => vm_compute in H; discriminate H
            end;
        cbn; lia.
    + unfold shade_at, set_data. cbn [shaded shadings map].
      rewrite !filter_cons, filter_nil. cbn [fst snd].
      rewrite !list_lookup_fmap, Hs. cbn [fmap option_fmap option_map].
      repeat case_decide; try done; cbn; lia.
  - unfold set_data. cbn. repeat constructor; cbn; by rewrite length_map.
Qed.

Lemma row_status date values r :
  (exists cells,
     Forall2 (fun (ic : nat * (bytes -> result pyobj)) cell =>
                loose_call ic.2 (nth (S ic.1) values []) = Ok cell)
             (numbered_converters date) cells
     /\ make_record cells = Ok r) ->
  SM r = decoded_status (nth 12 values []).
Proof.
  intros (cells & Hcells & Hr). apply make_record_Ok in Hr as ->.
  assert (H11 : numbered_converters date !! 11%nat = Some (11%nat, fun s => Str <$> decode s))
    by reflexivity.
  assert (Hsm : record_cells r !! 11%nat = Some (SM r)) by reflexivity.
  pose proof (Forall2_lookup_lr _ _ _ _ _ _ Hcells H11 Hsm) as H.
  cbn [fst snd] in H. rewrite loose_call_status in H. by injection H.
Qed.

Lemma status_of_row os fname date contents a k values :
  open_bytes os fname = Ok contents ->
  genfromtxt os fname date = Ok a ->
  raw_rows contents !! k = Some values ->
  map SM (array_rows a) !! k = Some (decoded_status (nth 12 values [])).
Proof.
  intros Hopen Ha Hvalues.
  pose proof (genfromtxt_rows os fname date contents a Hopen Ha) as Hrows.
  destruct (Forall2_lookup_l _ _ _ _ _ Hrows Hvalues) as (r & Hr & Hcells).
  rewrite list_lookup_fmap, Hr. cbn. f_equal. by eapply row_status.
Qed.

Lemma utf8_decode_ascii fuel : forall v,
  (length v ≤ fuel)%nat -> forallb (fun x => x <=? 127) v = true -> utf8_decode fuel v = Ok v.
Proof.
  induction fuel as [|fuel IH]; intros [|x v] Hlen Hv; cbn in *; try done; [lia|].
  apply andb_prop in Hv as [-> Hv]. rewrite IH by (done || lia). done.
Qed.

Lemma decode_ascii raw : isascii raw = true -> decode raw = Ok (map Byte.to_N raw).
Proof.
  intros H. unfold decode. apply utf8_decode_ascii; [by rewrite length_map|].
  unfold isascii in H. induction raw as [|x raw IH]; cbn [forallb map] in *; [done|].
  apply andb_prop in H as [-> H]. by apply IH.
Qed.

Lemma to_N_inj v w : map Byte.to_N v = map Byte.to_N w -> v = w.
Proof.
  revert w. induction v as [|x v IH]; intros [|y w]; cbn; try done.
  intros [= Hxy Hvw]. f_equal; [|by apply IH].
  pose proof (Byte.of_to_N x) as Hx. rewrite Hxy, Byte.of_to_N in Hx. by injection Hx.
Qed.

(** X23. The shading of a row follows its status field.  A field that
    cannot be decoded is shaded red, as Burning is; each of the four known
    words has its colour. *)
Theorem shading_follows_status_field os fname date contents a k values x y :
  open_bytes os fname = Ok contents ->
  genfromtxt os fname date = Ok a ->
  raw_rows contents !! k = Some values ->
  let shade := shade_at (set_data x y (map SM (array_rows a))) k in
  (raised (decode (nth 12 values [])) = true -> shade = ["red"]%string)
  /\ Forall (fun wc : string * string => nth 12 values [] = b wc.1 -> shade = [wc.2]) shadings.
Proof.
  intros Hopen Ha Hvalues shade. unfold shade.
  rewrite (shade_at_status _ _ _ _ _ (status_of_row _ _ _ _ _ _ _ Hopen Ha Hvalues)).
  split.
  - unfold decoded_status. destruct (decode _); [done|]. intros _. reflexivity.
  - repeat constructor; cbn [fst snd]; intros ->; reflexivity.
Qed.

Lemma shading_follows_status_field_witness :
  let shade := shade_at (set_data [] []
                 (map SM [mk_record (Datetime (mk_datetime 2024 1 1 0 0 10)) 1 2 3 4 5 6 7 8 9 10
                            (Str (u "Standby"));
                          mk_record (Datetime (mk_datetime 2024 1 1 0 1 10)) 1 2 3 4 5 6 7 8 9 10
                            (Str (u "Zuendung"))])) 1 in
  (raised (decode (nth 12 (map b ["01.01.2024"; "00:01:10"; "1"; "2"; "3"; "4"; "5"; "6";
                                  "7"; "8"; "9"; "10"; "Zuendung"]%string) [])) = true ->
   shade = ["red"]%string)
  /\ Forall (fun wc : string * string =>
               nth 12 (map b ["01.01.2024"; "00:01:10"; "1"; "2"; "3"; "4"; "5"; "6";
                              "7"; "8"; "9"; "10"; "Zuendung"]%string) [] = b wc.1 ->
               shade = [wc.2]) shadings.
Proof.
  apply (shading_follows_status_field standby_logs (u "/logs/CM240101.csv") (u "2024-01-01")
           (file_bytes [header_row;
                        "01.01.2024;00:00:10;1;2;3;4;5;6;7;8;9;10;Standby";
                        "01.01.2024;00:01:10;1;2;3;4;5;6;7;8;9;10;Zuendung"]%string)
           (Array1 _) 1
           (map b ["01.01.2024"; "00:01:10"; "1"; "2"; "3"; "4"; "5"; "6";
                   "7"; "8"; "9"; "10"; "Zuendung"]%string) [] []).
  - vm_compute. reflexivity.
  - vm_compute. reflexivity.
  - vm_compute. reflexivity.
Defined.

(** X24. A status field of ASCII characters is shown as it is written: the
    record and the cell of the detail table hold its characters.  When it
    is none of the four known words, the row is not shaded. *)
Theorem ascii_status_is_shown_as_written os fname date contents a k values r x y :
  open_bytes os fname = Ok contents ->
  genfromtxt os fname date = Ok a ->
  raw_rows contents !! k = Some values ->
  array_rows a !! k = Some r ->
  isascii (nth 12 values []) = true ->
  cell_text (SM r) = map Byte.to_N (nth 12 values [])
  /\ (nth 12 values [] ∉ map b known_statuses ->
      shade_at (set_data x y (map SM (array_rows a))) k = []).
Proof.
  intros Hopen Ha Hvalues Hr Hascii.
  pose proof (status_of_row _ _ _ _ _ _ _ Hopen Ha Hvalues) as Hs.
  assert (Hsm : SM r = Str (map Byte.to_N (nth 12 values []))).
  { rewrite list_lookup_fmap, Hr in Hs. injection Hs as ->.
    unfold decoded_status. by rewrite (decode_ascii _ Hascii). }
  split; [by rewrite Hsm|].
  intros Hnot. rewrite (shade_at_status _ _ _ _ _ Hs).
  unfold decoded_status. rewrite (decode_ascii _ Hascii).
  unfold shadings. rewrite !filter_cons, filter_nil. cbn [fst snd].
  repeat case_decide; try done; exfalso; apply Hnot;
    match goal with
    | H : Str _ = Str (u ?word) |- _ =>
        injection H as H; apply to_N_inj in H; rewrite H
    end;
    apply (bool_decide_unpack _); vm_compute; exact I.
Qed.

Lemma ascii_status_is_shown_as_written_witness :
  cell_text (SM (mk_record (Datetime (mk_datetime 2024 1 1 0 0 10)) 1 2 3 4 5 6 7 8 9 10
                   (Str (u "Standby"))))
  = map Byte.to_N (nth 12 (map b ["01.01.2024"; "00:00:10"; "1"; "2"; "3"; "4"; "5"; "6";
                                  "7"; "8"; "9"; "10"; "Standby"]%string) [])
  /\ (nth 12 (map b ["01.01.2024"; "00:00:10"; "1"; "2"; "3"; "4"; "5"; "6";
                     "7"; "8"; "9"; "10"; "Standby"]%string) [] ∉ map b known_statuses ->
      shade_at (set_data [] []
                  (map SM [mk_record (Datetime (mk_datetime 2024 1 1 0 0 10)) 1 2 3 4 5 6 7 8 9 10
                             (Str (u "Standby"));
                           mk_record (Datetime (mk_datetime 2024 1 1 0 1 10)) 1 2 3 4 5 6 7 8 9 10
                             (Str (u "Zuendung"))])) 0 = []).
Proof.
  apply (ascii_status_is_shown_as_written standby_logs (u "/logs/CM240101.csv")
           (u "2024-01-01")
           (file_bytes [header_row;
                        "01.01.2024;00:00:10;1;2;3;4;5;6;7;8;9;10;Standby";
                        "01.01.2024;00:01:10;1;2;3;4;5;6;7;8;9;10;Zuendung"]%string)
           (Array1 _) 0
           (map b ["01.01.2024"; "00:00:10"; "1"; "2"; "3"; "4"; "5"; "6";
                   "7"; "8"; "9"; "10"; "Standby"]%string) _ [] []).
  - vm_compute. reflexivity.
  - vm_compute. reflexivity.
  - vm_compute. reflexivity.
  - vm_compute. reflexivity.
  - vm_compute. reflexivity.
Defined.

(** ** A time that cannot be read *)

(** X27. A log with a time field that cannot be read is not drawn.  When
    the file of a date of the dictionary parses and has two data rows or
    more, but some time field of it cannot be read on that date,
    [item_activated] fills the detail table, a row for every data row, and
    is then left by an exception: no canvas is added, no warning is shown
    and the tab stays as it was. *)
Theorem unreadable_time_is_not_drawn os date w fname contents a :
  logfiles w !! date = Some fname ->
  open_bytes os fname = Ok contents ->
  genfromtxt os fname date = Ok a ->
  (2 ≤ length (raw_rows contents))%nat ->
  Exists (fun values => raised (convert_time (nth 1 values []) date) = true)
         (raw_rows contents) ->
  let end_ := item_activated os (TableItem date) w in
  raised end_.2 = true
  /\ length (logdetaillist end_.1) = length (raw_rows contents)
  /\ graphs end_.1 = graphs w
  /\ warnings end_.1 = warnings w
  /\ currentIndex end_.1 = currentIndex w.
Proof.
  intros Hw Hopen Ha Htwo Hbad. unfold item_activated. rewrite Hw, Ha.
  pose proof (Forall2_length _ _ _ (genfromtxt_rows os fname date contents a Hopen Ha)) as Hlen.
  pose proof (genfromtxt_squeeze os fname date a Ha) as Hsq.
  pose proof (times_are_dates _ _ _ (times_of_rows os fname date contents a Hopen Ha)) as Ht.
  destruct a as [r|[|r [|r' rows]]]; cbn [array_rows length] in *; [lia|lia|done|].
  destruct (date2num _) as [x|e] eqn:Hd.
  - apply date2num_Ok in Hd as [_ Hd]. apply Ht in Hd. exfalso.
    apply Exists_exists in Hbad as (values & Hin & Hraised).
    rewrite Forall_forall in Hd. specialize (Hd values Hin). congruence.
  - cbn zeta. cbn [fst snd raised set_logdetaillist logdetaillist graphs warnings currentIndex].
    split_and!; try done. by rewrite length_map.
Qed.

Lemma unreadable_time_is_not_drawn_witness :
  let end_ := item_activated odd_time_logs (TableItem (u "2024-01-01")) scanned_window in
  raised end_.2 = true
  /\ length (logdetaillist end_.1)
     = length (raw_rows (file_bytes [header_row;
                  "01.01.2024;00:00:10;1;2;3;4;5;6;7;8;9;10;Burning";
                  "01.01.2024;24:00:00;+1;-2;03;4;5;6;7;8;9;10;Burning"]%string))
  /\ graphs end_.1 = graphs scanned_window
  /\ warnings end_.1 = warnings scanned_window
  /\ currentIndex end_.1 = currentIndex scanned_window.
Proof.
  apply (unreadable_time_is_not_drawn odd_time_logs (u "2024-01-01") scanned_window
           (u "/logs/CM240101.csv") _
           (Array1 [mk_record (Datetime (mk_datetime 2024 1 1 0 0 10)) 1 2 3 4 5 6 7 8 9 10
                      (Str (u "Burning"));
                    mk_record (Str (u "Burning")) 1 (-2) 3 4 5 6 7 8 9 10 (Str (u "Burning"))])).
  - vm_compute. reflexivity.
  - vm_compute. reflexivity.
  - vm_compute. reflexivity.
  - vm_compute. lia.
  - apply (bool_decide_unpack _). vm_compute. exact I.
Defined.
